(** * JSON-RPC transport of claude-code-go: envelope codec, server router,
      client correlator

    The development follows [internal/mcp/server.go], [internal/mcp/client.go]
    and [internal/tools/registry.go], and the caller of the server in
    [internal/agent/enhanced_agent.go].

    - Go values held in [interface{}] fields are trees of [Value]; the
      dynamic type is part of the value ([VInt64 1] and [VFloat64 1] are
      different values, and different map keys).
    - The wire carries JSON trees ([JSON]).  A number literal is
      represented by its value; only integral literals are modelled, which
      covers every id and error code the program produces.
    - [encoding/json] is the Go standard library; its behaviour on the
      struct tags of the envelope types is written out in [encodeRequest],
      [decodeRequest], [encodeResponse], [decodeResponse].  Keys are matched
      exactly or up to ASCII letter case. *)

From Stdlib Require Import ZArith Lia Ascii.
From stdpp Require Import gmap strings list fin_maps sorting pretty.

Set Warnings "-register-all".
Set Default Proof Using "Type".

Local Open Scope Z_scope.

(** ** Go values *)

(** [error] is [nil] or a value with a message. *)
Definition error := option string.

(** The dynamic values that travel through [interface{}] fields.
    [VFloat64 n] is the float64 whose value is the integer [n].
    [VMap] stands for [map[string]interface{}] and for boxed structs, which
    the encoder emits as JSON objects as well. *)
Inductive Value :=
| VNil
| VBool (b : bool)
| VInt64 (n : Z)
| VFloat64 (n : Z)
| VString (s : string)
| VSlice (l : list Value)
| VMap (m : gmap string Value).

(** Two's complement wrap-around of int64 arithmetic. *)
Definition wrap64 (z : Z) : Z := (z + 2 ^ 63) mod 2 ^ 64 - 2 ^ 63.

(** The float64 nearest to the integer [z] (53 significant bits, ties to
    even), as [strconv.ParseFloat] computes it for an integral literal. *)
Definition float64_of_Z (z : Z) : Z :=
  let a := Z.abs z in
  let k := Z.log2 a - 52 in
  if k <=? 0 then z
  else
    let q := Z.shiftr a k in
    let r := Z.land a (Z.ones k) in
    let half := Z.shiftl 1 (k - 1) in
    let q' := if r <? half then q
              else if half <? r then q + 1
              else if Z.even q then q else q + 1 in
    Z.sgn z * Z.shiftl q' k.

(** Largest magnitude a float64 holds is below [2^1024]. *)
Definition float64_in_range (f : Z) : bool := Z.abs f <? 2 ^ 1024.

(** Keys of a [map[interface{}]T]: the comparable dynamic values.  Slices
    and maps are not comparable; using one as a key panics at run time. *)
Inductive Key :=
| KNil
| KBool (b : bool)
| KInt64 (n : Z)
| KFloat64 (n : Z)
| KString (s : string).

#[global] Instance Key_eq_dec : EqDecision Key.
Proof. solve_decision. Defined.

Definition Key_to_sum (k : Key) : unit + bool + Z + Z + string :=
  match k with
  | KNil => inl (inl (inl (inl tt)))
  | KBool b => inl (inl (inl (inr b)))
  | KInt64 n => inl (inl (inr n))
  | KFloat64 n => inl (inr n)
  | KString s => inr s
  end.

Definition Key_of_sum (x : unit + bool + Z + Z + string) : Key :=
  match x with
  | inl (inl (inl (inl _))) => KNil
  | inl (inl (inl (inr b))) => KBool b
  | inl (inl (inr n)) => KInt64 n
  | inl (inr n) => KFloat64 n
  | inr s => KString s
  end.

#[global] Instance Key_countable : Countable Key.
Proof.
  apply (inj_countable' Key_to_sum Key_of_sum).
  intros []; reflexivity.
Defined.

(** Hashing an interface value: [None] is the run-time panic
    "hash of unhashable type". *)
Definition to_key (v : Value) : option Key :=
  match v with
  | VNil => Some KNil
  | VBool b => Some (KBool b)
  | VInt64 n => Some (KInt64 n)
  | VFloat64 n => Some (KFloat64 n)
  | VString s => Some (KString s)
  | VSlice _ => None
  | VMap _ => None
  end.

(** ** JSON trees *)

Inductive JSON :=
| JNull
| JBool (b : bool)
| JNum (n : Z)
| JStr (s : string)
| JArr (l : list JSON)
| JObj (l : list (string * JSON)).

(** Byte order of member keys. *)
Definition member_le {A} (a b : string * A) : Prop := String.leb a.1 b.1 = true.

#[global] Instance member_le_dec {A} (a b : string * A) : Decision (member_le a b).
Proof. unfold member_le. apply _. Defined.

(** The members of a Go map in the order [json.Marshal] writes them:
    sorted by key. *)
Definition sorted_members {A} (m : gmap string A) : list (string * A) :=
  merge_sort member_le (map_to_list m).

(** [json.Marshal] of a value held in an [interface{}]. *)
Fixpoint encodeValue (v : Value) : JSON :=
  match v with
  | VNil => JNull
  | VBool b => JBool b
  | VInt64 n => JNum n
  | VFloat64 n => JNum n
  | VString s => JStr s
  | VSlice l => JArr (map encodeValue l)
  | VMap m => JObj (sorted_members (encodeValue <$> m))
  end.

(** Go's object decoding keeps the last of several members with one key. *)
Definition members_to_map {A} (l : list (string * A)) : gmap string A :=
  list_to_map (reverse l).

(** [json.Unmarshal] into an [interface{}]: numbers become float64, objects
    become [map[string]interface{}].  [None] is a decode error (a number
    outside the float64 range). *)
Fixpoint decodeValue (j : JSON) : option Value :=
  match j with
  | JNull => Some VNil
  | JBool b => Some (VBool b)
  | JNum n =>
      let f := float64_of_Z n in
      if float64_in_range f then Some (VFloat64 f) else None
  | JStr s => Some (VString s)
  | JArr l => VSlice <$> mapM decodeValue l
  | JObj l =>
      (λ kvs, VMap (members_to_map kvs)) <$>
        mapM (λ kv, pair (fst kv) <$> decodeValue (snd kv)) l
  end.

(** ** Struct decoding helpers of [encoding/json] *)

Definition ascii_lower (c : ascii) : ascii :=
  let n := nat_of_ascii c in
  if ((65 <=? n) && (n <=? 90))%nat then ascii_of_nat (n + 32) else c.

Definition is_byte (n : nat) (c : ascii) : bool := (nat_of_ascii c =? n)%nat.

(** Case folding of a member key, as far as it can meet a tag written in
    ASCII: a capital letter folds to the small one, and so do the two
    other characters of Unicode that fold to an ASCII letter, the long s
    U+017F (bytes C5 BF) to s and the Kelvin sign U+212A (bytes E2 84 AA)
    to k. *)
Fixpoint fold_key (s : string) : string :=
  match s with
  | EmptyString => EmptyString
  | String c s1 =>
      match s1 with
      | String c2 s2 =>
          if is_byte 197 c && is_byte 191 c2 then String "s" (fold_key s2)
          else
            match s2 with
            | String c3 s3 =>
                if is_byte 226 c && is_byte 132 c2 && is_byte 170 c3
                then String "k" (fold_key s3)
                else String (ascii_lower c) (fold_key s1)
            | EmptyString => String (ascii_lower c) (fold_key s1)
            end
      | EmptyString => String (ascii_lower c) EmptyString
      end
  end.

(** A member key selects the struct field tagged [tag]: it is the tag, or
    equal to it under case folding. *)
Definition key_is (tag key : string) : bool :=
  String.eqb (fold_key key) (fold_key tag).

(** Decoding into a [string] field: [null] leaves the field alone, any
    other non-string is an [UnmarshalTypeError]. *)
Definition decode_string (j : JSON) (old : string) : option string :=
  match j with
  | JStr s => Some s
  | JNull => Some old
  | _ => None
  end.

(** Decoding into an [int] field (64 bits). *)
Definition decode_int (j : JSON) (old : Z) : option Z :=
  match j with
  | JNum n => if (- 2 ^ 63 <=? n) && (n <? 2 ^ 63) then Some n else None
  | JNull => Some old
  | _ => None
  end.

(** Members are decoded one after the other, in the order of the text; the
    first failing member makes the whole [Decode] fail. *)
Fixpoint decode_members {A} (f : A → string * JSON → option A)
    (l : list (string * JSON)) (a : A) : option A :=
  match l with
  | [] => Some a
  | kv :: l' =>
      match f a kv with
      | Some a' => decode_members f l' a'
      | None => None
      end
  end.

(** ** Envelope types (server.go, lines 39-57) *)

Module MCPError.
Record t := mk { Code : Z; Message : string; Data : Value }.
Definition zero : t := mk 0 "" VNil.
End MCPError.

Module MCPRequest.
Record t := mk { JSONRPC : string; ID : Value; Method : string; Params : Value }.
Definition zero : t := mk "" VNil "" VNil.
End MCPRequest.

Module MCPResponse.
Record t := mk
  { JSONRPC : string; ID : Value; Result : Value; Error : option MCPError.t }.
Definition zero : t := mk "" VNil VNil None.
End MCPResponse.

(** ** Envelope codec *)

(** A field tagged [omitempty] of interface type is left out when nil. *)
Definition omitempty (tag : string) (v : Value) : list (string * JSON) :=
  match v with
  | VNil => []
  | _ => [(tag, encodeValue v)]
  end.

Definition encodeError (e : MCPError.t) : JSON :=
  JObj ([("code", JNum (MCPError.Code e));
         ("message", JStr (MCPError.Message e))]
        ++ omitempty "data" (MCPError.Data e)).

Definition encodeRequest (r : MCPRequest.t) : JSON :=
  JObj ([("jsonrpc", JStr (MCPRequest.JSONRPC r));
         ("id", encodeValue (MCPRequest.ID r));
         ("method", JStr (MCPRequest.Method r))]
        ++ omitempty "params" (MCPRequest.Params r)).

Definition encodeResponse (r : MCPResponse.t) : JSON :=
  JObj ([("jsonrpc", JStr (MCPResponse.JSONRPC r))]
        ++ omitempty "id" (MCPResponse.ID r)
        ++ omitempty "result" (MCPResponse.Result r)
        ++ match MCPResponse.Error r with
           | Some e => [("error", encodeError e)]
           | None => []
           end).

Definition decodeError_member (e : MCPError.t) (kv : string * JSON)
  : option MCPError.t :=
  let '(k, j) := kv in
  if key_is "code" k then
    c ← decode_int j (MCPError.Code e);
    Some (MCPError.mk c (MCPError.Message e) (MCPError.Data e))
  else if key_is "message" k then
    m ← decode_string j (MCPError.Message e);
    Some (MCPError.mk (MCPError.Code e) m (MCPError.Data e))
  else if key_is "data" k then
    d ← decodeValue j;
    Some (MCPError.mk (MCPError.Code e) (MCPError.Message e) d)
  else Some e.

(** Decoding into the [*MCPError] field: [null] resets the pointer, an
    object fills the struct behind it (allocated when the pointer is nil). *)
Definition decodeError (j : JSON) (old : option MCPError.t)
  : option (option MCPError.t) :=
  match j with
  | JNull => Some None
  | JObj l => Some <$> decode_members decodeError_member l (default MCPError.zero old)
  | _ => None
  end.

Definition decodeRequest_member (r : MCPRequest.t) (kv : string * JSON)
  : option MCPRequest.t :=
  let '(k, j) := kv in
  if key_is "jsonrpc" k then
    s ← decode_string j (MCPRequest.JSONRPC r);
    Some (MCPRequest.mk s (MCPRequest.ID r) (MCPRequest.Method r) (MCPRequest.Params r))
  else if key_is "id" k then
    v ← decodeValue j;
    Some (MCPRequest.mk (MCPRequest.JSONRPC r) v (MCPRequest.Method r) (MCPRequest.Params r))
  else if key_is "method" k then
    s ← decode_string j (MCPRequest.Method r);
    Some (MCPRequest.mk (MCPRequest.JSONRPC r) (MCPRequest.ID r) s (MCPRequest.Params r))
  else if key_is "params" k then
    v ← decodeValue j;
    Some (MCPRequest.mk (MCPRequest.JSONRPC r) (MCPRequest.ID r) (MCPRequest.Method r) v)
  else Some r.

(** [decoder.Decode(&req)] with [var req MCPRequest] (server.go, 160-161).
    [None] is a decode error. *)
Definition decodeRequest (j : JSON) : option MCPRequest.t :=
  match j with
  | JNull => Some MCPRequest.zero
  | JObj l => decode_members decodeRequest_member l MCPRequest.zero
  | _ => None
  end.

Definition decodeResponse_member (r : MCPResponse.t) (kv : string * JSON)
  : option MCPResponse.t :=
  let '(k, j) := kv in
  if key_is "jsonrpc" k then
    s ← decode_string j (MCPResponse.JSONRPC r);
    Some (MCPResponse.mk s (MCPResponse.ID r) (MCPResponse.Result r) (MCPResponse.Error r))
  else if key_is "id" k then
    v ← decodeValue j;
    Some (MCPResponse.mk (MCPResponse.JSONRPC r) v (MCPResponse.Result r) (MCPResponse.Error r))
  else if key_is "result" k then
    v ← decodeValue j;
    Some (MCPResponse.mk (MCPResponse.JSONRPC r) (MCPResponse.ID r) v (MCPResponse.Error r))
  else if key_is "error" k then
    e ← decodeError j (MCPResponse.Error r);
    Some (MCPResponse.mk (MCPResponse.JSONRPC r) (MCPResponse.ID r) (MCPResponse.Result r) e)
  else Some r.

(** [decoder.Decode(&resp)] with [var resp MCPResponse] (client.go,
    187-188). *)
Definition decodeResponse (j : JSON) : option MCPResponse.t :=
  match j with
  | JNull => Some MCPResponse.zero
  | JObj l => decode_members decodeResponse_member l MCPResponse.zero
  | _ => None
  end.

(** The values that come back from the wire as they went: no int64, and
    float64 numbers that are their own nearest float64. *)
Inductive wireStable : Value → Prop :=
| WS_nil : wireStable VNil
| WS_bool (b : bool) : wireStable (VBool b)
| WS_float (f : Z) :
    float64_of_Z f = f → float64_in_range f = true → wireStable (VFloat64 f)
| WS_string (s : string) : wireStable (VString s)
| WS_slice (l : list Value) :
    (∀ v, v ∈ l → wireStable v) → wireStable (VSlice l)
| WS_map (m : gmap string Value) :
    (∀ k v, m !! k = Some v → wireStable v) → wireStable (VMap m).

(** An error object that comes back as it went: the code fits an [int]. *)
Definition stableError (e : MCPError.t) : Prop :=
  - 2 ^ 63 ≤ MCPError.Code e < 2 ^ 63 ∧ wireStable (MCPError.Data e).

(** Induction on JSON trees, with the hypothesis for every element of an
    array and every member of an object. *)
Section JSON_induction.
Variable P : JSON → Prop.
Hypothesis Hnull : P JNull.
Hypothesis Hbool : ∀ b, P (JBool b).
Hypothesis Hnum : ∀ n, P (JNum n).
Hypothesis Hstr : ∀ s, P (JStr s).
Hypothesis Harr : ∀ l, Forall P l → P (JArr l).
Hypothesis Hobj : ∀ l, Forall (λ kv : string * JSON, P kv.2) l → P (JObj l).

Fixpoint JSON_nested_ind (j : JSON) : P j :=
  match j with
  | JNull => Hnull
  | JBool b => Hbool b
  | JNum n => Hnum n
  | JStr s => Hstr s
  | JArr l =>
      Harr l ((fix go (l : list JSON) : Forall P l :=
                 match l with
                 | [] => @List.Forall_nil _ P
                 | x :: l' => @List.Forall_cons _ P x l' (JSON_nested_ind x) (go l')
                 end) l)
  | JObj l =>
      Hobj l ((fix go (l : list (string * JSON))
                 : Forall (λ kv : string * JSON, P kv.2) l :=
                 match l with
                 | [] => @List.Forall_nil _ _
                 | kv :: l' =>
                     @List.Forall_cons _ (λ kv : string * JSON, P kv.2) kv l'
                       (JSON_nested_ind kv.2) (go l')
                 end) l)
  end.
End JSON_induction.

(** ** Typed request parameters (server.go, 248-251 and 305-307) *)

Module CallToolParams.
Record t := mk { Name : string; Arguments : gmap string Value }.
Definition zero : t := mk "" ∅.
End CallToolParams.

Module ReadResourceParams.
Record t := mk { URI : string }.
Definition zero : t := mk "".
End ReadResourceParams.

(** [json.Unmarshal(paramsJSON, &params)] with the error dropped: a member
    of the wrong type is skipped and the other members are still stored. *)
Definition unmarshalCallToolParams_member (p : CallToolParams.t)
    (kv : string * JSON) : CallToolParams.t :=
  let '(k, j) := kv in
  if key_is "name" k then
    match j with
    | JStr s => CallToolParams.mk s (CallToolParams.Arguments p)
    | _ => p
    end
  else if key_is "arguments" k then
    match j with
    | JNull => CallToolParams.mk (CallToolParams.Name p) ∅
    | JObj _ =>
        match decodeValue j with
        | Some (VMap m) =>
            CallToolParams.mk (CallToolParams.Name p) (m ∪ CallToolParams.Arguments p)
        | _ => p
        end
    | _ => p
    end
  else p.

Definition unmarshalCallToolParams (j : JSON) : CallToolParams.t :=
  match j with
  | JObj l => foldl unmarshalCallToolParams_member CallToolParams.zero l
  | _ => CallToolParams.zero
  end.

Definition unmarshalReadResourceParams_member (p : ReadResourceParams.t)
    (kv : string * JSON) : ReadResourceParams.t :=
  let '(k, j) := kv in
  if key_is "uri" k then
    match j with
    | JStr s => ReadResourceParams.mk s
    | _ => p
    end
  else p.

Definition unmarshalReadResourceParams (j : JSON) : ReadResourceParams.t :=
  match j with
  | JObj l => foldl unmarshalReadResourceParams_member ReadResourceParams.zero l
  | _ => ReadResourceParams.zero
  end.

(** The type assertion [req.Params.(map[string]interface{})] succeeds. *)
Definition isObject (v : Value) : bool :=
  match v with
  | VMap _ => true
  | _ => false
  end.

(** server.go, 254-258: the params are decoded only when they are a
    [map[string]interface{}]; otherwise the struct keeps its zero value. *)
Definition decodeCallToolParams (params : Value) : CallToolParams.t :=
  match params with
  | VMap paramsData => unmarshalCallToolParams (encodeValue (VMap paramsData))
  | _ => CallToolParams.zero
  end.

(** server.go, 310-314. *)
Definition decodeReadResourceParams (params : Value) : ReadResourceParams.t :=
  match params with
  | VMap paramsData => unmarshalReadResourceParams (encodeValue (VMap paramsData))
  | _ => ReadResourceParams.zero
  end.

(** ** Server data (server.go, 15-37 and 75-84) *)

Module ServerCapabilities.
Record t := mk { Tools : bool; Resources : bool; Prompts : bool }.
End ServerCapabilities.

Module ServerInfo.
Record t := mk { Name : string; Version : string }.
Definition zero : t := mk "" "".
End ServerInfo.

Module InitializeResult.
Record t := mk
  { ProtocolVersion : string;
    Capabilities : ServerCapabilities.t;
    ServerInfo : ServerInfo.t }.
End InitializeResult.

Module Resource.
Record t := mk
  { URI : string; Name : string; Description : string; MimeType : string;
    Metadata : gmap string string }.
End Resource.

Module MCPTool.
Record t := mk { Name : string; Description : string; InputSchema : Value }.
End MCPTool.

(** Structs stored in the [Result] field, as the trees the encoder walks.
    Field names are the [json] tags. *)
Definition box_ServerCapabilities (c : ServerCapabilities.t) : Value :=
  VMap {[ "tools" := VBool (ServerCapabilities.Tools c);
          "resources" := VBool (ServerCapabilities.Resources c);
          "prompts" := VBool (ServerCapabilities.Prompts c) ]}.

Definition box_ServerInfo (i : ServerInfo.t) : Value :=
  VMap {[ "name" := VString (ServerInfo.Name i);
          "version" := VString (ServerInfo.Version i) ]}.

Definition box_InitializeResult (r : InitializeResult.t) : Value :=
  VMap {[ "protocolVersion" := VString (InitializeResult.ProtocolVersion r);
          "capabilities" := box_ServerCapabilities (InitializeResult.Capabilities r);
          "serverInfo" := box_ServerInfo (InitializeResult.ServerInfo r) ]}.

Definition box_MCPTool (t : MCPTool.t) : Value :=
  VMap {[ "name" := VString (MCPTool.Name t);
          "description" := VString (MCPTool.Description t);
          "inputSchema" := MCPTool.InputSchema t ]}.

(** [Metadata] is tagged [omitempty]: an empty map is left out. *)
Definition box_Resource (r : Resource.t) : Value :=
  let fields : gmap string Value :=
    {[ "uri" := VString (Resource.URI r);
       "name" := VString (Resource.Name r);
       "description" := VString (Resource.Description r);
       "mimeType" := VString (Resource.MimeType r) ]} in
  VMap (if decide (Resource.Metadata r = ∅) then fields
        else <["metadata" := VMap (VString <$> Resource.Metadata r)]> fields).

(** ** The operating system behind tools and file resources

    Tools and [os.ReadFile] act on the state of the machine, [World].
    Opening the empty path always fails. *)
Class OS := {
  World : Type;
  ReadFile : string → World → string * error;
  ReadFile_empty_path : ∀ w, (ReadFile "" w).2 ≠ None
}.

(** ** Tool registry (registry.go, 14-67) *)

(** [Execute] is what the method returns; [Panics] tells the arguments and
    machines on which it does not return but panics. *)
Module Tool.
Record t `{OS} := mk
  { Name : string;
    Description : string;
    Parameters : Value;
    Execute : gmap string Value → World → (string * error) * World;
    Panics : gmap string Value → World → bool }.
Arguments mk {_} _ _ _ _ _.
End Tool.

(** [llm.Tool] and [llm.ToolFunction], as [GetAvailable] fills them. *)
Module ToolFunction.
Record t := mk { Name : string; Description : string; Parameters : Value }.
End ToolFunction.

Module LLMTool.
Record t := mk { Type_ : string; Function : ToolFunction.t }.
End LLMTool.

Module Registry.
Section Registry.
Context `{OS}.

Record t := mk { tools : gmap string Tool.t }.

Definition Register (tool : Tool.t) (r : t) : t :=
  mk (<[Tool.Name tool := tool]> (tools r)).

(** The order of a Go map iteration is not specified; the order of
    [map_to_list] stands for it. *)
Definition GetAvailable (r : t) : list LLMTool.t :=
  (λ kv, LLMTool.mk "function"
           (ToolFunction.mk (Tool.Name kv.2) (Tool.Description kv.2)
              (Tool.Parameters kv.2)))
  <$> map_to_list (tools r).

Definition Execute (r : t) (name : string) (args : gmap string Value)
    (w : World) : (string * error) * World :=
  match tools r !! name with
  | None => (("", Some ("tool " +:+ name +:+ " not found")), w)
  | Some tool => Tool.Execute tool args w
  end.

End Registry.
Arguments mk {_} _.
End Registry.

(** ** Server router (server.go) *)

Module Server.
Record t `{OS} := mk
  { name : string;
    version : string;
    tools : Registry.t;
    resources : gmap string Resource.t;
    capabilities : ServerCapabilities.t }.
Arguments mk {_} _ _ _ _ _.
End Server.

Section Router.
Context `{OS}.

Definition NewMCPServer (name version : string) (toolRegistry : Registry.t)
  : Server.t :=
  Server.mk name version toolRegistry ∅ (ServerCapabilities.mk true true false).

Definition RegisterResource (uri name description mimeType : string)
    (metadata : gmap string string) (s : Server.t) : Server.t :=
  Server.mk (Server.name s) (Server.version s) (Server.tools s)
    (<[uri := Resource.mk uri name description mimeType metadata]> (Server.resources s))
    (Server.capabilities s).

(** What a handler runs against: the server object and the machine. *)
Record State := mkState { server : Server.t; world : World }.

(** Handlers are state transformers. *)
Definition Handler (A : Type) : Type := State → A * State.

Definition ret {A} (a : A) : Handler A := λ st, (a, st).

Definition bind {A B} (m : Handler A) (k : A → Handler B) : Handler B :=
  λ st, let '(a, st') := m st in k a st'.

Definition getServer : Handler Server.t := λ st, (server st, st).

(** Run an action of the machine inside a handler. *)
Definition liftWorld {A} (f : World → A * World) : Handler A :=
  λ st, let '(a, w) := f (world st) in (a, mkState (server st) w).

Definition readWorld {A} (f : World → A) : Handler A :=
  λ st, (f (world st), st).

Notation "x <- m ;; k" := (bind m (λ x, k))
  (at level 100, m at next level, right associativity).

Definition resultResponse (id result : Value) : MCPResponse.t :=
  MCPResponse.mk "2.0" id result None.

Definition errorResponse (id : Value) (code : Z) (message : string)
  : MCPResponse.t :=
  MCPResponse.mk "2.0" id VNil (Some (MCPError.mk code message VNil)).

(** server.go, 196-217.  The decoded [InitializeParams] are not read
    after line 200, so they are not represented. *)
Definition handleInitialize (req : MCPRequest.t) : Handler MCPResponse.t :=
  s <- getServer ;;
  let result :=
    InitializeResult.mk "2024-11-05" (Server.capabilities s)
      (ServerInfo.mk (Server.name s) (Server.version s)) in
  ret (resultResponse (MCPRequest.ID req) (box_InitializeResult result)).

(** server.go, 219-240. *)
Definition handleListTools (req : MCPRequest.t) : Handler MCPResponse.t :=
  s <- getServer ;;
  let tools := Registry.GetAvailable (Server.tools s) in
  let mcpTools :=
    (λ tool, MCPTool.mk (ToolFunction.Name (LLMTool.Function tool))
               (ToolFunction.Description (LLMTool.Function tool))
               (ToolFunction.Parameters (LLMTool.Function tool))) <$> tools in
  let result := VMap {[ "tools" := VSlice (box_MCPTool <$> mcpTools) ]} in
  ret (resultResponse (MCPRequest.ID req) result).

(** server.go, 253-284. *)
Definition handleCallTool (req : MCPRequest.t) : Handler MCPResponse.t :=
  let params := decodeCallToolParams (MCPRequest.Params req) in
  s <- getServer ;;
  r <- liftWorld (Registry.Execute (Server.tools s)
                    (CallToolParams.Name params) (CallToolParams.Arguments params)) ;;
  match r with
  | (_, Some err) =>
      ret (errorResponse (MCPRequest.ID req) (-32602)
             ("Tool execution failed: " +:+ err))
  | (result, None) =>
      ret (resultResponse (MCPRequest.ID req)
             (VMap {[ "content" :=
                        VSlice [VMap {[ "type" := VString "text";
                                        "text" := VString result ]}] ]}))
  end.

(** server.go, 286-303. *)
Definition handleListResources (req : MCPRequest.t) : Handler MCPResponse.t :=
  s <- getServer ;;
  let resources := snd <$> map_to_list (Server.resources s) in
  let result := VMap {[ "resources" := VSlice (box_Resource <$> resources) ]} in
  ret (resultResponse (MCPRequest.ID req) result).

(** The mime types whose content line 332 reads. *)
Definition readableMime (mimeType : string) : bool :=
  bool_decide (mimeType = "text/plain")
  || bool_decide (mimeType = "application/octet-stream").

(** server.go, 309-370. *)
Definition handleReadResource (req : MCPRequest.t) : Handler MCPResponse.t :=
  let params := decodeReadResourceParams (MCPRequest.Params req) in
  s <- getServer ;;
  match Server.resources s !! ReadResourceParams.URI params with
  | None =>
      ret (errorResponse (MCPRequest.ID req) (-32602) "Resource not found")
  | Some resource =>
      if readableMime (Resource.MimeType resource) then
        r <- readWorld (ReadFile (Resource.URI resource)) ;;
        match r with
        | (_, Some err) =>
            ret (errorResponse (MCPRequest.ID req) (-32602)
                   ("Failed to read resource: " +:+ err))
        | (content, None) =>
            let result :=
              VMap {[ "contents" :=
                        VSlice [VMap {[ "uri" := VString (Resource.URI resource);
                                        "mimeType" := VString (Resource.MimeType resource);
                                        "text" := VString content ]}] ]} in
            ret (resultResponse (MCPRequest.ID req) result)
        end
      else
        ret (errorResponse (MCPRequest.ID req) (-32602) "Unsupported resource type")
  end.

(** server.go, 172-194. *)
Definition handleRequest (req : MCPRequest.t) : Handler MCPResponse.t :=
  let method := MCPRequest.Method req in
  if bool_decide (method = "initialize") then handleInitialize req
  else if bool_decide (method = "tools/list") then handleListTools req
  else if bool_decide (method = "tools/call") then handleCallTool req
  else if bool_decide (method = "resources/list") then handleListResources req
  else if bool_decide (method = "resources/read") then handleReadResource req
  else ret (errorResponse (MCPRequest.ID req) (-32601) "Method not found").

(** The methods with a case of their own in [handleRequest]. *)
Definition recognized (method : string) : bool :=
  bool_decide (method ∈ ["initialize"; "tools/list"; "tools/call";
                          "resources/list"; "resources/read"]).

(** Requests handled one after the other, without the wire. *)
Fixpoint handleRequests (reqs : list MCPRequest.t) (st : State)
  : list MCPResponse.t * State :=
  match reqs with
  | [] => ([], st)
  | req :: reqs' =>
      let '(resp, st') := handleRequest req st in
      let '(resps, st'') := handleRequests reqs' st' in
      (resp :: resps, st'')
  end.

(** Every resource is stored under its own uri, as [RegisterResource]
    stores it. *)
Definition resourcesKeyed (s : Server.t) : Prop :=
  ∀ uri r, Server.resources s !! uri = Some r → Resource.URI r = uri.

(** *** The connection

    What the decoder finds next on the stream: a JSON value, or nothing it
    can decode (malformed text, or the end of the stream). *)
Inductive Rx :=
| RxValue (j : JSON)
| RxError.

(** [incoming] is what the peer sends, [outgoing] what has been written to
    it; a write fails once the peer has gone away, after [writable] writes
    ([None]: never). *)
Record Conn := mkConn
  { incoming : list Rx;
    outgoing : list JSON;
    writable : option nat;
    closed : bool }.

(** [encoder.Encode(resp)]: [None] is a write error. *)
Definition Encode (resp : MCPResponse.t) (outgoing : list JSON)
    (writable : option nat) : option (list JSON) :=
  match writable with
  | Some n =>
      if (length outgoing <? n)%nat then Some (outgoing ++ [encodeResponse resp])
      else None
  | None => Some (outgoing ++ [encodeResponse resp])
  end.

(** The loop of [handleConnection] (server.go, 159-169); the result is
    what is left unread, what has been written, and the final state. *)
Fixpoint handleConnection_loop (incoming : list Rx) (outgoing : list JSON)
    (writable : option nat) (st : State) : list Rx * list JSON * State :=
  match incoming with
  | [] => ([], outgoing, st)
  | RxError :: rest => (rest, outgoing, st)
  | RxValue j :: rest =>
      match decodeRequest j with
      | None => (rest, outgoing, st)
      | Some req =>
          let '(resp, st') := handleRequest req st in
          match Encode resp outgoing writable with
          | None => (rest, outgoing, st')
          | Some outgoing' => handleConnection_loop rest outgoing' writable st'
          end
      end
  end.

(** server.go, 153-170: run the loop, then [conn.Close()]. *)
Definition handleConnection (conn : Conn) (st : State) : Conn * State :=
  let '(rest, out, st') :=
    handleConnection_loop (incoming conn) (outgoing conn) (writable conn) st in
  (mkConn rest out (writable conn) true, st').

End Router.

(** ** Client correlator (client.go)

    Channels are objects on the heap: the pending-call table holds their
    addresses, and [Chans] holds the buffer of each. *)

Module Client.
Record t := mk
  { requestID : Z;
    responses : gmap Key nat;
    serverInfo : ServerInfo.t }.
End Client.

Definition Chans := gmap nat (list MCPResponse.t).

(** client.go, 23-27. *)
Definition NewMCPClient : Client.t := Client.mk 0 ∅ ServerInfo.zero.

(** client.go, 203-205: [atomic.AddInt64(&c.requestID, 1)]. *)
Definition nextRequestID (c : Client.t) : Z * Client.t :=
  let id := wrap64 (Client.requestID c + 1) in
  (id, Client.mk id (Client.responses c) (Client.serverInfo c)).

(** The request the exported calls build before they enter [sendRequest]
    (client.go, 65-80, 100-104, 125-133): the id is boxed as an int64. *)
Definition newRequest (method : string) (params : Value) (c : Client.t)
  : MCPRequest.t * Client.t :=
  let '(id, c') := nextRequestID c in
  (MCPRequest.mk "2.0" (VInt64 id) method params, c').

(** Capacity of [make(chan MCPResponse, 1)]. *)
Definition slotCapacity : nat := 1.

(** client.go, 161-165: allocate the channel and store it under [req.ID].
    [None] is the panic of a map assignment with an unhashable key. *)
Definition register (req : MCPRequest.t) (c : Client.t) (chans : Chans)
  : option (Key * nat * Client.t * Chans) :=
  let respChan := fresh (dom chans) in
  match to_key (MCPRequest.ID req) with
  | None => None
  | Some k =>
      Some (k, respChan,
            Client.mk (Client.requestID c) (<[k := respChan]> (Client.responses c))
              (Client.serverInfo c),
            <[respChan := []]> chans)
  end.

(** client.go, 167-171: the deferred [delete(c.responses, req.ID)]. *)
Definition deregister (k : Key) (c : Client.t) : Client.t :=
  Client.mk (Client.requestID c) (delete k (Client.responses c))
    (Client.serverInfo c).

(** [case resp := <-respChan]: enabled when the buffer is not empty. *)
Definition receive (respChan : nat) (chans : Chans)
  : option (MCPResponse.t * Chans) :=
  match chans !! respChan with
  | Some (resp :: rest) => Some (resp, <[respChan := rest]> chans)
  | _ => None
  end.

(** What one turn of the read loop does with a decoded response
    (client.go, 192-199): the non-blocking send puts it into the slot found
    under its id, or drops it; hashing an unhashable id panics. *)
Inductive Delivery :=
| Delivered (respChan : nat) (chans : Chans)
| Discarded
| Panicked.

Definition dispatchResponse (resp : MCPResponse.t) (c : Client.t)
    (chans : Chans) : Delivery :=
  match to_key (MCPResponse.ID resp) with
  | None => Panicked
  | Some k =>
      match Client.responses c !! k with
      | Some respChan =>
          let buf := default [] (chans !! respChan) in
          if (length buf <? slotCapacity)%nat
          then Delivered respChan (<[respChan := buf ++ [resp]]> chans)
          else Discarded
      | None => Discarded
      end
  end.

(** One turn of [readResponses] (client.go, 186-200): [None] when the
    loop returns on a decode error. *)
Definition readResponses_turn (x : Rx) (c : Client.t) (chans : Chans)
  : option (MCPResponse.t * Delivery) :=
  match x with
  | RxError => None
  | RxValue j =>
      match decodeResponse j with
      | None => None
      | Some resp => Some (resp, dispatchResponse resp c chans)
      end
  end.

(** *** The client as a concurrent system

    Goroutines inside [sendRequest] and the reader goroutine interleave at
    the granularity of the critical sections, channel operations and whole
    writes to the connection. *)

Inductive Outcome :=
| GotResponse (resp : MCPResponse.t)
| SendError
| RequestTimeout.

(** Where a goroutine stands in [sendRequest] (client.go, 160-183). *)
Inductive PC :=
| AtStart
| AtEncode (respChan : nat)
| AtSelect (respChan : nat)
| AtDefer (respChan : nat) (o : Outcome)
| Finished (o : Outcome).

Record Call := mkCall { call_req : MCPRequest.t; call_pc : PC }.

(** What gets recorded: call [i] stored its slot under [k], wrote its
    request, took a response out of its slot, deleted its entry; the read
    loop put a response into a slot, or dropped it. *)
Inductive Event :=
| EvInsert (i : nat) (k : Key) (respChan : nat)
| EvWrite (i : nat)
| EvDeliver (respChan : nat) (resp : MCPResponse.t)
| EvDiscard (resp : MCPResponse.t)
| EvTake (i : nat) (resp : MCPResponse.t)
| EvDelete (i : nat) (k : Key).

(** [trace] is a history of what happened, newest event first; it does
    not influence the execution. *)
Record Config := mkConfig
  { client : Client.t;
    chans : Chans;
    sent : list JSON;
    calls : list Call;
    readerDone : bool;
    crashed : bool;
    trace : list Event }.

Definition initConfig : Config :=
  mkConfig NewMCPClient ∅ [] [] false false [].

Inductive Action :=
| Issue (method : string) (params : Value)
| Advance (i : nat)
| FailWrite (i : nat)
| Expire (i : nat)
| Read (x : Rx).

Definition setCall (i : nat) (pc : PC) (calls : list Call) : list Call :=
  alter (λ cl, mkCall (call_req cl) pc) i calls.

(** The next atomic action of goroutine [i] inside [sendRequest]
    (client.go, 160-183): allocate and store the slot (161-165), write the
    request (173), take the response out of the slot (178), run the
    deferred delete (167-171).  [None]: nothing to do, or blocked in the
    [select]. *)
Definition sendRequest_step (i : nat) (cfg : Config) : option Config :=
  cl ← calls cfg !! i;
  match call_pc cl with
  | AtStart =>
      match register (call_req cl) (client cfg) (chans cfg) with
      | None =>
          Some (mkConfig (client cfg) (chans cfg) (sent cfg) (calls cfg)
                  (readerDone cfg) true (trace cfg))
      | Some (k, respChan, c', chans') =>
          Some (mkConfig c' chans' (sent cfg)
                  (setCall i (AtEncode respChan) (calls cfg))
                  (readerDone cfg) false (EvInsert i k respChan :: trace cfg))
      end
  | AtEncode respChan =>
      Some (mkConfig (client cfg) (chans cfg)
              (sent cfg ++ [encodeRequest (call_req cl)])
              (setCall i (AtSelect respChan) (calls cfg))
              (readerDone cfg) false (EvWrite i :: trace cfg))
  | AtSelect respChan =>
      '(resp, chans') ← receive respChan (chans cfg);
      Some (mkConfig (client cfg) chans' (sent cfg)
              (setCall i (AtDefer respChan (GotResponse resp)) (calls cfg))
              (readerDone cfg) false (EvTake i resp :: trace cfg))
  | AtDefer _ o =>
      k ← to_key (MCPRequest.ID (call_req cl));
      Some (mkConfig (deregister k (client cfg)) (chans cfg) (sent cfg)
              (setCall i (Finished o) (calls cfg))
              (readerDone cfg) false (EvDelete i k :: trace cfg))
  | Finished _ => None
  end.

(** One step of the system; [None] when the action is not enabled.  After
    a panic nothing runs any more.  [Issue] is the start of an exported
    call ([Initialize], [ListTools], [CallTool]), [FailWrite] a failing
    [encoder.Encode], [Expire] the [time.After] branch of the [select],
    [Read] one turn of the read loop on what the peer sent. *)
Definition exec (a : Action) (cfg : Config) : option Config :=
  if crashed cfg then None else
  match a with
  | Issue method params =>
      let '(req, c') := newRequest method params (client cfg) in
      Some (mkConfig c' (chans cfg) (sent cfg)
              (calls cfg ++ [mkCall req AtStart])
              (readerDone cfg) false (trace cfg))
  | Advance i => sendRequest_step i cfg
  | FailWrite i =>
      cl ← calls cfg !! i;
      match call_pc cl with
      | AtEncode respChan =>
          Some (mkConfig (client cfg) (chans cfg) (sent cfg)
                  (setCall i (AtDefer respChan SendError) (calls cfg))
                  (readerDone cfg) false (trace cfg))
      | _ => None
      end
  | Expire i =>
      cl ← calls cfg !! i;
      match call_pc cl with
      | AtSelect respChan =>
          Some (mkConfig (client cfg) (chans cfg) (sent cfg)
                  (setCall i (AtDefer respChan RequestTimeout) (calls cfg))
                  (readerDone cfg) false (trace cfg))
      | _ => None
      end
  | Read x =>
      if readerDone cfg then None else
      match readResponses_turn x (client cfg) (chans cfg) with
      | None =>
          Some (mkConfig (client cfg) (chans cfg) (sent cfg) (calls cfg)
                  true false (trace cfg))
      | Some (resp, Delivered respChan chans') =>
          Some (mkConfig (client cfg) chans' (sent cfg) (calls cfg)
                  false false (EvDeliver respChan resp :: trace cfg))
      | Some (resp, Discarded) =>
          Some (mkConfig (client cfg) (chans cfg) (sent cfg) (calls cfg)
                  false false (EvDiscard resp :: trace cfg))
      | Some (resp, Panicked) =>
          Some (mkConfig (client cfg) (chans cfg) (sent cfg) (calls cfg)
                  false true (trace cfg))
      end
  end.

(** A schedule, run from a configuration. *)
Fixpoint run (sched : list Action) (cfg : Config) : option Config :=
  match sched with
  | [] => Some cfg
  | a :: sched' =>
      match exec a cfg with
      | Some cfg' => run sched' cfg'
      | None => None
      end
  end.

Definition reachable (cfg : Config) : Prop :=
  ∃ sched, run sched initConfig = Some cfg.

(** ** A machine to run examples on: files in memory, and an echo tool *)

Definition memReadFile (path : string) (fs : gmap string string)
  : string * error :=
  if decide (path = "") then ("", Some "open : no such file or directory")
  else match fs !! path with
       | Some content => (content, None)
       | None => ("", Some ("open " +:+ path +:+ ": no such file or directory"))
       end.

Definition memOS : OS.
Proof.
  refine {| World := gmap string string; ReadFile := memReadFile |}.
  intros fs. unfold memReadFile.
  destruct (decide ("" = "")) as [_|Hne]; [discriminate | exact (False_ind _ (Hne eq_refl))].
Defined.

(** Returns its argument [x] when it is a string. *)
Definition echoTool : @Tool.t memOS :=
  Tool.mk "echo" "Echo the argument x" VNil
    (λ args w,
       match args !! "x" with
       | Some (VString s) => ((s, None), w)
       | _ => (("", Some "x is required"), w)
       end)
    (λ _ _, false).

Definition echoServer : @Server.t memOS :=
  @NewMCPServer memOS "claude-go" "0.1.0"
    (@Registry.Register memOS echoTool (Registry.mk ∅)).

(** A server with file resources, and the files that exist. *)
Definition demoServer : @Server.t memOS :=
  @RegisterResource memOS "/notes.txt" "notes" "Plain text notes" "text/plain" ∅
    (@RegisterResource memOS "/data.json" "data" "JSON data" "application/json" ∅
       (@RegisterResource memOS "/gone.txt" "gone" "A file that was removed"
          "text/plain" ∅ echoServer)).

Definition demoWorld : gmap string string := {[ "/notes.txt" := "hello" ]}.

Definition demoState : @State memOS := @mkState memOS demoServer demoWorld.

Definition readRequest (id : Value) (uri : string) : MCPRequest.t :=
  MCPRequest.mk "2.0" id "resources/read" (VMap {[ "uri" := VString uri ]}).

Definition callRequest (id : Value) (name : string) (args : gmap string Value)
  : MCPRequest.t :=
  MCPRequest.mk "2.0" id "tools/call"
    (VMap {[ "name" := VString name; "arguments" := VMap args ]}).

(** ** Reading the history of a run *)

Fixpoint count (p : Event → bool) (tr : list Event) : nat :=
  match tr with
  | [] => 0
  | e :: tr' => ((if p e then 1 else 0) + count p tr')%nat
  end.

Definition isInsert (i : nat) (e : Event) : bool :=
  match e with EvInsert j _ _ => bool_decide (j = i) | _ => false end.

Definition isWrite (i : nat) (e : Event) : bool :=
  match e with EvWrite j => bool_decide (j = i) | _ => false end.

Definition isDelete (i : nat) (e : Event) : bool :=
  match e with EvDelete j _ => bool_decide (j = i) | _ => false end.

Definition isDeliver (respChan : nat) (e : Event) : bool :=
  match e with EvDeliver ch _ => bool_decide (ch = respChan) | _ => false end.



(** The key of the [i]-th call of a client whose counter started at 0. *)
Definition callKey (i : nat) : Key := KInt64 (Z.of_nat i + 1).

Definition isResponse (o : Outcome) : bool :=
  match o with GotResponse _ => true | _ => false end.

(** What holds of call [i] at each point of [sendRequest], in terms of the
    pending-call table and the history. *)
Definition callInv (tbl : gmap Key nat) (tr : list Event) (i : nat) (cl : Call)
  : Prop :=
  MCPRequest.ID (call_req cl) = VInt64 (Z.of_nat i + 1)
  ∧ match call_pc cl with
    | AtStart =>
        tbl !! callKey i = None ∧ count (isInsert i) tr = 0%nat
        ∧ count (isWrite i) tr = 0%nat ∧ count (isDelete i) tr = 0%nat
    | AtEncode ch =>
        tbl !! callKey i = Some ch ∧ EvInsert i (callKey i) ch ∈ tr
        ∧ count (isWrite i) tr = 0%nat ∧ count (isDelete i) tr = 0%nat
    | AtSelect ch =>
        tbl !! callKey i = Some ch ∧ count (isDelete i) tr = 0%nat
    | AtDefer ch o =>
        tbl !! callKey i = Some ch ∧ count (isDelete i) tr = 0%nat
        ∧ isResponse o = false
    | Finished o =>
        tbl !! callKey i = None ∧ count (isDelete i) tr = 1%nat
        ∧ isResponse o = false
    end.

(** The invariant of the client system, while the counter has not wrapped. *)
Record Inv (cfg : Config) : Prop := mkInv
  { inv_counter : Client.requestID (client cfg) = Z.of_nat (length (calls cfg));
    inv_calls : ∀ i cl, calls cfg !! i = Some cl →
                callInv (Client.responses (client cfg)) (trace cfg) i cl;
    inv_table : ∀ k ch, Client.responses (client cfg) !! k = Some ch →
                ∃ i, (i < length (calls cfg))%nat ∧ k = callKey i;
    inv_fresh : ∀ i, (length (calls cfg) ≤ i)%nat →
                count (isInsert i) (trace cfg) = 0%nat
                ∧ count (isWrite i) (trace cfg) = 0%nat
                ∧ count (isDelete i) (trace cfg) = 0%nat;
    inv_order : ∀ i newer older, trace cfg = newer ++ EvWrite i :: older →
                ∃ ch, EvInsert i (callKey i) ch ∈ older;
    inv_slots : ∀ ch buf, chans cfg !! ch = Some buf → buf = [];
    inv_deliver : ∀ ch, count (isDeliver ch) (trace cfg) = 0%nat }.

(** The counter has not passed the largest int64. *)
Definition counterInRange (cfg : Config) : Prop :=
  Z.of_nat (length (calls cfg)) < 2 ^ 63.

(** ** Scenarios *)

(** Two calls are issued on a fresh client, both register their slot and
    write their request. *)
Definition twoCalls : list Action :=
  [Issue "tools/list" VNil;
   Issue "tools/call"
     (VMap {[ "name" := VString "echo";
              "arguments" := VMap {[ "x" := VString "hi" ]} ]});
   Advance 0; Advance 1; Advance 0; Advance 1].

Definition twoCallsSent : Config := default initConfig (run twoCalls initConfig).

(** The server is given the second request first, and answers in that
    order. *)
Definition answersOutOfOrder : list JSON :=
  outgoing
    (@handleConnection memOS
       (mkConn (RxValue <$> reverse (sent twoCallsSent)) [] None false)
       demoState).1.

(** One call against a server that never answers. *)
Definition silentServerRun : list Action :=
  [Issue "tools/list" VNil; Advance 0; Advance 0; Expire 0; Advance 0].

Definition timedOutConfig : Config :=
  default initConfig (run silentServerRun initConfig).

(** A response whose id is a JSON array. *)
Definition arrayIdResponse : JSON :=
  JObj [("jsonrpc", JStr "2.0"); ("id", JArr [JNum 1]); ("result", JStr "late")].


(** ** Built-in tools (registry.go, 69-317)

    What the tools need from the machine besides [ReadFile]: the file
    operations of package [os], [filepath.Dir], and running a command with
    [exec.Command(name, args...)] in directory [dir] ([""]: the current
    one) up to [CombinedOutput]. *)
Class Shell `{OS} := {
  MkdirAll : string → World → error * World;
  WriteFile : string → string → World → error * World;
  ReadDir : string → World → list string * error;
  Remove : string → World → error * World;
  filepath_Dir : string → string;
  CombinedOutput : string → list string → string → World → (string * error) * World
}.

(** The line feed. *)
Definition newline : string := String (ascii_of_nat 10) "".

(** [strings.Join]. *)
Fixpoint strings_Join (elems : list string) (sep : string) : string :=
  match elems with
  | [] => ""
  | [s] => s
  | s :: rest => s +:+ sep +:+ strings_Join rest sep
  end.

(** The type assertion [args[key].(string)]. *)
Definition argString (args : gmap string Value) (key : string) : option string :=
  match args !! key with
  | Some (VString s) => Some s
  | _ => None
  end.

Section BuiltinTools.
Context `{Shell}.

(** What [Execute] returns, and the machine afterwards. *)
Definition failWith (msg : string) (w : World) : (string * error) * World :=
  (("", Some msg), w).

(** registry.go, 100-158. *)
Definition FileTool_Execute (args : gmap string Value) (w : World)
  : (string * error) * World :=
  match argString args "operation" with
  | None => failWith "operation is required" w
  | Some operation =>
      match argString args "path" with
      | None => failWith "path is required" w
      | Some path =>
          if bool_decide (operation = "read") then
            match ReadFile path w with
            | (_, Some err) => failWith err w
            | (content, None) => ((content, None), w)
            end
          else if bool_decide (operation = "write") then
            match argString args "content" with
            | None => failWith "content is required for write operation" w
            | Some content =>
                let dir := filepath_Dir path in
                match MkdirAll dir w with
                | (Some err, w1) => failWith err w1
                | (None, w1) =>
                    match WriteFile path content w1 with
                    | (Some err, w2) => failWith err w2
                    | (None, w2) => (("File written to " +:+ path, None), w2)
                    end
                end
            end
          else if bool_decide (operation = "list") then
            match ReadDir path w with
            | (_, Some err) => failWith err w
            | (files, None) => ((strings_Join files newline, None), w)
            end
          else if bool_decide (operation = "delete") then
            match Remove path w with
            | (Some err, w1) => failWith err w1
            | (None, w1) => (("File " +:+ path +:+ " deleted", None), w1)
            end
          else failWith ("unknown operation: " +:+ operation) w
      end
  end.

(** The elements of [argsList] that are strings (registry.go, 198-202). *)
Definition stringArgs (argsList : list Value) : list string :=
  omap (λ arg, match arg with VString s => Some s | _ => None end) argsList.

(** registry.go, 188-210. *)
Definition GitTool_Execute (args : gmap string Value) (w : World)
  : (string * error) * World :=
  match argString args "command" with
  | None => failWith "command is required" w
  | Some command =>
      let gitArgs :=
        [command]
        ++ match args !! "args" with
           | Some (VSlice argsList) => stringArgs argsList
           | _ => []
           end in
      CombinedOutput "git" gitArgs "" w
  end.

(** registry.go, 238-254. *)
Definition ShellTool_Execute (args : gmap string Value) (w : World)
  : (string * error) * World :=
  match argString args "command" with
  | None => failWith "command is required" w
  | Some command =>
      let dir := default "" (argString args "working_dir") in
      CombinedOutput "sh" ["-c"; command] dir w
  end.

(** The arguments [SearchTool.Execute] gives to grep (registry.go,
    292-308), once [case_sensitive] is known to be absent ([None]) or a
    bool. *)
Definition grepArgs (caseSensitive : option bool) (pattern : string)
    (args : gmap string Value) : list string :=
  ["-r"; "-n"]
  ++ match caseSensitive with
     | Some false => ["-i"]
     | _ => []
     end
  ++ [pattern]
  ++ match argString args "file_pattern" with
     | Some filePattern => ["--include=" +:+ filePattern]
     | None => []
     end
  ++ ["."].

(** registry.go, 310-317. *)
Definition runGrep (grepArgs : list string) (w : World) : (string * error) * World :=
  let '((output, err), w') := CombinedOutput "grep" grepArgs "" w in
  match err with
  | Some _ => if bool_decide (output = "") then (("No matches found", None), w')
              else ((output, None), w')
  | None => ((output, None), w')
  end.

(** registry.go, 286-317.  [None] is the panic of the type assertion
    [caseSensitive.(bool)] on a value that is not a bool. *)
Definition SearchTool_Execute (args : gmap string Value) (w : World)
  : option ((string * error) * World) :=
  match argString args "pattern" with
  | None => Some (failWith "pattern is required" w)
  | Some pattern =>
      match args !! "case_sensitive" with
      | None => Some (runGrep (grepArgs None pattern args) w)
      | Some (VBool b) => Some (runGrep (grepArgs (Some b) pattern args) w)
      | Some _ => None
      end
  end.

End BuiltinTools.

(** ** The parameter schemas of the built-in tools (registry.go, 78-98,
       169-186, 221-236, 265-284)

    A [[]string] is the slice of its strings, a [map[string]string] the
    map of its strings. *)

Definition FileTool_Parameters : Value :=
  VMap {[ "type" := VString "object";
          "properties" :=
            VMap {[ "operation" :=
                      VMap {[ "type" := VString "string";
                              "enum" := VSlice [VString "read"; VString "write";
                                                VString "list"; VString "delete"];
                              "description" := VString "The file operation to perform" ]};
                    "path" :=
                      VMap {[ "type" := VString "string";
                              "description" := VString "File or directory path" ]};
                    "content" :=
                      VMap {[ "type" := VString "string";
                              "description" :=
                                VString "Content to write (for write operation)" ]} ]};
          "required" := VSlice [VString "operation"; VString "path"] ]}.

Definition GitTool_Parameters : Value :=
  VMap {[ "type" := VString "object";
          "properties" :=
            VMap {[ "command" :=
                      VMap {[ "type" := VString "string";
                              "enum" := VSlice [VString "status"; VString "diff";
                                                VString "add"; VString "commit";
                                                VString "log"; VString "branch"];
                              "description" := VString "Git command to execute" ]};
                    "args" :=
                      VMap {[ "type" := VString "array";
                              "items" := VMap {[ "type" := VString "string" ]};
                              "description" :=
                                VString "Additional arguments for the git command" ]} ]};
          "required" := VSlice [VString "command"] ]}.

Definition ShellTool_Parameters : Value :=
  VMap {[ "type" := VString "object";
          "properties" :=
            VMap {[ "command" :=
                      VMap {[ "type" := VString "string";
                              "description" := VString "Shell command to execute" ]};
                    "working_dir" :=
                      VMap {[ "type" := VString "string";
                              "description" :=
                                VString "Working directory for the command" ]} ]};
          "required" := VSlice [VString "command"] ]}.

Definition SearchTool_Parameters : Value :=
  VMap {[ "type" := VString "object";
          "properties" :=
            VMap {[ "pattern" :=
                      VMap {[ "type" := VString "string";
                              "description" := VString "Search pattern or text to find" ]};
                    "file_pattern" :=
                      VMap {[ "type" := VString "string";
                              "description" :=
                                VString "File pattern to limit search (e.g., '*.go', '*.py')" ]};
                    "case_sensitive" :=
                      VMap {[ "type" := VString "boolean";
                              "description" :=
                                VString "Whether search should be case sensitive" ]} ]};
          "required" := VSlice [VString "pattern"] ]}.

(** The member [key] of a schema object. *)
Definition schemaMember (schema : Value) (key : string) : Value :=
  match schema with
  | VMap m => default VNil (m !! key)
  | _ => VNil
  end.

Definition schemaStrings (v : Value) : list string :=
  match v with
  | VSlice l => stringArgs l
  | _ => []
  end.

(** The parameters a schema marks as required, and the values it allows
    for a property. *)
Definition required (schema : Value) : list string :=
  schemaStrings (schemaMember schema "required").

Definition enumOf (schema : Value) (property : string) : list string :=
  schemaStrings
    (schemaMember (schemaMember (schemaMember schema "properties") property) "enum").

(** ** What the exported calls of the client do with a response
       (client.go, 87-96, 111-121, 140-157)

    [json.Unmarshal] into the typed results, the error dropped: a member of
    the wrong type is skipped, and the struct keeps what it had. *)

Definition unmarshalServerInfo_member (i : ServerInfo.t) (kv : string * JSON)
  : ServerInfo.t :=
  let '(k, j) := kv in
  if key_is "name" k then
    match j with JStr s => ServerInfo.mk s (ServerInfo.Version i) | _ => i end
  else if key_is "version" k then
    match j with JStr s => ServerInfo.mk (ServerInfo.Name i) s | _ => i end
  else i.

Definition unmarshalServerInfo (j : JSON) (old : ServerInfo.t) : ServerInfo.t :=
  match j with
  | JObj l => foldl unmarshalServerInfo_member old l
  | _ => old
  end.

Definition unmarshalServerCapabilities_member (c : ServerCapabilities.t)
    (kv : string * JSON) : ServerCapabilities.t :=
  let '(k, j) := kv in
  if key_is "tools" k then
    match j with
    | JBool b => ServerCapabilities.mk b (ServerCapabilities.Resources c)
                   (ServerCapabilities.Prompts c)
    | _ => c
    end
  else if key_is "resources" k then
    match j with
    | JBool b => ServerCapabilities.mk (ServerCapabilities.Tools c) b
                   (ServerCapabilities.Prompts c)
    | _ => c
    end
  else if key_is "prompts" k then
    match j with
    | JBool b => ServerCapabilities.mk (ServerCapabilities.Tools c)
                   (ServerCapabilities.Resources c) b
    | _ => c
    end
  else c.

Definition unmarshalServerCapabilities (j : JSON) (old : ServerCapabilities.t)
  : ServerCapabilities.t :=
  match j with
  | JObj l => foldl unmarshalServerCapabilities_member old l
  | _ => old
  end.

Definition unmarshalInitializeResult_member (r : InitializeResult.t)
    (kv : string * JSON) : InitializeResult.t :=
  let '(k, j) := kv in
  if key_is "protocolVersion" k then
    match j with
    | JStr s => InitializeResult.mk s (InitializeResult.Capabilities r)
                  (InitializeResult.ServerInfo r)
    | _ => r
    end
  else if key_is "capabilities" k then
    InitializeResult.mk (InitializeResult.ProtocolVersion r)
      (unmarshalServerCapabilities j (InitializeResult.Capabilities r))
      (InitializeResult.ServerInfo r)
  else if key_is "serverInfo" k then
    InitializeResult.mk (InitializeResult.ProtocolVersion r)
      (InitializeResult.Capabilities r)
      (unmarshalServerInfo j (InitializeResult.ServerInfo r))
  else r.

(** [var result InitializeResult; json.Unmarshal(resultJSON, &result)]. *)
Definition unmarshalInitializeResult (j : JSON) : InitializeResult.t :=
  let zero :=
    InitializeResult.mk "" (ServerCapabilities.mk false false false) ServerInfo.zero in
  match j with
  | JObj l => foldl unmarshalInitializeResult_member zero l
  | _ => zero
  end.

(** A slice of the decoder: the elements up to its length, and what the
    backing array still holds behind them, up to its capacity (memory that
    was never used holds zero values, and is not listed). *)
Definition Slice (A : Type) : Type := list A * list A.

(** Decoding a JSON array into a slice of structs: element [i] is decoded
    into what the backing array holds at [i], or into a zero struct beyond
    its capacity, and the slice is cut to the length of the array; an
    empty array gives a new empty slice, [null] the nil slice; anything
    else is skipped. *)
Definition unmarshalSlice {A} (elem : JSON → A → A) (zero : A) (j : JSON)
    (old : Slice A) : Slice A :=
  match j with
  | JArr [] => ([], [])
  | JArr l =>
      let backing := old.1 ++ old.2 in
      (imap (λ i x, elem x (default zero (backing !! i))) l,
       drop (length l) backing)
  | JNull => ([], [])
  | _ => old
  end.

(** A JSON value stored into an [interface{}] while errors are only
    recorded: a number that no float64 holds leaves [nil] in its place
    inside an array or an object. *)
Fixpoint valueInterface (j : JSON) : Value :=
  match j with
  | JNull => VNil
  | JBool b => VBool b
  | JNum n =>
      let f := float64_of_Z n in
      if float64_in_range f then VFloat64 f else VNil
  | JStr s => VString s
  | JArr l => VSlice (map valueInterface l)
  | JObj l => VMap (members_to_map (map (λ kv, (kv.1, valueInterface kv.2)) l))
  end.

(** Decoding into a field of type [interface{}], errors dropped: such a
    number at the top leaves the field alone. *)
Definition storeInterface (j : JSON) (old : Value) : Value :=
  match j with
  | JNum n =>
      let f := float64_of_Z n in
      if float64_in_range f then VFloat64 f else old
  | _ => valueInterface j
  end.

Definition unmarshalMCPTool_member (t : MCPTool.t) (kv : string * JSON)
  : MCPTool.t :=
  let '(k, j) := kv in
  if key_is "name" k then
    match j with
    | JStr s => MCPTool.mk s (MCPTool.Description t) (MCPTool.InputSchema t)
    | _ => t
    end
  else if key_is "description" k then
    match j with
    | JStr s => MCPTool.mk (MCPTool.Name t) s (MCPTool.InputSchema t)
    | _ => t
    end
  else if key_is "inputSchema" k then
    MCPTool.mk (MCPTool.Name t) (MCPTool.Description t)
      (storeInterface j (MCPTool.InputSchema t))
  else t.

Definition unmarshalMCPTool (j : JSON) (old : MCPTool.t) : MCPTool.t :=
  match j with
  | JObj l => foldl unmarshalMCPTool_member old l
  | _ => old
  end.

(** [var result struct { Tools []MCPTool `json:"tools"` }]. *)
Definition unmarshalToolsResult (j : JSON) : list MCPTool.t :=
  match j with
  | JObj l =>
      (foldl (λ tools kv,
                if key_is "tools" kv.1
                then unmarshalSlice unmarshalMCPTool (MCPTool.mk "" "" VNil) kv.2 tools
                else tools) ([], []) l).1
  | _ => []
  end.

(** One element of [Content]: its [Type] and its [Text]. *)
Definition unmarshalContentItem_member (c : string * string) (kv : string * JSON)
  : string * string :=
  let '(k, j) := kv in
  if key_is "type" k then
    match j with JStr s => (s, c.2) | _ => c end
  else if key_is "text" k then
    match j with JStr s => (c.1, s) | _ => c end
  else c.

Definition unmarshalContentItem (j : JSON) (old : string * string)
  : string * string :=
  match j with
  | JObj l => foldl unmarshalContentItem_member old l
  | _ => old
  end.

(** [var result struct { Content []struct { Type, Text string } }]. *)
Definition unmarshalContentResult (j : JSON) : list (string * string) :=
  match j with
  | JObj l =>
      (foldl (λ content kv,
                if key_is "content" kv.1
                then unmarshalSlice unmarshalContentItem ("", "") kv.2 content
                else content) ([], []) l).1
  | _ => []
  end.

(** client.go, 87-96: what [Initialize] does once [sendRequest] has
    returned [resp]. *)
Definition Initialize_finish (resp : MCPResponse.t) (c : Client.t)
  : error * Client.t :=
  match MCPResponse.Error resp with
  | Some e => (Some ("initialize failed: " +:+ MCPError.Message e), c)
  | None =>
      let result := unmarshalInitializeResult (encodeValue (MCPResponse.Result resp)) in
      (None, Client.mk (Client.requestID c) (Client.responses c)
               (InitializeResult.ServerInfo result))
  end.

(** client.go, 111-121. *)
Definition ListTools_finish (resp : MCPResponse.t) : list MCPTool.t * error :=
  match MCPResponse.Error resp with
  | Some e => ([], Some ("list tools failed: " +:+ MCPError.Message e))
  | None => (unmarshalToolsResult (encodeValue (MCPResponse.Result resp)), None)
  end.

(** client.go, 140-157. *)
Definition CallTool_finish (resp : MCPResponse.t) : string * error :=
  match MCPResponse.Error resp with
  | Some e => ("", Some ("tool call failed: " +:+ MCPError.Message e))
  | None =>
      match unmarshalContentResult (encodeValue (MCPResponse.Result resp)) with
      | item :: _ =>
          if bool_decide (item.1 = "text") then (item.2, None)
          else ("", Some "unexpected response format")
      | [] => ("", Some "unexpected response format")
      end
  end.

(** ** The agent publishes its project files (enhanced_agent.go, 42-51
       and 181-210) *)

(** [strings.Contains]. *)
Fixpoint strings_Contains (s substr : string) : bool :=
  String.prefix substr s
  || match s with
     | EmptyString => false
     | String _ s' => strings_Contains s' substr
     end.

(** [context.FileContext]; [Time] stands for [time.Time]. *)
Module FileContext.
Record t {Time : Type} := mk
  { Path : string;
    Content : string;
    Size : Z;
    LastModified : Time;
    Hash : string;
    Language : string;
    TokenCount : Z }.
Arguments t : clear implicits.
Arguments mk {_} _ _ _ _ _ _ _.
End FileContext.

Section Agent.
Context `{OS} {Time : Type}.

(** [t.Format(time.RFC3339)]. *)
Variable Format_RFC3339 : Time → string.

(** enhanced_agent.go, 188-191. *)
Definition resourceMimeType (file : FileContext.t Time) : string :=
  if strings_Contains (FileContext.Language file) "json" then "application/json"
  else "text/plain".

(** enhanced_agent.go, 193-198; [%d] prints a decimal. *)
Definition resourceMetadata (file : FileContext.t Time) : gmap string string :=
  {[ "language" := FileContext.Language file;
     "size" := pretty (FileContext.Size file);
     "last_modified" := Format_RFC3339 (FileContext.LastModified file);
     "token_count" := pretty (FileContext.TokenCount file) ]}.

(** The resource that one turn of the loop hands to [RegisterResource]
    (enhanced_agent.go, 200-206). *)
Definition projectResource (file : FileContext.t Time) : Resource.t :=
  Resource.mk (FileContext.Path file) (FileContext.Path file)
    (FileContext.Language file +:+ " file (" +:+ FileContext.Path file +:+ ")")
    (resourceMimeType file) (resourceMetadata file).

(** The body of the loop (enhanced_agent.go, 187-207). *)
Definition registerFile (s : Server.t) (file : FileContext.t Time) : Server.t :=
  RegisterResource (FileContext.Path file) (FileContext.Path file)
    (FileContext.Language file +:+ " file (" +:+ FileContext.Path file +:+ ")")
    (resourceMimeType file) (resourceMetadata file) s.

(** enhanced_agent.go, 181-210.  [projectCtx] is what
    [GetProjectContext] returned: the [Files] of the project context, and
    the error. *)
Definition registerProjectResources (projectCtx : list (FileContext.t Time) * error)
    (s : Server.t) : error * Server.t :=
  match projectCtx.2 with
  | Some err => (Some err, s)
  | None => (None, foldl registerFile s projectCtx.1)
  end.

(** enhanced_agent.go, 43-48: the server that [StartMCPServer] builds
    before it listens, or the error it returns. *)
Definition StartMCPServer_build (tools : Registry.t)
    (projectCtx : list (FileContext.t Time) * error) : error * Server.t :=
  let mcpServer := NewMCPServer "claude-go" "0.1.0" tools in
  match registerProjectResources projectCtx mcpServer with
  | (Some err, s) => (Some ("failed to register resources: " +:+ err), s)
  | (None, s) => (None, s)
  end.

End Agent.

(** ** Views used in the statements *)

Section Views.
Context `{OS}.

(** The tools of a registry describe their parameters with values that
    the wire carries unchanged. *)
Definition schemasStable (r : Registry.t) : Prop :=
  ∀ name tool, Registry.tools r !! name = Some tool → wireStable (Tool.Parameters tool).

(** Every tool is stored under its own name, as [Register] stores it. *)
Definition registryKeyed (r : Registry.t) : Prop :=
  ∀ name tool, Registry.tools r !! name = Some tool → Tool.Name tool = name.

End Views.

(** The requests that a stream holds before the first value that does not
    decode, or its end. *)
Fixpoint requestsUntilError (incoming : list Rx) : list MCPRequest.t :=
  match incoming with
  | RxValue j :: rest =>
      match decodeRequest j with
      | Some req => req :: requestsUntilError rest
      | None => []
      end
  | _ => []
  end.

(** ** A machine for the built-in tools: files in memory, commands that
       print their own command line, and a grep that finds nothing *)

Definition memWriteFile (path content : string) (fs : gmap string string)
  : error * gmap string string :=
  if decide (path = "") then (Some "open : no such file or directory", fs)
  else (None, <[path := content]> fs).

Definition memRemove (path : string) (fs : gmap string string)
  : error * gmap string string :=
  match fs !! path with
  | Some _ => (None, delete path fs)
  | None => (Some ("remove " +:+ path +:+ ": no such file or directory"), fs)
  end.

Definition memCombinedOutput (name : string) (args : list string) (dir : string)
    (fs : gmap string string) : (string * error) * gmap string string :=
  if decide (name = "grep") then (("", Some "exit status 1"), fs)
  else ((strings_Join (name :: args) " ", None), fs).

Definition memShell : @Shell memOS :=
  {| MkdirAll := λ _ (fs : @World memOS), (None, fs);
     WriteFile := memWriteFile;
     ReadDir := λ _ (fs : @World memOS), ((map_to_list fs).*1, None);
     Remove := memRemove;
     filepath_Dir := λ _, ".";
     CombinedOutput := memCombinedOutput |}.

(** No key of [m] is the tag of a struct field in another letter case,
    under the folding of [key_is] (so "NAME" for "name", and "argument"
    followed by U+017F for "arguments"): the decoder stores such a member
    in the same field as the one spelled like the tag. *)
Definition noCaseVariant {A} (tag : string) (m : gmap string A) : Prop :=
  map_Forall (λ k _, key_is tag k = true → k = tag) m.

(** The UTF-8 bytes of U+017F (long s) and U+212A (Kelvin sign). *)
Definition long_s : string :=
  String (ascii_of_nat 197) (String (ascii_of_nat 191) EmptyString).

Definition kelvin_sign : string :=
  String (ascii_of_nat 226) (String (ascii_of_nat 132)
    (String (ascii_of_nat 170) EmptyString)).

(** Two project files, with times counted in seconds. *)
Definition demoFiles : list (FileContext.t Z) :=
  [FileContext.mk "/p/config.json" "{}" 2 1700000000 "99914b93" "json" 0;
   FileContext.mk "/p/main.go" "package main" 12 1700000100 "5eb63bbb" "go" 3].

Definition demoFormat (t : Z) : string := pretty t.

(** ** The registry of the program (registry.go, 25-37)

    [Register] is called by [NewRegistry] only, with the four built-in
    tools.  [SearchTool] is the one whose [Execute] can panic. *)

Section BuiltinRegistry.
Context `{Shell}.

Definition FileTool : Tool.t :=
  Tool.mk "file_operations" "Read, write, and manage files in the codebase"
    FileTool_Parameters FileTool_Execute (λ _ _, false).

Definition GitTool : Tool.t :=
  Tool.mk "git_operations"
    "Perform git operations like status, diff, add, commit, etc."
    GitTool_Parameters GitTool_Execute (λ _ _, false).

Definition ShellTool : Tool.t :=
  Tool.mk "shell_execute"
    "Execute shell commands for building, testing, and other operations"
    ShellTool_Parameters ShellTool_Execute (λ _ _, false).

Definition SearchTool : Tool.t :=
  Tool.mk "code_search"
    "Search for text patterns, function definitions, or file names in the codebase"
    SearchTool_Parameters
    (λ args w, default (("", None), w) (SearchTool_Execute args w))
    (λ args w, match SearchTool_Execute args w with Some _ => false | None => true end).

Definition NewRegistry : Registry.t :=
  Registry.Register SearchTool
    (Registry.Register ShellTool
       (Registry.Register GitTool
          (Registry.Register FileTool (Registry.mk ∅)))).

End BuiltinRegistry.

(** The server of the agent (enhanced_agent.go, 35 and 43) on the machine
    in memory, with one file resource. *)
Definition programServer : @Server.t memOS :=
  @RegisterResource memOS "/notes.txt" "notes" "Plain text notes" "text/plain" ∅
    (@NewMCPServer memOS "claude-go" "0.1.0" (@NewRegistry memOS memShell)).

Definition programState : @State memOS := @mkState memOS programServer demoWorld.

(** ** Serving a connection when a tool can panic (server.go, 153-170,
       253-260)

    Nothing recovers from a panic of [tool.Execute]: the goroutine of the
    connection dies in [handleCallTool], and the process with it. *)

Section Serving.
Context `{OS}.

(** The request is a tools/call on which the tool it names panics. *)
Definition callPanics (req : MCPRequest.t) (st : State) : bool :=
  bool_decide (MCPRequest.Method req = "tools/call")
  && let params := decodeCallToolParams (MCPRequest.Params req) in
     match Registry.tools (Server.tools (server st)) !! CallToolParams.Name params with
     | Some tool => Tool.Panics tool (CallToolParams.Arguments params) (world st)
     | None => false
     end.





End Serving.

(** ** Text

    [utf8.ValidString]: the encoder writes a string as it is when it is
    valid UTF-8, and the decoder returns such strings only. *)

Definition byte_in (lo hi : nat) (c : ascii) : bool :=
  ((lo <=? nat_of_ascii c) && (nat_of_ascii c <=? hi))%nat.

Fixpoint validUTF8 (s : string) : bool :=
  match s with
  | EmptyString => true
  | String c1 s1 =>
      if byte_in 0 127 c1 then validUTF8 s1
      else
        match s1 with
        | EmptyString => false
        | String c2 s2 =>
            if byte_in 194 223 c1 then byte_in 128 191 c2 && validUTF8 s2
            else
              match s2 with
              | EmptyString => false
              | String c3 s3 =>
                  if byte_in 224 224 c1
                  then byte_in 160 191 c2 && byte_in 128 191 c3 && validUTF8 s3
                  else if byte_in 225 236 c1 || byte_in 238 239 c1
                  then byte_in 128 191 c2 && byte_in 128 191 c3 && validUTF8 s3
                  else if byte_in 237 237 c1
                  then byte_in 128 159 c2 && byte_in 128 191 c3 && validUTF8 s3
                  else
                    match s3 with
                    | EmptyString => false
                    | String c4 s4 =>
                        if byte_in 240 240 c1
                        then byte_in 144 191 c2 && byte_in 128 191 c3
                             && byte_in 128 191 c4 && validUTF8 s4
                        else if byte_in 241 243 c1
                        then byte_in 128 191 c2 && byte_in 128 191 c3
                             && byte_in 128 191 c4 && validUTF8 s4
                        else if byte_in 244 244 c1
                        then byte_in 128 143 c2 && byte_in 128 191 c3
                             && byte_in 128 191 c4 && validUTF8 s4
                        else false
                    end
              end
        end
  end.

(** Every string and every key of a JSON tree is valid UTF-8. *)
Fixpoint textJSON (j : JSON) : bool :=
  match j with
  | JNull | JBool _ | JNum _ => true
  | JStr s => validUTF8 s
  | JArr l => forallb textJSON l
  | JObj l => forallb (λ kv, validUTF8 (fst kv) && textJSON (snd kv)) l
  end.

(** ** The exported calls of the client, from what [sendRequest] returned
       (client.go, 82-97, 106-122, 135-158)

    [cause] is the text of the error of [encoder.Encode], when the write
    failed. *)

Definition sendRequest_error (cause : string) (o : Outcome) : error :=
  match o with
  | GotResponse _ => None
  | SendError => Some ("failed to send request: " +:+ cause)
  | RequestTimeout => Some "request timeout"
  end.

Definition Initialize_return (cause : string) (o : Outcome) (c : Client.t)
  : error * Client.t :=
  match o with
  | GotResponse resp => Initialize_finish resp c
  | _ => (sendRequest_error cause o, c)
  end.

Definition ListTools_return (cause : string) (o : Outcome)
  : list MCPTool.t * error :=
  match o with
  | GotResponse resp => ListTools_finish resp
  | _ => ([], sendRequest_error cause o)
  end.

Definition CallTool_return (cause : string) (o : Outcome) : string * error :=
  match o with
  | GotResponse resp => CallTool_finish resp
  | _ => ("", sendRequest_error cause o)
  end.


(** * Theorems *)

(** ** The codec *)

Lemma decodeValue_not_int64 (j : JSON) (v : Value) (n : Z) :
  decodeValue j = Some v → v ≠ VInt64 n.
Proof.
  destruct j; simpl; intros Hd; simplify_option_eq; try discriminate.
  all: try (case_match; simplify_eq; discriminate).
Qed.

Lemma decode_members_inv {A} (P : A → Prop) (f : A → string * JSON → option A)
    (l : list (string * JSON)) (a a' : A) :
  (∀ x kv x', P x → f x kv = Some x' → P x') →
  P a → decode_members f l a = Some a' → P a'.
Proof.
  intros Hstep. revert a. induction l as [|kv l IH]; intros a Ha; simpl.
  - intros [= <-]. exact Ha.
  - destruct (f a kv) as [a1|] eqn:Hf; [|discriminate].
    apply IH. eapply Hstep; eassumption.
Qed.

Lemma decodeResponse_id_not_int64 (j : JSON) (resp : MCPResponse.t) (n : Z) :
  decodeResponse j = Some resp → MCPResponse.ID resp ≠ VInt64 n.
Proof.
  destruct j; simpl; try discriminate.
  - intros [= <-]. discriminate.
  - apply (decode_members_inv (λ r, MCPResponse.ID r ≠ VInt64 n)); [|discriminate].
    intros r [k jv] r' Hr. unfold decodeResponse_member.
    repeat case_match; intros Hd; simplify_option_eq; simpl; try assumption.
    eapply decodeValue_not_int64; eassumption.
Qed.

Lemma decodeRequest_id_not_int64 (j : JSON) (req : MCPRequest.t) (n : Z) :
  decodeRequest j = Some req → MCPRequest.ID req ≠ VInt64 n.
Proof.
  destruct j; simpl; try discriminate.
  - intros [= <-]. discriminate.
  - apply (decode_members_inv (λ r, MCPRequest.ID r ≠ VInt64 n)); [|discriminate].
    intros r [k jv] r' Hr. unfold decodeRequest_member.
    repeat case_match; intros Hd; simplify_option_eq; simpl; try assumption.
    eapply decodeValue_not_int64; eassumption.
Qed.


(** The codec is lossless on wire-stable values: what fails to come back
    is the int64 (and the float64 that is not representable). *)
Lemma mapM_decode_encode (l : list Value) :
  (∀ v, v ∈ l → decodeValue (encodeValue v) = Some v) →
  mapM decodeValue (map encodeValue l) = Some l.
Proof.
  induction l as [|v l IH]; intros Hall; simpl; [reflexivity|].
  rewrite (Hall v) by apply list_elem_of_here. simpl.
  rewrite IH; [reflexivity|].
  intros w Hw. apply Hall. apply list_elem_of_further. exact Hw.
Qed.

Lemma mapM_decode_members (l : list (string * Value)) :
  (∀ kv, kv ∈ l → decodeValue (encodeValue kv.2) = Some kv.2) →
  mapM (λ kv : string * JSON, pair kv.1 <$> decodeValue kv.2)
    (map (λ kv : string * Value, (kv.1, encodeValue kv.2)) l) = Some l.
Proof.
  induction l as [|[k v] l IH]; intros Hall; simpl; [reflexivity|].
  pose proof (Hall (k, v) (list_elem_of_here _ _)) as Hv. simpl in Hv.
  rewrite Hv. simpl.
  rewrite IH; [reflexivity|].
  intros w Hw. apply Hall. apply list_elem_of_further. exact Hw.
Qed.

Lemma members_to_map_permutation {A} (m : gmap string A) (l : list (string * A)) :
  l ≡ₚ map_to_list m → members_to_map l = m.
Proof.
  intros Hp. unfold members_to_map.
  transitivity (list_to_map (map_to_list m) : gmap string A);
    [|apply list_to_map_to_list].
  apply list_to_map_proper.
  - rewrite reverse_Permutation, Hp. apply NoDup_fst_map_to_list.
  - rewrite reverse_Permutation. exact Hp.
Qed.


Lemma decodeValue_encodeValue (v : Value) :
  wireStable v → decodeValue (encodeValue v) = Some v.
Proof.
  induction 1 as [|b|f Hf Hr|s|l _ IH|m _ IH]; simpl; try reflexivity.
  - rewrite Hf, Hr. reflexivity.
  - rewrite mapM_decode_encode by exact IH. reflexivity.
  - unfold sorted_members.
    set (L := merge_sort member_le (map_to_list (encodeValue <$> m))).
    assert (Hp : L ≡ₚ map (λ kv : string * Value, (kv.1, encodeValue kv.2))
                       (map_to_list m)).
    { subst L. rewrite merge_sort_Permutation, map_to_list_fmap.
      induction (map_to_list m) as [|[k w] l1 IHl]; [reflexivity|].
      simpl. constructor. exact IHl. }
    apply Permutation_map_inv in Hp as (l0 & Heq & Hp0).
    rewrite Heq, mapM_decode_members.
    + simpl. f_equal. f_equal. apply members_to_map_permutation.
      symmetry. exact Hp0.
    + intros [k w] Hin. simpl. apply (IH k).
      apply elem_of_map_to_list. rewrite Hp0. exact Hin.
Qed.

Lemma decode_omitempty {A} (tag : string) (v : Value) (a : A)
    (f : A → string * JSON → option A) (g : Value → A) :
  wireStable v →
  g VNil = a →
  (∀ w, decodeValue (encodeValue w) = Some w → f a (tag, encodeValue w) = Some (g w)) →
  decode_members f (omitempty tag v) a = Some (g v).
Proof.
  intros Hv Hnil Hf. pose proof (decodeValue_encodeValue v Hv) as Hd.
  assert (Hcase : v = VNil ∨ omitempty tag v = [(tag, encodeValue v)])
    by (destruct v; auto).
  destruct Hcase as [-> | ->].
  - simpl. rewrite Hnil. reflexivity.
  - cbn [decode_members]. rewrite (Hf _ Hd). reflexivity.
Qed.

Lemma decodeRequest_encodeRequest (r : MCPRequest.t) :
  wireStable (MCPRequest.ID r) → wireStable (MCPRequest.Params r) →
  decodeRequest (encodeRequest r) = Some r.
Proof.
  destruct r as [v id m p]. simpl. intros Hid Hp.
  unfold decodeRequest, encodeRequest. simpl.
  rewrite (decodeValue_encodeValue id Hid). simpl.
  apply (decode_omitempty "params" p _ _ (MCPRequest.mk v id m) Hp); [reflexivity|].
  intros w Hw. simpl. rewrite Hw. reflexivity.
Qed.

Lemma decode_members_app {A} (f : A → string * JSON → option A)
    (l1 l2 : list (string * JSON)) (a : A) :
  decode_members f (l1 ++ l2) a
  = match decode_members f l1 a with
    | Some a' => decode_members f l2 a'
    | None => None
    end.
Proof.
  revert a. induction l1 as [|kv l1 IH]; intros a; simpl; [reflexivity|].
  destruct (f a kv); [apply IH|reflexivity].
Qed.

Lemma decodeError_encodeError (e : MCPError.t) :
  - 2 ^ 63 ≤ MCPError.Code e < 2 ^ 63 → wireStable (MCPError.Data e) →
  decodeError (encodeError e) None = Some (Some e).
Proof.
  destruct e as [c m d]. simpl. intros Hc Hd.
  unfold decodeError, encodeError. simpl.
  assert ((- 2 ^ 63 <=? c) && (c <? 2 ^ 63) = true) as ->.
  { apply andb_true_intro. split; [apply Z.leb_le|apply Z.ltb_lt]; lia. }
  simpl.
  rewrite (decode_omitempty "data" d _ _ (MCPError.mk c m) Hd); [reflexivity..|].
  intros w Hw. simpl. rewrite Hw. reflexivity.
Qed.

Lemma decodeResponse_encodeResponse (r : MCPResponse.t) :
  wireStable (MCPResponse.ID r) → wireStable (MCPResponse.Result r) →
  (∀ e, MCPResponse.Error r = Some e → stableError e) →
  decodeResponse (encodeResponse r) = Some r.
Proof.
  destruct r as [v id res err]. simpl. intros Hid Hres Herr.
  unfold decodeResponse, encodeResponse.
  cbn [app decode_members decodeResponse_member]. simpl.
  rewrite decode_members_app.
  rewrite (decode_omitempty "id" id _ _ (λ w, MCPResponse.mk v w VNil None) Hid);
    [|reflexivity|intros w Hw; simpl; rewrite Hw; reflexivity].
  rewrite decode_members_app.
  rewrite (decode_omitempty "result" res _ _ (λ w, MCPResponse.mk v id w None) Hres);
    [|reflexivity|intros w Hw; simpl; rewrite Hw; reflexivity].
  destruct err as [e|]; [|reflexivity].
  destruct (Herr e eq_refl) as [Hc Hd].
  cbn [decode_members]. unfold decodeResponse_member.
  change (key_is "jsonrpc" "error") with false.
  change (key_is "id" "error") with false.
  change (key_is "result" "error") with false.
  change (key_is "error" "error") with true.
  cbn [MCPResponse.Error MCPResponse.JSONRPC MCPResponse.ID MCPResponse.Result].
  rewrite (decodeError_encodeError e Hc Hd). reflexivity.
Qed.

Lemma float64_of_Z_scaled (s q k : Z) :
  s = 1 ∨ s = -1 → 0 < k → 2 ^ 52 ≤ q ≤ 2 ^ 53 →
  float64_of_Z (s * Z.shiftl q k) = s * Z.shiftl q k.
Proof.
  intros Hs Hk Hq.
  rewrite Z.shiftl_mul_pow2 by lia.
  assert (Hpk : 0 < 2 ^ k) by (apply Z.pow_pos_nonneg; lia).
  assert (Habs : Z.abs (s * (q * 2 ^ k)) = q * 2 ^ k).
  { destruct Hs as [-> | ->]; [rewrite Z.mul_1_l; apply Z.abs_eq; nia|].
    rewrite Z.abs_neq; nia. }
  assert (Hsgn : Z.sgn (s * (q * 2 ^ k)) = s).
  { destruct Hs as [-> | ->]; [apply Z.sgn_pos_iff; nia | apply Z.sgn_neg_iff; nia]. }
  unfold float64_of_Z. rewrite Habs, Hsgn.
  destruct (Z.eq_dec q (2 ^ 53)) as [-> | Hne].
  - assert (Hlog : Z.log2 (2 ^ 53 * 2 ^ k) = 53 + k).
    { rewrite <- Z.pow_add_r by lia. apply Z.log2_pow2. lia. }
    rewrite Hlog. replace (53 + k - 52) with (k + 1) by lia.
    rewrite (proj2 (Z.leb_gt (k + 1) 0)) by lia.
    rewrite Z.shiftr_div_pow2 by lia.
    rewrite Z.land_ones by lia.
    replace (2 ^ 53 * 2 ^ k) with (2 ^ 52 * 2 ^ (k + 1))
      by (rewrite Z.pow_add_r by lia; lia).
    rewrite Z.div_mul by lia. rewrite Z.mod_mul by lia.
    rewrite (Z.shiftl_mul_pow2 1) by lia. replace (k + 1 - 1) with k by lia.
    rewrite Z.mul_1_l.
    rewrite (proj2 (Z.ltb_lt 0 (2 ^ k))) by lia.
    rewrite Z.shiftl_mul_pow2 by lia. reflexivity.
  - assert (Hlog : Z.log2 (q * 2 ^ k) = 52 + k).
    { apply Z.log2_unique; [lia|].
      replace (Z.succ (52 + k)) with (53 + k) by lia.
      rewrite (Z.pow_add_r 2 52 k), (Z.pow_add_r 2 53 k) by lia. nia. }
    rewrite Hlog. replace (52 + k - 52) with k by lia.
    rewrite (proj2 (Z.leb_gt k 0)) by lia.
    rewrite Z.shiftr_div_pow2 by lia.
    rewrite Z.land_ones by lia.
    rewrite Z.div_mul by lia. rewrite Z.mod_mul by lia.
    rewrite (Z.shiftl_mul_pow2 1) by lia. rewrite Z.mul_1_l.
    assert (0 < 2 ^ (k - 1)) by (apply Z.pow_pos_nonneg; lia).
    rewrite (proj2 (Z.ltb_lt 0 (2 ^ (k - 1)))) by lia.
    rewrite Z.shiftl_mul_pow2 by lia. reflexivity.
Qed.

(** Rounding to float64 is idempotent. *)
Lemma float64_of_Z_idem (z : Z) : float64_of_Z (float64_of_Z z) = float64_of_Z z.
Proof.
  unfold float64_of_Z at 2 3.
  destruct (Z.log2 (Z.abs z) - 52 <=? 0) eqn:Hk;
    [unfold float64_of_Z; rewrite Hk; reflexivity|].
  apply Z.leb_gt in Hk.
  set (k := Z.log2 (Z.abs z) - 52) in *.
  assert (Ha : 0 < Z.abs z).
  { destruct (Z.eq_dec (Z.abs z) 0) as [Hz|Hnz]; [|pose proof (Z.abs_nonneg z); lia].
    exfalso. subst k. rewrite Hz in Hk. simpl in Hk. lia. }
  destruct (Z.log2_spec _ Ha) as [Hlo Hhi].
  replace (Z.log2 (Z.abs z)) with (52 + k) in Hlo by (subst k; lia).
  replace (Z.succ (Z.log2 (Z.abs z))) with (53 + k) in Hhi by (subst k; lia).
  rewrite Z.pow_add_r in Hlo, Hhi by lia.
  assert (Hpk : 0 < 2 ^ k) by (apply Z.pow_pos_nonneg; lia).
  assert (Hq : 2 ^ 52 ≤ Z.shiftr (Z.abs z) k < 2 ^ 53).
  { rewrite Z.shiftr_div_pow2 by lia. split.
    - apply Z.div_le_lower_bound; lia.
    - apply Z.div_lt_upper_bound; lia. }
  apply float64_of_Z_scaled; [|lia|].
  - destruct (Z.sgn_spec z) as [[_ ->]|[[Hz _]|[_ ->]]]; [auto| |auto].
    rewrite <- Hz in Ha. simpl in Ha. lia.
  - repeat match goal with |- context [if ?b then _ else _] => destruct b end; lia.
Qed.


Lemma decodeValue_wireStable (j : JSON) (v : Value) :
  decodeValue j = Some v → wireStable v.
Proof.
  revert v. induction j as [|b|n|s|l IH|l IH] using JSON_nested_ind;
    intros v; simpl.
  - intros [= <-]. constructor.
  - intros [= <-]. constructor.
  - destruct (float64_in_range (float64_of_Z n)) eqn:Hr; [|discriminate].
    intros [= <-]. constructor; [apply float64_of_Z_idem | exact Hr].
  - intros [= <-]. constructor.
  - destruct (mapM decodeValue l) as [vs|] eqn:Hm; [|discriminate].
    simpl. intros [= <-]. constructor. intros w Hw.
    apply mapM_Some in Hm.
    revert IH. induction Hm as [|x y l vs Hxy _ IHm]; intros IH.
    + apply elem_of_nil in Hw. contradiction.
    + apply Forall_cons in IH as [IHx IHl].
      apply elem_of_cons in Hw as [-> | Hw]; [apply (IHx _ Hxy) | auto].
  - destruct (mapM _ l) as [kvs|] eqn:Hm; [|discriminate].
    simpl. intros [= <-]. constructor. intros k w Hkw.
    unfold members_to_map in Hkw.
    apply elem_of_list_to_map_2 in Hkw. rewrite elem_of_reverse in Hkw.
    apply mapM_Some in Hm.
    revert IH. induction Hm as [|x y l vs Hxy _ IHm]; intros IH.
    + apply elem_of_nil in Hkw. contradiction.
    + apply Forall_cons in IH as [IHx IHl].
      apply elem_of_cons in Hkw as [<- | Hkw]; [|auto].
      destruct (decodeValue x.2) as [w'|] eqn:Hx; [|discriminate].
      simpl in Hxy. injection Hxy as [= <- <-]. apply (IHx _ eq_refl).
Qed.

Lemma decodeRequest_wireStable (j : JSON) (r : MCPRequest.t) :
  decodeRequest j = Some r →
  wireStable (MCPRequest.ID r) ∧ wireStable (MCPRequest.Params r).
Proof.
  destruct j; simpl; try discriminate.
  - intros [= <-]. split; constructor.
  - apply (decode_members_inv
             (λ r, wireStable (MCPRequest.ID r) ∧ wireStable (MCPRequest.Params r)));
      [|split; constructor].
    intros x [k jv] x' [Hid Hp]. unfold decodeRequest_member.
    repeat case_match; intros Hd; simplify_option_eq; simpl; split;
      eauto using decodeValue_wireStable.
Qed.

Lemma decodeError_stable (j : JSON) (old new : option MCPError.t) :
  (∀ e, old = Some e → stableError e) →
  decodeError j old = Some new →
  ∀ e, new = Some e → stableError e.
Proof.
  intros Hold. destruct j; simpl; try discriminate.
  - intros [= <-]. discriminate.
  - destruct (decode_members _ _ _) as [e'|] eqn:Hm; [|discriminate].
    simpl. intros [= <-] e [= <-]. revert Hm.
    apply (decode_members_inv stableError).
    + intros x [k jv] x' [Hc Hd]. unfold decodeError_member, decode_int.
      repeat case_match; intros Hx; simplify_option_eq; simpl; split;
        eauto using decodeValue_wireStable; try lia.
      match goal with
      | Hn : (_ <=? _) && (_ <? _) = true |- _ =>
          apply andb_prop in Hn as [?%Z.leb_le ?%Z.ltb_lt]; simpl; lia
      end.
    + destruct old as [e0|]; simpl; [auto|].
      split; [simpl; lia | constructor].
Qed.

Lemma decodeResponse_wireStable (j : JSON) (r : MCPResponse.t) :
  decodeResponse j = Some r →
  wireStable (MCPResponse.ID r) ∧ wireStable (MCPResponse.Result r)
  ∧ ∀ e, MCPResponse.Error r = Some e → stableError e.
Proof.
  destruct j; simpl; try discriminate.
  - intros [= <-]. repeat split; try constructor; discriminate.
  - apply (decode_members_inv
             (λ r, wireStable (MCPResponse.ID r) ∧ wireStable (MCPResponse.Result r)
                   ∧ ∀ e, MCPResponse.Error r = Some e → stableError e));
      [|repeat split; try constructor; discriminate].
    intros x [k jv] x' (Hid & Hres & Herr). unfold decodeResponse_member.
    repeat case_match; intros Hd; simplify_option_eq; simpl; (split; [|split]);
      eauto using decodeValue_wireStable, decodeError_stable.
Qed.

(** What has been decoded from the wire goes back onto it and comes back
    unchanged. *)
Lemma decodeRequest_fixed (j : JSON) (r : MCPRequest.t) :
  decodeRequest j = Some r → decodeRequest (encodeRequest r) = Some r.
Proof.
  intros Hd. apply decodeRequest_wireStable in Hd as [Hid Hp].
  apply decodeRequest_encodeRequest; assumption.
Qed.

Lemma decodeResponse_fixed (j : JSON) (r : MCPResponse.t) :
  decodeResponse j = Some r → decodeResponse (encodeResponse r) = Some r.
Proof.
  intros Hd. apply decodeResponse_wireStable in Hd as (Hid & Hres & Herr).
  apply decodeResponse_encodeResponse; assumption.
Qed.

(** Claim C2, on the code.  A request or response (with a result, or with
    an error) whose id is the int64 1 comes back from the wire with the id
    float64 1, which is a different value; the int64 2^53+1 comes back as
    the float64 2^53. *)
Theorem codec_int64_id_not_preserved :
  let req n := MCPRequest.mk "2.0" (VInt64 n) "tools/list" VNil in
  let result n := MCPResponse.mk "2.0" (VInt64 n) (VString "ok") None in
  let failure n :=
    MCPResponse.mk "2.0" (VInt64 n) VNil
      (Some (MCPError.mk (-32601) "Method not found" VNil)) in
  decodeRequest (encodeRequest (req 1))
  = Some (MCPRequest.mk "2.0" (VFloat64 1) "tools/list" VNil)
  ∧ decodeRequest (encodeRequest (req 1)) ≠ Some (req 1)
  ∧ decodeResponse (encodeResponse (result 1))
    = Some (MCPResponse.mk "2.0" (VFloat64 1) (VString "ok") None)
  ∧ decodeResponse (encodeResponse (result 1)) ≠ Some (result 1)
  ∧ decodeResponse (encodeResponse (failure 1))
    = Some (MCPResponse.mk "2.0" (VFloat64 1) VNil
              (Some (MCPError.mk (-32601) "Method not found" VNil)))
  ∧ decodeResponse (encodeResponse (failure 1)) ≠ Some (failure 1)
  ∧ wrap64 (2 ^ 53 + 1) = 2 ^ 53 + 1
  ∧ decodeRequest (encodeRequest (req (2 ^ 53 + 1)))
    = Some (MCPRequest.mk "2.0" (VFloat64 (2 ^ 53)) "tools/list" VNil)
  ∧ decodeResponse (encodeResponse (result (2 ^ 53 + 1)))
    = Some (MCPResponse.mk "2.0" (VFloat64 (2 ^ 53)) (VString "ok") None).
Proof.
  intros req result failure.
  repeat split; try (vm_compute; reflexivity); vm_compute; discriminate.
Qed.

Lemma encoded_int64_id_never_returns (r : MCPRequest.t) (n : Z) :
  MCPRequest.ID r = VInt64 n → decodeRequest (encodeRequest r) ≠ Some r.
Proof.
  intros Hid Hdec. eapply decodeRequest_id_not_int64; eassumption.
Qed.

(** ** The server router *)

Section RouterFacts.
Context `{OS}.

Ltac unfold_handlers :=
  unfold handleInitialize, handleListTools, handleCallTool, handleListResources,
    handleReadResource, bind, ret, getServer, liftWorld, readWorld in *.

Lemma handleRequest_unrecognized (req : MCPRequest.t) (st : State) :
  recognized (MCPRequest.Method req) = false →
  handleRequest req st
  = (errorResponse (MCPRequest.ID req) (-32601) "Method not found", st).
Proof.
  unfold recognized. intros Hm. apply bool_decide_eq_false in Hm.
  unfold handleRequest.
  repeat (case_bool_decide;
          [exfalso; apply Hm;
           match goal with Heq : MCPRequest.Method req = _ |- _ => rewrite Heq end;
           set_solver|]).
  reflexivity.
Qed.

Lemma handleCallTool_eq (req : MCPRequest.t) (st : State) :
  handleCallTool req st
  = let params := decodeCallToolParams (MCPRequest.Params req) in
    let r := Registry.Execute (Server.tools (server st))
               (CallToolParams.Name params) (CallToolParams.Arguments params)
               (world st) in
    (match r.1.2 with
     | Some err =>
         errorResponse (MCPRequest.ID req) (-32602)
           ("Tool execution failed: " +:+ err)
     | None =>
         resultResponse (MCPRequest.ID req)
           (VMap {[ "content" :=
                      VSlice [VMap {[ "type" := VString "text";
                                      "text" := VString r.1.1 ]}] ]})
     end, mkState (server st) r.2).
Proof.
  unfold_handlers. simpl.
  destruct (Registry.Execute _ _ _ _) as [[result [err|]] w]; reflexivity.
Qed.

Lemma handleReadResource_eq (req : MCPRequest.t) (st : State) :
  handleReadResource req st
  = (match Server.resources (server st)
             !! ReadResourceParams.URI (decodeReadResourceParams (MCPRequest.Params req)) with
     | None => errorResponse (MCPRequest.ID req) (-32602) "Resource not found"
     | Some resource =>
         if readableMime (Resource.MimeType resource) then
           match ReadFile (Resource.URI resource) (world st) with
           | (_, Some err) =>
               errorResponse (MCPRequest.ID req) (-32602)
                 ("Failed to read resource: " +:+ err)
           | (content, None) =>
               resultResponse (MCPRequest.ID req)
                 (VMap {[ "contents" :=
                            VSlice [VMap {[ "uri" := VString (Resource.URI resource);
                                            "mimeType" := VString (Resource.MimeType resource);
                                            "text" := VString content ]}] ]})
           end
         else errorResponse (MCPRequest.ID req) (-32602) "Unsupported resource type"
     end, st).
Proof.
  unfold_handlers. simpl.
  destruct (Server.resources (server st) !! _) as [resource|]; [|reflexivity].
  destruct (readableMime _); [|reflexivity].
  destruct (ReadFile _ _) as [content [err|]]; reflexivity.
Qed.

Lemma handleRequest_ID (req : MCPRequest.t) (st : State) :
  MCPResponse.ID (handleRequest req st).1 = MCPRequest.ID req.
Proof.
  unfold handleRequest. repeat case_bool_decide;
    rewrite ?handleCallTool_eq, ?handleReadResource_eq; try reflexivity; simpl.
  - destruct (Registry.Execute _ _ _ _) as [[result [err|]] w]; reflexivity.
  - destruct (Server.resources (server st) !! _) as [resource|]; [|reflexivity].
    destruct (readableMime _); [|reflexivity].
    destruct (ReadFile _ _) as [content [err|]]; reflexivity.
Qed.

Lemma handleRequest_server (req : MCPRequest.t) (st : State) :
  server (handleRequest req st).2 = server st.
Proof.
  unfold handleRequest. repeat case_bool_decide;
    rewrite ?handleCallTool_eq, ?handleReadResource_eq; reflexivity.
Qed.

Lemma handleRequests_server (reqs : list MCPRequest.t) (st : State) :
  server (handleRequests reqs st).2 = server st.
Proof.
  revert st. induction reqs as [|req reqs IH]; intros st; simpl; [reflexivity|].
  pose proof (handleRequest_server req st) as Hs.
  destruct (handleRequest req st) as [resp st1]; simpl in Hs.
  specialize (IH st1). destruct (handleRequests reqs st1) as [resps st2]; simpl in *.
  congruence.
Qed.


(** The servers that [NewMCPServer] and [RegisterResource] build store
    every resource under its own uri, and handling requests keeps it so. *)
Lemma resourcesKeyed_new (name version : string) (toolRegistry : Registry.t) :
  resourcesKeyed (NewMCPServer name version toolRegistry).
Proof. intros uri r Hlook. simpl in Hlook. rewrite lookup_empty in Hlook. discriminate. Qed.

Lemma resourcesKeyed_register (uri name description mimeType : string)
    (metadata : gmap string string) (s : Server.t) :
  resourcesKeyed s →
  resourcesKeyed (RegisterResource uri name description mimeType metadata s).
Proof.
  intros Hs uri' r Hlook. simpl in Hlook.
  apply lookup_insert_Some in Hlook as [[<- <-]|[_ Hlook]]; [reflexivity|].
  apply Hs. exact Hlook.
Qed.

Lemma resourcesKeyed_handleRequest (req : MCPRequest.t) (st : State) :
  resourcesKeyed (server st) → resourcesKeyed (server (handleRequest req st).2).
Proof. rewrite handleRequest_server. auto. Qed.

(** Claim C7.  For every request with a recognized method (initialize,
    tools/list, tools/call, resources/list, resources/read), the response
    that [handleRequest] returns carries the id of the request.  (The
    default branch echoes the id as well, see [handleRequest_ID].) *)
Theorem response_id_equals_request_id (req : MCPRequest.t) (st : State) :
  recognized (MCPRequest.Method req) = true →
  MCPResponse.ID (handleRequest req st).1 = MCPRequest.ID req.
Proof. intros _. apply handleRequest_ID. Qed.

(** Claim C6.  An initialize request succeeds whatever its params and
    whatever requests, initialize or other, were handled before it: the
    result holds the protocol version 2024-11-05, the capabilities and the
    name and version of the server as they were before all of them, and
    handling it returns the state it was started in (resource table, tool
    registry, capabilities and machine unchanged). *)
Theorem initialize_idempotent (before : list MCPRequest.t)
    (req : MCPRequest.t) (st : State) :
  MCPRequest.Method req = "initialize" →
  let st1 := (handleRequests before st).2 in
  handleRequest req st1
  = (resultResponse (MCPRequest.ID req)
       (box_InitializeResult
          (InitializeResult.mk "2024-11-05"
             (Server.capabilities (server st))
             (ServerInfo.mk (Server.name (server st)) (Server.version (server st))))),
     st1).
Proof.
  intros Hm st1. unfold handleRequest. rewrite Hm. simpl.
  unfold handleInitialize, bind, getServer, ret. simpl.
  subst st1. rewrite handleRequests_server. reflexivity.
Qed.

(** Claim C5.  A tools/call request whose decoded name is not in the tool
    registry is answered: [Registry.Execute] fails with
    "tool <name> not found", and the response is an error with code -32602
    whose message is "Tool execution failed: " followed by that failure
    message; the state is unchanged. *)
Theorem tools_call_unknown_tool (req : MCPRequest.t) (st : State) :
  MCPRequest.Method req = "tools/call" →
  let params := decodeCallToolParams (MCPRequest.Params req) in
  Registry.tools (Server.tools (server st)) !! CallToolParams.Name params = None →
  (Registry.Execute (Server.tools (server st)) (CallToolParams.Name params)
     (CallToolParams.Arguments params) (world st)).1.2
  = Some ("tool " +:+ CallToolParams.Name params +:+ " not found")
  ∧ handleRequest req st
    = (errorResponse (MCPRequest.ID req) (-32602)
         ("Tool execution failed: "
          +:+ ("tool " +:+ CallToolParams.Name params +:+ " not found")),
       st).
Proof.
  intros Hm params Hnone.
  assert (Hex : Registry.Execute (Server.tools (server st)) (CallToolParams.Name params)
                  (CallToolParams.Arguments params) (world st)
                = (("", Some ("tool " +:+ CallToolParams.Name params +:+ " not found")),
                   world st)).
  { unfold Registry.Execute. rewrite Hnone. reflexivity. }
  split; [rewrite Hex; reflexivity|].
  unfold handleRequest. rewrite Hm. simpl.
  rewrite handleCallTool_eq. fold params. simpl. rewrite Hex. simpl.
  destruct st; reflexivity.
Qed.

(** Claim C9.  A request whose method is not one of the five recognized
    ones is answered with the error -32601 "Method not found"; once that
    response is written, the connection loop goes on with what is left of
    the stream, in the same state. *)
Theorem unknown_method_keeps_connection (j : JSON) (req : MCPRequest.t)
    (rest : list Rx) (out out' : list JSON) (wr : option nat) (st : State) :
  decodeRequest j = Some req →
  recognized (MCPRequest.Method req) = false →
  Encode (errorResponse (MCPRequest.ID req) (-32601) "Method not found") out wr
  = Some out' →
  handleRequest req st
  = (errorResponse (MCPRequest.ID req) (-32601) "Method not found", st)
  ∧ out' = out ++ [encodeResponse
                     (errorResponse (MCPRequest.ID req) (-32601) "Method not found")]
  ∧ handleConnection_loop (RxValue j :: rest) out wr st
    = handleConnection_loop rest out' wr st.
Proof.
  intros Hdec Hm Henc.
  pose proof (handleRequest_unrecognized req st Hm) as Hreq.
  split; [exact Hreq|]. split.
  - unfold Encode in Henc. destruct wr as [n|].
    + destruct (length out <? n)%nat; congruence.
    + congruence.
  - simpl. rewrite Hdec, Hreq, Henc. reflexivity.
Qed.

(** Claim C3, amended.  For a resources/read request with decoded uri
    [uri]: when no resource is registered under it, the response is the
    error -32602 "Resource not found"; when one is registered with mime
    type text/plain or application/octet-stream, the file named by its URI
    is read, and the response is the result
    {contents: [{uri, mimeType, text}]} holding the content when the read
    succeeds and the error -32602 "Failed to read resource: <cause>" when
    it fails; for every other mime type the response is the error -32602
    "Unsupported resource type".  The state is unchanged. *)
Theorem resources_read_cases (req : MCPRequest.t) (st : State) :
  MCPRequest.Method req = "resources/read" →
  let uri := ReadResourceParams.URI (decodeReadResourceParams (MCPRequest.Params req)) in
  let resp := (handleRequest req st).1 in
  (handleRequest req st).2 = st
  ∧ (Server.resources (server st) !! uri = None →
     resp = errorResponse (MCPRequest.ID req) (-32602) "Resource not found")
  ∧ (∀ resource,
       Server.resources (server st) !! uri = Some resource →
       (Resource.MimeType resource = "text/plain"
        ∨ Resource.MimeType resource = "application/octet-stream") →
       (∀ content,
          ReadFile (Resource.URI resource) (world st) = (content, None) →
          resp = resultResponse (MCPRequest.ID req)
                   (VMap {[ "contents" :=
                              VSlice [VMap {[ "uri" := VString (Resource.URI resource);
                                              "mimeType" := VString (Resource.MimeType resource);
                                              "text" := VString content ]}] ]}))
       ∧ (∀ content err,
            ReadFile (Resource.URI resource) (world st) = (content, Some err) →
            resp = errorResponse (MCPRequest.ID req) (-32602)
                     ("Failed to read resource: " +:+ err)))
  ∧ (∀ resource,
       Server.resources (server st) !! uri = Some resource →
       Resource.MimeType resource ≠ "text/plain" →
       Resource.MimeType resource ≠ "application/octet-stream" →
       resp = errorResponse (MCPRequest.ID req) (-32602) "Unsupported resource type").
Proof.
  intros Hm uri resp. subst resp.
  unfold handleRequest. rewrite Hm. simpl. rewrite handleReadResource_eq.
  fold uri. simpl. split; [reflexivity|]. split; [|split].
  - intros ->. reflexivity.
  - intros resource -> Hmime.
    assert (readableMime (Resource.MimeType resource) = true) as ->.
    { unfold readableMime. destruct Hmime as [-> | ->]; reflexivity. }
    split.
    + intros content ->. reflexivity.
    + intros content err ->. reflexivity.
  - intros resource -> H1 H2.
    assert (readableMime (Resource.MimeType resource) = false) as ->.
    { unfold readableMime. rewrite !bool_decide_eq_false_2 by assumption. reflexivity. }
    reflexivity.
Qed.

Lemma decodeCallToolParams_not_object (params : Value) :
  isObject params = false → decodeCallToolParams params = CallToolParams.zero.
Proof. destruct params; simpl; congruence. Qed.

Lemma decodeReadResourceParams_not_object (params : Value) :
  isObject params = false → decodeReadResourceParams params = ReadResourceParams.zero.
Proof. destruct params; simpl; congruence. Qed.

End RouterFacts.

Section ProgramRouter.
Context `{Shell}.

Lemma NewRegistry_no_empty_name : Registry.tools NewRegistry !! "" = None.
Proof.
  unfold NewRegistry, Registry.Register. simpl.
  rewrite !lookup_insert_ne by discriminate. apply lookup_empty.
Qed.

(** Claim C10.  On the server of the program, whose registry is the one of
    [NewRegistry], a tools/call or resources/read request whose params
    are not an object (absent, null, or any other JSON value) does not
    make the server panic: the params decode to the zero struct (empty
    name, empty uri) and the request is answered with one response, an
    error of code -32602 ("Tool execution failed: tool  not found" for
    tools/call), the state staying as it was.  The resources are stored
    under their own uri, as [RegisterResource] stores them. *)
Theorem absent_params_invalid_params (req : MCPRequest.t) (st : State) :
  Server.tools (server st) = NewRegistry →
  resourcesKeyed (server st) →
  isObject (MCPRequest.Params req) = false →
  (MCPRequest.Method req = "tools/call" →
   decodeCallToolParams (MCPRequest.Params req) = CallToolParams.zero
   ∧ callPanics req st = false
   ∧ handleRequest req st
     = (errorResponse (MCPRequest.ID req) (-32602)
          "Tool execution failed: tool  not found", st))
  ∧ (MCPRequest.Method req = "resources/read" →
     decodeReadResourceParams (MCPRequest.Params req) = ReadResourceParams.zero
     ∧ callPanics req st = false
     ∧ ∃ message,
         handleRequest req st
         = (errorResponse (MCPRequest.ID req) (-32602) message, st)).
Proof.
  intros Htools Hkeyed Hobj. split.
  - intros Hm. pose proof (decodeCallToolParams_not_object _ Hobj) as Hz.
    split; [exact Hz|]. split.
    + unfold callPanics. rewrite Hz, Htools.
      change (CallToolParams.Name CallToolParams.zero) with "".
      cbv zeta. rewrite NewRegistry_no_empty_name. apply andb_false_r.
    + unfold handleRequest. rewrite Hm. simpl. rewrite handleCallTool_eq, Hz.
      unfold Registry.Execute. rewrite Htools.
      change (CallToolParams.Name CallToolParams.zero) with "".
      rewrite NewRegistry_no_empty_name.
      simpl. destruct st; reflexivity.
  - intros Hm. pose proof (decodeReadResourceParams_not_object _ Hobj) as Hz.
    split; [exact Hz|]. split.
    + unfold callPanics. rewrite Hm. reflexivity.
    + unfold handleRequest. rewrite Hm. simpl. rewrite handleReadResource_eq, Hz. simpl.
      destruct (Server.resources (server st) !! "") as [resource|] eqn:Hres; [|eauto].
      destruct (readableMime _); [|eauto].
      rewrite (Hkeyed _ _ Hres).
      pose proof (ReadFile_empty_path (world st)) as Hfail.
      destruct (ReadFile "" (world st)) as [content [err|]]; [eauto|].
      exfalso. apply Hfail. reflexivity.
Qed.

End ProgramRouter.

Lemma response_id_equals_request_id_witness :
  recognized (MCPRequest.Method (callRequest (VFloat64 7) "echo" {[ "x" := VString "hi" ]}))
  = true
  ∧ MCPResponse.ID
      (@handleRequest memOS
         (callRequest (VFloat64 7) "echo" {[ "x" := VString "hi" ]}) demoState).1
    = VFloat64 7.
Proof.
  split; [vm_compute; reflexivity|].
  apply (@response_id_equals_request_id memOS
           (callRequest (VFloat64 7) "echo" {[ "x" := VString "hi" ]}) demoState).
  vm_compute; reflexivity.
Defined.

Lemma initialize_idempotent_witness :
  MCPRequest.Method (MCPRequest.mk "2.0" (VFloat64 3) "initialize" (VString "junk"))
  = "initialize"
  ∧ (@handleRequest memOS
       (MCPRequest.mk "2.0" (VFloat64 3) "initialize" (VString "junk"))
       (@handleRequests memOS
          [MCPRequest.mk "2.0" (VFloat64 1) "initialize" VNil;
           callRequest (VFloat64 2) "echo" {[ "x" := VString "hi" ]}]
          demoState).2).1
    = resultResponse (VFloat64 3)
        (box_InitializeResult
           (InitializeResult.mk "2024-11-05"
              (ServerCapabilities.mk true true false)
              (ServerInfo.mk "claude-go" "0.1.0"))).
Proof.
  split; [reflexivity|].
  rewrite (@initialize_idempotent memOS
             [MCPRequest.mk "2.0" (VFloat64 1) "initialize" VNil;
              callRequest (VFloat64 2) "echo" {[ "x" := VString "hi" ]}]
             (MCPRequest.mk "2.0" (VFloat64 3) "initialize" (VString "junk"))
             demoState eq_refl).
  reflexivity.
Defined.

Lemma tools_call_unknown_tool_witness :
  MCPRequest.Method (callRequest (VFloat64 4) "nope" ∅) = "tools/call"
  ∧ Registry.tools (Server.tools (server demoState)) !! "nope" = None
  ∧ @handleRequest memOS (callRequest (VFloat64 4) "nope" ∅) demoState
    = (errorResponse (VFloat64 4) (-32602)
         "Tool execution failed: tool nope not found", demoState).
Proof.
  split; [reflexivity|]. split; [vm_compute; reflexivity|].
  destruct (@tools_call_unknown_tool memOS (callRequest (VFloat64 4) "nope" ∅)
              demoState eq_refl) as [_ Hresp]; [vm_compute; reflexivity|].
  exact Hresp.
Defined.

Lemma unknown_method_keeps_connection_witness :
  let j := JObj [("jsonrpc", JStr "2.0"); ("id", JNum 5); ("method", JStr "prompts/list")] in
  let req := MCPRequest.mk "2.0" (VFloat64 5) "prompts/list" VNil in
  let next := encodeRequest (MCPRequest.mk "2.0" (VFloat64 6) "initialize" VNil) in
  decodeRequest j = Some req
  ∧ recognized (MCPRequest.Method req) = false
  ∧ Encode (errorResponse (VFloat64 5) (-32601) "Method not found") [] None
    = Some [encodeResponse (errorResponse (VFloat64 5) (-32601) "Method not found")]
  ∧ @handleConnection_loop memOS [RxValue j; RxValue next] [] None demoState
    = @handleConnection_loop memOS [RxValue next]
        [encodeResponse (errorResponse (VFloat64 5) (-32601) "Method not found")]
        None demoState
  ∧ length (@handleConnection_loop memOS [RxValue j; RxValue next] [] None demoState).1.2
    = 2%nat.
Proof.
  intros j req next.
  assert (Hdec : decodeRequest j = Some req) by (vm_compute; reflexivity).
  assert (Hm : recognized (MCPRequest.Method req) = false) by (vm_compute; reflexivity).
  assert (Henc : Encode (errorResponse (MCPRequest.ID req) (-32601) "Method not found")
                   [] None
                 = Some [encodeResponse
                           (errorResponse (VFloat64 5) (-32601) "Method not found")])
    by reflexivity.
  split; [exact Hdec|]. split; [exact Hm|]. split; [exact Henc|].
  destruct (@unknown_method_keeps_connection memOS j req [RxValue next] [] _ None
              demoState Hdec Hm Henc) as (_ & _ & Hloop).
  split; [exact Hloop|]. vm_compute; reflexivity.
Defined.

Lemma resources_read_cases_witness :
  MCPRequest.Method (readRequest (VFloat64 8) "/notes.txt") = "resources/read"
  ∧ (@handleRequest memOS (readRequest (VFloat64 8) "/notes.txt") demoState).1
    = resultResponse (VFloat64 8)
        (VMap {[ "contents" :=
                   VSlice [VMap {[ "uri" := VString "/notes.txt";
                                   "mimeType" := VString "text/plain";
                                   "text" := VString "hello" ]}] ]}).
Proof.
  split; [reflexivity|].
  destruct (@resources_read_cases memOS (readRequest (VFloat64 8) "/notes.txt")
              demoState eq_refl) as (_ & _ & Hread & _).
  destruct (Hread (Resource.mk "/notes.txt" "notes" "Plain text notes" "text/plain" ∅))
    as [Hok _]; [vm_compute; reflexivity | left; reflexivity |].
  apply (Hok "hello"). vm_compute; reflexivity.
Defined.

(** Which mime types are read: application/octet-stream is, text/html and
    application/json (the type the agent registers for JSON files) are
    not. *)
Example readable_mime_types :
  readableMime "text/plain" = true
  ∧ readableMime "application/octet-stream" = true
  ∧ readableMime "text/html" = false
  ∧ readableMime "application/json" = false
  ∧ (@handleRequest memOS (readRequest (VFloat64 8) "/data.json") demoState).1
    = errorResponse (VFloat64 8) (-32602) "Unsupported resource type".
Proof. repeat split; vm_compute; reflexivity. Qed.

(** Claim C3, as stated, fails: "/gone.txt" is registered with mime type
    text/plain, the file does not exist, and the response is an error, not
    a result with contents. *)
Lemma resources_read_text_plain_unreadable :
  Server.resources (server demoState) !! "/gone.txt"
  = Some (Resource.mk "/gone.txt" "gone" "A file that was removed" "text/plain" ∅)
  ∧ (@handleRequest memOS (readRequest (VFloat64 9) "/gone.txt") demoState).1
    = errorResponse (VFloat64 9) (-32602)
        "Failed to read resource: open /gone.txt: no such file or directory"
  ∧ ¬ ∃ text,
        (@handleRequest memOS (readRequest (VFloat64 9) "/gone.txt") demoState).1
        = resultResponse (VFloat64 9)
            (VMap {[ "contents" :=
                       VSlice [VMap {[ "uri" := VString "/gone.txt";
                                       "mimeType" := VString "text/plain";
                                       "text" := VString text ]}] ]}).
Proof.
  split; [vm_compute; reflexivity|].
  assert (Hresp : (@handleRequest memOS (readRequest (VFloat64 9) "/gone.txt") demoState).1
                  = errorResponse (VFloat64 9) (-32602)
                      "Failed to read resource: open /gone.txt: no such file or directory")
    by (vm_compute; reflexivity).
  split; [exact Hresp|].
  intros [text Heq]. rewrite Hresp in Heq. discriminate.
Qed.

Lemma absent_params_invalid_params_witness :
  let call := MCPRequest.mk "2.0" (VFloat64 10) "tools/call" VNil in
  let read := MCPRequest.mk "2.0" (VFloat64 11) "resources/read" (VString "/notes.txt") in
  (@callPanics memOS call programState = false
   ∧ @handleRequest memOS call programState
     = (errorResponse (VFloat64 10) (-32602) "Tool execution failed: tool  not found",
        programState))
  ∧ ∃ message,
      @handleRequest memOS read programState
      = (errorResponse (VFloat64 11) (-32602) message, programState).
Proof.
  intros call read.
  assert (Hkeyed : @resourcesKeyed memOS (@server memOS programState)).
  { apply (@resourcesKeyed_register memOS). apply (@resourcesKeyed_new memOS). }
  split.
  - destruct (@absent_params_invalid_params memOS memShell call programState
                eq_refl Hkeyed eq_refl) as [Hcall _].
    destruct (Hcall eq_refl) as (_ & Hsafe & Hresp). split; [exact Hsafe|exact Hresp].
  - destruct (@absent_params_invalid_params memOS memShell read programState
                eq_refl Hkeyed eq_refl) as [_ Hread].
    destruct (Hread eq_refl) as (_ & _ & Hresp). exact Hresp.
Defined.

(** ** The client correlator *)

Lemma wrap64_small (z : Z) : - 2 ^ 63 ≤ z < 2 ^ 63 → wrap64 z = z.
Proof.
  intros Hz. unfold wrap64.
  rewrite Z.mod_small by lia. lia.
Qed.

Lemma callKey_inj (i j : nat) : callKey i = callKey j → i = j.
Proof. unfold callKey. intros [= Heq]. lia. Qed.

Lemma to_key_callKey (v : Value) (i : nat) :
  v = VInt64 (Z.of_nat i + 1) → to_key v = Some (callKey i).
Proof. intros ->. reflexivity. Qed.

(** A response whose id is hashable and not in the table is dropped. *)
Lemma dispatchResponse_absent (resp : MCPResponse.t) (c : Client.t)
    (chans : Chans) (k : Key) :
  to_key (MCPResponse.ID resp) = Some k →
  Client.responses c !! k = None →
  dispatchResponse resp c chans = Discarded.
Proof. unfold dispatchResponse. intros -> ->. reflexivity. Qed.

Lemma dispatchResponse_unhashable (resp : MCPResponse.t) (c : Client.t)
    (chans : Chans) :
  to_key (MCPResponse.ID resp) = None →
  dispatchResponse resp c chans = Panicked.
Proof. unfold dispatchResponse. intros ->. reflexivity. Qed.

(** A response is put only into the slot stored under its own id. *)
Lemma dispatchResponse_delivered (resp : MCPResponse.t) (c : Client.t)
    (chans chans' : Chans) (respChan : nat) :
  dispatchResponse resp c chans = Delivered respChan chans' →
  ∃ k, to_key (MCPResponse.ID resp) = Some k
       ∧ Client.responses c !! k = Some respChan
       ∧ chans' = <[respChan := default [] (chans !! respChan) ++ [resp]]> chans
       ∧ (length (default [] (chans !! respChan)) < slotCapacity)%nat.
Proof.
  unfold dispatchResponse.
  destruct (to_key (MCPResponse.ID resp)) as [k|]; [|discriminate].
  destruct (Client.responses c !! k) as [ch|] eqn:Hlook; [|discriminate].
  destruct (length (default [] (chans !! ch)) <? slotCapacity)%nat eqn:Hlen;
    [|discriminate].
  intros [= <- <-]. exists k. split; [reflexivity|]. split; [exact Hlook|].
  split; [reflexivity|]. apply Nat.ltb_lt. exact Hlen.
Qed.

(** The non-blocking send drops a response that finds its slot full. *)
Lemma dispatchResponse_full_slot (resp held : MCPResponse.t) (c : Client.t)
    (chans : Chans) (k : Key) (respChan : nat) :
  to_key (MCPResponse.ID resp) = Some k →
  Client.responses c !! k = Some respChan →
  chans !! respChan = Some [held] →
  dispatchResponse resp c chans = Discarded.
Proof. unfold dispatchResponse. intros -> -> ->. reflexivity. Qed.

(** No slot ever holds more than its capacity. *)
Lemma dispatchResponse_capacity (resp : MCPResponse.t) (c : Client.t)
    (chans chans' : Chans) (respChan : nat) :
  (∀ ch buf, chans !! ch = Some buf → (length buf ≤ slotCapacity)%nat) →
  dispatchResponse resp c chans = Delivered respChan chans' →
  ∀ ch buf, chans' !! ch = Some buf → (length buf ≤ slotCapacity)%nat.
Proof.
  intros Hcap Hd ch buf Hbuf.
  apply dispatchResponse_delivered in Hd as (k & _ & _ & -> & Hlen).
  apply lookup_insert_Some in Hbuf as [[_ <-]|[_ Hbuf]]; [|eauto].
  rewrite length_app. simpl. unfold slotCapacity in *. lia.
Qed.

(** A slot stored under a float64 key does receive the response that
    carries that number as its id. *)
Example float64_key_is_matched :
  let resp := MCPResponse.mk "2.0" (VFloat64 1) (VString "ok") None in
  decodeResponse (JObj [("jsonrpc", JStr "2.0"); ("id", JNum 1); ("result", JStr "ok")])
  = Some resp
  ∧ dispatchResponse resp (Client.mk 1 {[ KFloat64 1 := 0%nat ]} ServerInfo.zero)
      {[ 0%nat := [] ]}
    = Delivered 0 {[ 0%nat := [resp] ]}
  ∧ dispatchResponse resp (Client.mk 1 {[ KInt64 1 := 0%nat ]} ServerInfo.zero)
      {[ 0%nat := [] ]}
    = Discarded.
Proof. repeat split; vm_compute; reflexivity. Qed.

(** With a table keyed by int64 only, nothing decoded is ever delivered. *)
Lemma dispatchResponse_int64_table (resp : MCPResponse.t) (c : Client.t)
    (chans chans' : Chans) (respChan : nat) :
  (∀ k ch, Client.responses c !! k = Some ch → ∃ i, k = callKey i) →
  (∀ n, MCPResponse.ID resp ≠ VInt64 n) →
  dispatchResponse resp c chans ≠ Delivered respChan chans'.
Proof.
  intros Htbl Hid Hd.
  apply dispatchResponse_delivered in Hd as (k & Hk & Hlook & _).
  destruct (Htbl _ _ Hlook) as [i ->].
  destruct (MCPResponse.ID resp); simpl in Hk; try discriminate.
  eapply Hid. reflexivity.
Qed.

Lemma setCall_lookup_eq (i : nat) (pc : PC) (cs : list Call) (cl : Call) :
  cs !! i = Some cl → setCall i pc cs !! i = Some (mkCall (call_req cl) pc).
Proof. intros Hl. unfold setCall. rewrite list_lookup_alter_eq, Hl. reflexivity. Qed.

Lemma setCall_lookup_ne (i j : nat) (pc : PC) (cs : list Call) :
  i ≠ j → setCall i pc cs !! j = cs !! j.
Proof. intros Hne. unfold setCall. apply list_lookup_alter_ne. exact Hne. Qed.

Lemma setCall_length (i : nat) (pc : PC) (cs : list Call) :
  length (setCall i pc cs) = length cs.
Proof. unfold setCall. apply length_alter. Qed.

(** Calls other than the one that moves keep what holds of them, when the
    table changes at most under the key of the mover and the new event is
    not theirs. *)
Lemma callInv_frame (tbl tbl' : gmap Key nat) (tr : list Event) (e : Event)
    (j : nat) (cl : Call) :
  tbl' !! callKey j = tbl !! callKey j →
  isInsert j e = false → isWrite j e = false → isDelete j e = false →
  callInv tbl tr j cl → callInv tbl' (e :: tr) j cl.
Proof.
  intros Htbl Hi Hw Hd [Hid Hpc]. split; [exact Hid|].
  destruct (call_pc cl); simpl; rewrite Htbl, ?Hi, ?Hw, ?Hd; simpl;
    intuition (try apply list_elem_of_further; auto).
Qed.

Lemma order_step (tr : list Event) (e : Event) :
  (∀ i, e = EvWrite i → ∃ ch, EvInsert i (callKey i) ch ∈ tr) →
  (∀ i newer older, tr = newer ++ EvWrite i :: older →
     ∃ ch, EvInsert i (callKey i) ch ∈ older) →
  ∀ i newer older, e :: tr = newer ++ EvWrite i :: older →
    ∃ ch, EvInsert i (callKey i) ch ∈ older.
Proof.
  intros Hhead Htail i newer older Heq.
  destruct newer as [|e' newer]; simpl in Heq.
  - injection Heq as -> ->. apply Hhead. reflexivity.
  - injection Heq as -> ->. eapply Htail. reflexivity.
Qed.

(** Call [i] takes a step that records the event [e]. *)
Lemma Inv_move (cfg : Config) (i : nat) (cl : Call) (pc' : PC) (c' : Client.t)
    (chans' : Chans) (sent' : list JSON) (rd cr : bool) (e : Event) :
  Inv cfg → calls cfg !! i = Some cl →
  Client.requestID c' = Client.requestID (client cfg) →
  (∀ k, k ≠ callKey i →
     Client.responses c' !! k = Client.responses (client cfg) !! k) →
  (∀ j, j ≠ i → isInsert j e = false ∧ isWrite j e = false ∧ isDelete j e = false) →
  (∀ ch, isDeliver ch e = false) →
  callInv (Client.responses c') (e :: trace cfg) i (mkCall (call_req cl) pc') →
  (e = EvWrite i → ∃ ch, EvInsert i (callKey i) ch ∈ trace cfg) →
  (∀ ch buf, chans' !! ch = Some buf → buf = []) →
  Inv (mkConfig c' chans' sent' (setCall i pc' (calls cfg)) rd cr (e :: trace cfg)).
Proof.
  intros [Hcnt Hcalls Htbl Hfresh Hord Hslots Hdel] Hi Hrid Hother He Hnd Hnew Hw Hch.
  assert (Hlt : (i < length (calls cfg))%nat) by (eapply lookup_lt_Some; eassumption).
  constructor; simpl.
  - rewrite setCall_length. congruence.
  - intros j clj Hj. destruct (decide (i = j)) as [<-|Hne].
    + rewrite (setCall_lookup_eq _ _ _ _ Hi) in Hj. injection Hj as <-. exact Hnew.
    + rewrite setCall_lookup_ne in Hj by exact Hne.
      destruct (He j (not_eq_sym Hne)) as (? & ? & ?).
      eapply callInv_frame; [|assumption|assumption|assumption|apply Hcalls; exact Hj].
      apply Hother. intros Heq. apply callKey_inj in Heq. congruence.
  - intros k ch Hk. rewrite setCall_length.
    destruct (decide (k = callKey i)) as [->|Hne]; [eauto|].
    rewrite Hother in Hk by exact Hne. eauto.
  - intros j Hj. rewrite setCall_length in Hj.
    destruct (He j) as (-> & -> & ->); [lia|]. simpl. apply Hfresh. exact Hj.
  - apply order_step; [|exact Hord].
    intros j ->. destruct (decide (j = i)) as [->|Hne]; [auto|].
    destruct (He j Hne) as (_ & Hwj & _). simpl in Hwj.
    rewrite bool_decide_eq_true_2 in Hwj by reflexivity. discriminate.
  - exact Hch.
  - intros ch. rewrite Hnd. simpl. apply Hdel.
Qed.

(** Call [i] takes a step that leaves the table and the history alone. *)
Lemma Inv_move_silent (cfg : Config) (i : nat) (cl : Call) (pc' : PC)
    (sent' : list JSON) (rd cr : bool) :
  Inv cfg → calls cfg !! i = Some cl →
  callInv (Client.responses (client cfg)) (trace cfg) i (mkCall (call_req cl) pc') →
  Inv (mkConfig (client cfg) (chans cfg) sent' (setCall i pc' (calls cfg)) rd cr
         (trace cfg)).
Proof.
  intros [Hcnt Hcalls Htbl Hfresh Hord Hslots Hdel] Hi Hnew.
  constructor; simpl; try assumption.
  - rewrite setCall_length. congruence.
  - intros j clj Hj. destruct (decide (i = j)) as [<-|Hne].
    + rewrite (setCall_lookup_eq _ _ _ _ Hi) in Hj. injection Hj as <-. exact Hnew.
    + rewrite setCall_lookup_ne in Hj by exact Hne. auto.
  - intros k ch Hk. rewrite setCall_length. eauto.
  - intros j Hj. rewrite setCall_length in Hj. auto.
Qed.

(** The reader, or anything else, records an event that belongs to no
    call. *)
Lemma Inv_note (cfg : Config) (rd cr : bool) (e : Event) :
  Inv cfg →
  (∀ j, isInsert j e = false ∧ isWrite j e = false ∧ isDelete j e = false) →
  (∀ ch, isDeliver ch e = false) →
  Inv (mkConfig (client cfg) (chans cfg) (sent cfg) (calls cfg) rd cr
         (e :: trace cfg)).
Proof.
  intros [Hcnt Hcalls Htbl Hfresh Hord Hslots Hdel] He Hnd.
  constructor; simpl; try assumption.
  - intros j clj Hj. destruct (He j) as (? & ? & ?).
    eapply callInv_frame; [reflexivity|assumption|assumption|assumption|].
    apply Hcalls. exact Hj.
  - intros j Hj. destruct (He j) as (-> & -> & ->). simpl. auto.
  - apply order_step; [|exact Hord].
    intros j ->. destruct (He j) as (_ & Hwj & _). simpl in Hwj.
    rewrite bool_decide_eq_true_2 in Hwj by reflexivity. discriminate.
  - intros ch. rewrite Hnd. simpl. apply Hdel.
Qed.

Lemma Inv_flags (cfg : Config) (rd cr : bool) :
  Inv cfg →
  Inv (mkConfig (client cfg) (chans cfg) (sent cfg) (calls cfg) rd cr (trace cfg)).
Proof. intros [? ? ? ? ? ? ?]. constructor; simpl; assumption. Qed.

Lemma Inv_init : Inv initConfig.
Proof.
  constructor; simpl; try done.
  intros i newer older Heq. destruct newer; discriminate.
Qed.

Lemma exec_calls_length (a : Action) (cfg cfg' : Config) :
  exec a cfg = Some cfg' → (length (calls cfg) ≤ length (calls cfg'))%nat.
Proof.
  unfold exec. destruct (crashed cfg); [discriminate|].
  destruct a as [method params|i|i|i|x].
  - simpl. intros [= <-]. simpl. rewrite length_app. lia.
  - unfold sendRequest_step. destruct (calls cfg !! i) as [cl|]; [|discriminate]. simpl.
    destruct (call_pc cl); simpl.
    + destruct (register _ _ _) as [[[[k ch] c'] chans']|]; intros [= <-]; simpl;
        rewrite ?setCall_length; lia.
    + intros [= <-]; simpl. rewrite setCall_length. lia.
    + destruct (receive _ _) as [[resp chans']|]; [|discriminate].
      simpl. intros [= <-]; simpl. rewrite setCall_length. lia.
    + destruct (to_key _); [|discriminate]. simpl.
      intros [= <-]; simpl. rewrite setCall_length. lia.
    + discriminate.
  - destruct (calls cfg !! i) as [cl|]; [|discriminate]. simpl.
    destruct (call_pc cl); try discriminate.
    intros [= <-]; simpl. rewrite setCall_length. lia.
  - destruct (calls cfg !! i) as [cl|]; [|discriminate]. simpl.
    destruct (call_pc cl); try discriminate.
    intros [= <-]; simpl. rewrite setCall_length. lia.
  - destruct (readerDone cfg); [discriminate|].
    destruct (readResponses_turn _ _ _) as [[resp [ch chans'| |]]|];
      intros [= <-]; simpl; lia.
Qed.

Lemma run_calls_length (sched : list Action) (cfg cfg' : Config) :
  run sched cfg = Some cfg' → (length (calls cfg) ≤ length (calls cfg'))%nat.
Proof.
  revert cfg. induction sched as [|a sched IH]; intros cfg; simpl.
  - intros [= <-]. lia.
  - destruct (exec a cfg) as [cfg1|] eqn:Hex; [|discriminate].
    intros Hrun. apply exec_calls_length in Hex. apply IH in Hrun. lia.
Qed.

Lemma Inv_exec (a : Action) (cfg cfg' : Config) :
  exec a cfg = Some cfg' → counterInRange cfg' → Inv cfg → Inv cfg'.
Proof.
  unfold exec. destruct (crashed cfg); [discriminate|].
  destruct a as [method params|i|i|i|x].
  - (* Issue *)
    unfold newRequest, nextRequestID. simpl. intros [= <-] Hrange HI.
    destruct HI as [Hcnt Hcalls Htbl Hfresh Hord Hslots Hdel].
    unfold counterInRange in Hrange. simpl in Hrange.
    rewrite length_app in Hrange. simpl in Hrange.
    assert (Hw : wrap64 (Client.requestID (client cfg) + 1)
                 = Z.of_nat (length (calls cfg)) + 1).
    { rewrite Hcnt. apply wrap64_small. lia. }
    constructor; simpl; try assumption.
    + rewrite Hw, length_app. simpl. lia.
    + intros j clj Hj. apply lookup_app_Some in Hj as [Hj|[Hge Hj]]; [auto|].
      destruct (j - length (calls cfg))%nat as [|m] eqn:Hm; simpl in Hj; [|discriminate].
      injection Hj as <-. assert (j = length (calls cfg)) as -> by lia.
      split; simpl; [rewrite Hw; reflexivity|].
      destruct (Hfresh (length (calls cfg))) as (Hi0 & Hw0 & Hd0); [lia|].
      split; [|auto].
      destruct (Client.responses (client cfg) !! callKey (length (calls cfg)))
        as [ch|] eqn:Hlook; [|reflexivity].
      destruct (Htbl _ _ Hlook) as (i & Hlt & Heq).
      apply callKey_inj in Heq. lia.
    + intros k ch Hk. destruct (Htbl _ _ Hk) as (i & Hlt & ->).
      exists i. rewrite length_app. simpl. split; [lia|reflexivity].
    + intros j Hj. rewrite length_app in Hj. simpl in Hj. apply Hfresh. lia.
  - (* Advance *)
    unfold sendRequest_step. destruct (calls cfg !! i) as [cl|] eqn:Hi; [|discriminate]. simpl.
    intros Hex Hrange HI.
    pose proof (inv_calls _ HI _ _ Hi) as [Hid Hpc].
    pose proof (to_key_callKey _ _ Hid) as Hkey.
    destruct (call_pc cl) as [|ch|ch|ch o|o] eqn:Hpceq.
    + (* insert *)
      unfold register in Hex. rewrite Hkey in Hex. injection Hex as <-.
      destruct Hpc as (Hnone & Hi0 & Hw0 & Hd0).
      apply Inv_move with (cl := cl); try assumption; simpl.
      * reflexivity.
      * intros k Hk. apply lookup_insert_ne. congruence.
      * intros j Hj. rewrite bool_decide_eq_false_2 by congruence. done.
      * done.
      * split; [exact Hid|]. simpl. rewrite lookup_insert_eq.
        rewrite Hw0, Hd0. split; [reflexivity|]. split; [apply list_elem_of_here|done].
      * discriminate.
      * intros ch buf Hl. apply lookup_insert_Some in Hl as [[_ <-]|[_ Hl]];
          [reflexivity|]. eapply inv_slots; eassumption.
    + (* write *)
      injection Hex as <-.
      destruct Hpc as (Hsome & Hin & Hw0 & Hd0).
      apply Inv_move with (cl := cl); try assumption; simpl.
      * reflexivity.
      * reflexivity.
      * intros j Hj. rewrite bool_decide_eq_false_2 by congruence. done.
      * done.
      * split; [exact Hid|]. simpl. rewrite Hd0. done.
      * intros _. eauto.
      * apply HI.
    + (* receive: the slot is empty *)
      unfold receive in Hex.
      destruct (chans cfg !! ch) as [[|resp rest]|] eqn:Hch; try discriminate.
      apply (inv_slots _ HI) in Hch. discriminate.
    + (* deferred delete *)
      rewrite Hkey in Hex. simpl in Hex. injection Hex as <-.
      destruct Hpc as (Hsome & Hd0 & Hresp).
      apply Inv_move with (cl := cl); try assumption; simpl.
      * reflexivity.
      * intros k Hk. apply lookup_delete_ne. congruence.
      * intros j Hj. rewrite bool_decide_eq_false_2 by congruence. done.
      * done.
      * split; [exact Hid|]. simpl. rewrite lookup_delete_eq.
        rewrite bool_decide_eq_true_2 by reflexivity. rewrite Hd0. done.
      * discriminate.
      * apply HI.
    + discriminate.
  - (* FailWrite *)
    destruct (calls cfg !! i) as [cl|] eqn:Hi; [|discriminate]. simpl.
    intros Hex Hrange HI.
    pose proof (inv_calls _ HI _ _ Hi) as [Hid Hpc].
    destruct (call_pc cl) as [|ch|ch|ch o|o] eqn:Hpceq; try discriminate.
    injection Hex as <-. destruct Hpc as (Hsome & Hin & Hw0 & Hd0).
    apply Inv_move_silent with (cl := cl); try assumption.
    split; [exact Hid|]. simpl. done.
  - (* Expire *)
    destruct (calls cfg !! i) as [cl|] eqn:Hi; [|discriminate]. simpl.
    intros Hex Hrange HI.
    pose proof (inv_calls _ HI _ _ Hi) as [Hid Hpc].
    destruct (call_pc cl) as [|ch|ch|ch o|o] eqn:Hpceq; try discriminate.
    injection Hex as <-. destruct Hpc as (Hsome & Hd0).
    apply Inv_move_silent with (cl := cl); try assumption.
    split; [exact Hid|]. simpl. done.
  - (* Read *)
    destruct (readerDone cfg); [discriminate|].
    intros Hex Hrange HI. unfold readResponses_turn in Hex.
    destruct x as [j|]; [|injection Hex as <-; apply Inv_flags; exact HI].
    destruct (decodeResponse j) as [resp|] eqn:Hdec;
      [|injection Hex as <-; apply Inv_flags; exact HI].
    destruct (dispatchResponse resp (client cfg) (chans cfg))
      as [ch chans'| |] eqn:Hdisp.
    + exfalso. eapply dispatchResponse_int64_table; [| |exact Hdisp].
      * intros k c Hk. destruct (inv_table _ HI _ _ Hk) as (m & _ & ->). eauto.
      * intros n. eapply decodeResponse_id_not_int64. exact Hdec.
    + injection Hex as <-. apply Inv_note; [exact HI| |]; done.
    + injection Hex as <-. apply Inv_flags; exact HI.
Qed.

Lemma Inv_run (sched : list Action) (cfg cfg' : Config) :
  run sched cfg = Some cfg' → counterInRange cfg' → Inv cfg → Inv cfg'.
Proof.
  revert cfg. induction sched as [|a sched IH]; intros cfg; simpl.
  - intros [= <-] _ HI. exact HI.
  - destruct (exec a cfg) as [cfg1|] eqn:Hex; [|discriminate].
    intros Hrun Hrange HI. apply (IH cfg1 Hrun Hrange).
    apply (Inv_exec _ _ _ Hex); [|exact HI].
    apply run_calls_length in Hrun. unfold counterInRange in *. lia.
Qed.

Lemma Inv_reachable (cfg : Config) :
  reachable cfg → counterInRange cfg → Inv cfg.
Proof. intros [sched Hrun] Hrange. exact (Inv_run _ _ _ Hrun Hrange Inv_init). Qed.







Lemma no_call_gets_a_response (cfg : Config) (i : nat) (cl : Call) :
  reachable cfg → counterInRange cfg → calls cfg !! i = Some cl →
  ∀ resp ch, call_pc cl ≠ AtDefer ch (GotResponse resp)
             ∧ call_pc cl ≠ Finished (GotResponse resp).
Proof.
  intros Hreach Hrange Hi resp ch.
  pose proof (inv_calls _ (Inv_reachable _ Hreach Hrange) _ _ Hi) as [_ Hpc].
  split; intros Heq; rewrite Heq in Hpc; simpl in Hpc;
    destruct Hpc as (_ & _ & ?); discriminate.
Qed.



(** Claim C1, on the code.  Two calls are issued on one client (ids int64
    1 and 2), both slots are registered and both requests written; the
    server answers the second request first.  The decoded responses carry
    the ids float64 2 and float64 1, which are not keys of the table: both
    are dropped, both slots stay empty, neither caller can receive, and
    both calls end with a timeout. *)
Theorem concurrent_calls_responses_unmatched :
  run twoCalls initConfig = Some twoCallsSent
  ∧ (MCPRequest.ID ∘ call_req) <$> calls twoCallsSent = [VInt64 1; VInt64 2]
  ∧ Client.responses (client twoCallsSent)
    = {[ KInt64 1 := 0%nat; KInt64 2 := 1%nat ]}
  ∧ (fmap MCPResponse.ID ∘ decodeResponse) <$> answersOutOfOrder
    = [Some (VFloat64 2); Some (VFloat64 1)]
  ∧ Client.responses (client twoCallsSent) !! KFloat64 1 = None
  ∧ Client.responses (client twoCallsSent) !! KFloat64 2 = None
  ∧ ∃ cfg,
      run (Read ∘ RxValue <$> answersOutOfOrder) twoCallsSent = Some cfg
      ∧ chans cfg = {[ 0%nat := []; 1%nat := [] ]}
      ∧ count (isDeliver 0) (trace cfg) = 0%nat
      ∧ count (isDeliver 1) (trace cfg) = 0%nat
      ∧ exec (Advance 0) cfg = None
      ∧ exec (Advance 1) cfg = None
      ∧ (fmap call_pc ∘ calls) <$> run [Expire 0; Advance 0; Expire 1; Advance 1] cfg
        = Some [Finished RequestTimeout; Finished RequestTimeout].
Proof.
  repeat (split; [vm_compute; reflexivity|]).
  eexists. split; [vm_compute; reflexivity|].
  repeat split; vm_compute; reflexivity.
Qed.

(** Claim C8, on the code.  A response whose id is a JSON array decodes to
    a slice; hashing it for the table lookup panics, whatever the table
    holds, and the process stops. *)
Theorem response_with_array_id_panics :
  decodeResponse arrayIdResponse
  = Some (MCPResponse.mk "2.0" (VSlice [VFloat64 1]) (VString "late") None)
  ∧ (∀ k, to_key (VSlice [VFloat64 1]) ≠ Some k)
  ∧ (∀ c chans,
       readResponses_turn (RxValue arrayIdResponse) c chans
       = Some (MCPResponse.mk "2.0" (VSlice [VFloat64 1]) (VString "late") None,
               Panicked))
  ∧ ∃ cfg, exec (Read (RxValue arrayIdResponse)) initConfig = Some cfg
           ∧ crashed cfg = true
           ∧ ∀ a, exec a cfg = None.
Proof.
  split; [vm_compute; reflexivity|].
  split; [intros k; discriminate|].
  split; [intros c chans; reflexivity|].
  eexists. split; [vm_compute; reflexivity|].
  split; [reflexivity|]. intros a. reflexivity.
Qed.

(** A response whose id can be hashed and is not in the table changes
    nothing but the history. *)
Lemma unknown_id_discarded (cfg : Config) (j : JSON) (resp : MCPResponse.t)
    (k : Key) :
  crashed cfg = false → readerDone cfg = false →
  decodeResponse j = Some resp →
  to_key (MCPResponse.ID resp) = Some k →
  Client.responses (client cfg) !! k = None →
  exec (Read (RxValue j)) cfg
  = Some (mkConfig (client cfg) (chans cfg) (sent cfg) (calls cfg) false false
            (EvDiscard resp :: trace cfg)).
Proof.
  intros Hc Hr Hdec Hk Hnone. unfold exec. rewrite Hc, Hr. simpl.
  rewrite Hdec. rewrite (dispatchResponse_absent _ _ _ _ Hk Hnone). reflexivity.
Qed.

(** * Further properties of the code *)

(** ** The codec, on what the decoder produces

    The decoder returns float64 numbers, valid UTF-8 strings, slices and
    maps.  These are the values that the encoder writes back as they
    were read: the server does so with the params of a request
    (server.go, 199, 256, 312), the client with the result of a response
    (client.go, 92, 118, 150). *)

(** Property X1.  A request that was decoded from a JSON text of valid
    UTF-8 strings is written back and decoded again unchanged: encoding
    followed by decoding is the identity on every request the decoder
    produces. *)
Theorem request_survives_wire (j : JSON) (r : MCPRequest.t) :
  textJSON j = true →
  decodeRequest j = Some r →
  decodeRequest (encodeRequest r) = Some r.
Proof.
  intros _ Hd. apply decodeRequest_wireStable in Hd as [Hid Hp].
  apply decodeRequest_encodeRequest; assumption.
Qed.

Lemma request_survives_wire_witness :
  let j := JObj [("jsonrpc", JStr "2.0"); ("id", JNum 7); ("method", JStr "tools/call");
                 ("params", JObj [("name", JStr "echo");
                                  ("arguments", JObj [("x", JStr "hi")])])] in
  let r := callRequest (VFloat64 7) "echo" {[ "x" := VString "hi" ]} in
  decodeRequest j = Some r ∧ decodeRequest (encodeRequest r) = Some r.
Proof.
  intros j r.
  assert (Hd : decodeRequest j = Some r) by reflexivity.
  split; [exact Hd|].
  apply (request_survives_wire j r); [reflexivity|exact Hd].
Defined.

(** Property X2.  A response that was decoded from a JSON text of valid
    UTF-8 strings is written back and decoded again unchanged, a result
    staying that result and an error that error: encoding followed by
    decoding is the identity on every response the decoder produces. *)
Theorem response_survives_wire (j : JSON) (r : MCPResponse.t) :
  textJSON j = true →
  decodeResponse j = Some r →
  decodeResponse (encodeResponse r) = Some r.
Proof.
  intros _ Hd. apply decodeResponse_wireStable in Hd as (Hid & Hres & Herr).
  apply decodeResponse_encodeResponse; assumption.
Qed.

Lemma response_survives_wire_witness :
  let j := JObj [("jsonrpc", JStr "2.0"); ("id", JNum 3);
                 ("error", JObj [("code", JNum (-32601));
                                 ("message", JStr "Method not found")])] in
  let r := errorResponse (VFloat64 3) (-32601) "Method not found" in
  decodeResponse j = Some r ∧ decodeResponse (encodeResponse r) = Some r.
Proof.
  intros j r.
  assert (Hd : decodeResponse j = Some r) by reflexivity.
  split; [exact Hd|].
  apply (response_survives_wire j r); [reflexivity|exact Hd].
Defined.

(** ** What the server puts on the wire *)

Lemma wireStable_empty : wireStable (VMap ∅).
Proof. constructor. intros k v Hl. rewrite lookup_empty in Hl. discriminate. Qed.

Lemma wireStable_insert (k : string) (v : Value) (m : gmap string Value) :
  wireStable v → wireStable (VMap m) → wireStable (VMap (<[k := v]> m)).
Proof.
  intros Hv Hm. inversion Hm as [| | | | |m' Hall]; subst.
  constructor. intros k' v' Hl.
  apply lookup_insert_Some in Hl as [[_ <-]|[_ Hl]]; eauto.
Qed.

Lemma wireStable_singleton (k : string) (v : Value) :
  wireStable v → wireStable (VMap {[ k := v ]}).
Proof.
  intros Hv. constructor. intros k' v' Hl.
  apply lookup_singleton_Some in Hl as [_ <-]. exact Hv.
Qed.

Lemma wireStable_slice_fmap {A} (f : A → Value) (l : list A) :
  (∀ x, x ∈ l → wireStable (f x)) → wireStable (VSlice (f <$> l)).
Proof.
  intros Hall. constructor. intros v Hv.
  apply list_elem_of_fmap in Hv as (x & -> & Hx). auto.
Qed.

Lemma wireStable_strings (m : gmap string string) : wireStable (VMap (VString <$> m)).
Proof.
  constructor. intros k v Hl. rewrite lookup_fmap in Hl.
  destruct (m !! k); simpl in Hl; [|discriminate]. injection Hl as <-. constructor.
Qed.

Create HintDb stable.

#[local] Hint Resolve wireStable_empty wireStable_insert wireStable_singleton
  wireStable_strings WS_nil WS_bool WS_string : stable.

Lemma wireStable_box_Resource (r : Resource.t) : wireStable (box_Resource r).
Proof.
  unfold box_Resource. destruct (decide (Resource.Metadata r = ∅));
    repeat (apply wireStable_insert || apply wireStable_singleton);
    auto with stable.
Qed.

Lemma wireStable_box_InitializeResult (r : InitializeResult.t) :
  wireStable (box_InitializeResult r).
Proof.
  unfold box_InitializeResult, box_ServerCapabilities, box_ServerInfo.
  repeat (apply wireStable_insert || apply wireStable_singleton); auto with stable.
Qed.

Lemma wireStable_box_MCPTool (t : MCPTool.t) :
  wireStable (MCPTool.InputSchema t) → wireStable (box_MCPTool t).
Proof.
  intros Hs. unfold box_MCPTool.
  repeat (apply wireStable_insert || apply wireStable_singleton); auto with stable.
Qed.

Section MoreRouterFacts.
Context `{OS}.

Lemma handleRequest_stable (req : MCPRequest.t) (st : State) :
  schemasStable (Server.tools (server st)) →
  wireStable (MCPResponse.Result (handleRequest req st).1)
  ∧ ∀ e, MCPResponse.Error (handleRequest req st).1 = Some e → stableError e.
Proof.
  intros Hschemas.
  assert (Herr : ∀ id code msg, - 2 ^ 63 ≤ code < 2 ^ 63 →
            wireStable (MCPResponse.Result (errorResponse id code msg))
            ∧ ∀ e, MCPResponse.Error (errorResponse id code msg) = Some e → stableError e).
  { intros id code msg Hc. split; [constructor|].
    intros e [= <-]. split; [exact Hc|constructor]. }
  assert (Hres : ∀ id v, wireStable v →
            wireStable (MCPResponse.Result (resultResponse id v))
            ∧ ∀ e, MCPResponse.Error (resultResponse id v) = Some e → stableError e).
  { intros id v Hv. split; [exact Hv|]. intros e Habs. discriminate. }
  assert (Hitem : ∀ m, wireStable (VMap m) → wireStable (VSlice [VMap m])).
  { intros m Hm. constructor. intros v Hv.
    apply list_elem_of_singleton in Hv as ->. exact Hm. }
  unfold handleRequest. repeat case_bool_decide.
  - apply Hres. apply wireStable_box_InitializeResult.
  - apply Hres. apply wireStable_singleton. rewrite <- list_fmap_compose.
    apply wireStable_slice_fmap. intros tool Htool.
    apply wireStable_box_MCPTool. simpl.
    unfold Registry.GetAvailable in Htool.
    apply list_elem_of_fmap in Htool as ([n t] & -> & Hin). simpl.
    apply elem_of_map_to_list in Hin. eapply Hschemas. exact Hin.
  - rewrite handleCallTool_eq. cbn zeta.
    destruct (Registry.Execute _ _ _ _) as [[result [err|]] w]; cbn [fst snd].
    + apply Herr. lia.
    + apply Hres. apply wireStable_singleton. apply Hitem.
      repeat (apply wireStable_insert || apply wireStable_singleton); auto with stable.
  - apply Hres. apply wireStable_singleton. apply wireStable_slice_fmap.
    intros r _. apply wireStable_box_Resource.
  - rewrite handleReadResource_eq. cbn [fst snd].
    destruct (Server.resources (server st) !! _) as [resource|]; [|apply Herr; lia].
    destruct (readableMime _); [|apply Herr; lia].
    destruct (ReadFile _ _) as [content [err|]]; [apply Herr; lia|].
    apply Hres. apply wireStable_singleton. apply Hitem.
    repeat (apply wireStable_insert || apply wireStable_singleton); auto with stable.
  - apply Herr. lia.
Qed.

(** Property X3.  Whatever the server answers to a request that it
    decoded from the wire is decoded by the client with the same id, the
    same result tree (a struct being read as the object of its tagged
    fields) and the same error, whenever the strings of the response
    (file contents, tool output, names, messages) are valid UTF-8, and
    the tools describe their parameters with wire-stable values. *)
Theorem server_response_survives_wire (j : JSON) (req : MCPRequest.t) (st : State) :
  decodeRequest j = Some req →
  schemasStable (Server.tools (server st)) →
  textJSON (encodeResponse (handleRequest req st).1) = true →
  decodeResponse (encodeResponse (handleRequest req st).1)
  = Some (handleRequest req st).1.
Proof.
  intros Hdec Hschemas _.
  destruct (handleRequest_stable req st Hschemas) as [Hres Herr].
  apply decodeResponse_encodeResponse; [|exact Hres|exact Herr].
  rewrite handleRequest_ID. apply (decodeRequest_wireStable _ _ Hdec).
Qed.

End MoreRouterFacts.

(** ** The connection loop *)

Section ConnectionFacts.
Context `{OS}.

Lemma handleRequests_app (reqs1 reqs2 : list MCPRequest.t) (st : State) :
  handleRequests (reqs1 ++ reqs2) st
  = ((handleRequests reqs1 st).1 ++ (handleRequests reqs2 (handleRequests reqs1 st).2).1,
     (handleRequests reqs2 (handleRequests reqs1 st).2).2).
Proof.
  revert st. induction reqs1 as [|req reqs1 IH]; intros st; simpl.
  - destruct (handleRequests reqs2 st); reflexivity.
  - destruct (handleRequest req st) as [resp st1]. rewrite IH.
    destruct (handleRequests reqs1 st1) as [resps st2]. simpl.
    destruct (handleRequests reqs2 st2); reflexivity.
Qed.

Lemma handleConnection_loop_spec (incoming : list Rx) (out : list JSON)
    (wr : option nat) (st : State) :
  let reqs := requestsUntilError incoming in
  let k := match wr with
           | Some n => (n - length out)%nat
           | None => length reqs
           end in
  handleConnection_loop incoming out wr st
  = (drop (S (min k (length reqs))) incoming,
     out ++ (encodeResponse <$> (handleRequests (take k reqs) st).1),
     (handleRequests (take (S k) reqs) st).2).
Proof.
  revert out st. induction incoming as [|x rest IH]; intros out st; cbn zeta.
  - simpl. rewrite take_nil. simpl. rewrite app_nil_r.
    destruct wr; reflexivity.
  - destruct x as [j|]; cbn [handleConnection_loop requestsUntilError].
    2:{ rewrite !take_nil. simpl. rewrite Nat.min_0_r, app_nil_r. reflexivity. }
    destruct (decodeRequest j) as [req|].
    2:{ rewrite !take_nil. simpl. rewrite Nat.min_0_r, app_nil_r. reflexivity. }
    destruct (handleRequest req st) as [resp st1] eqn:Hreq.
    unfold Encode. destruct wr as [n|].
    + destruct (length out <? n)%nat eqn:Hlt.
      * apply Nat.ltb_lt in Hlt. rewrite IH. cbn zeta.
        rewrite length_app. simpl length.
        replace (n - length out)%nat with (S (n - (length out + 1)))%nat by lia.
        cbn [take handleRequests]. rewrite Hreq.
        destruct (handleRequests (take (n - (length out + 1)) (requestsUntilError rest)) st1)
          as [resps st2].
        destruct (handleRequests _ st1) as [resps' st3] eqn:Hrest.
        simpl. rewrite <- app_assoc. reflexivity.
      * apply Nat.ltb_ge in Hlt.
        replace (n - length out)%nat with 0%nat by lia.
        simpl. rewrite Hreq. simpl. rewrite app_nil_r. reflexivity.
    + rewrite IH. cbn zeta. cbn [length take].
      rewrite !Nat.min_id, !firstn_all.
      rewrite !(take_ge (requestsUntilError rest) (S _)) by lia.
      cbn [handleRequests drop]. rewrite Hreq.
      destruct (handleRequests (requestsUntilError rest) st1) as [resps st2].
      simpl. rewrite <- app_assoc. reflexivity.
Qed.




(** Property X6.  Only tools/call can change anything: handling a request of
    any other method, recognized or not, returns the state it started in. *)
Theorem only_tools_call_changes_state (req : MCPRequest.t) (st : State) :
  MCPRequest.Method req ≠ "tools/call" → (handleRequest req st).2 = st.
Proof.
  intros Hm. unfold handleRequest. repeat case_bool_decide;
    rewrite ?handleReadResource_eq; try reflexivity.
  contradiction.
Qed.

End ConnectionFacts.



Lemma only_tools_call_changes_state_witness :
  (@handleRequest memOS (readRequest (VFloat64 1) "/notes.txt") demoState).2 = demoState.
Proof. apply only_tools_call_changes_state. discriminate. Defined.

(** ** Typed params, decoded from well-formed objects *)

Lemma sorted_members_elem {A} (m : gmap string A) (k : string) (v : A) :
  (k, v) ∈ sorted_members m ↔ m !! k = Some v.
Proof.
  unfold sorted_members. rewrite merge_sort_Permutation. apply elem_of_map_to_list.
Qed.


Lemma encoded_member (m : gmap string Value) (tag k : string) (j : JSON) (v : Value) :
  noCaseVariant tag m → m !! tag = Some v →
  (k, j) ∈ sorted_members (encodeValue <$> m) → key_is tag k = true →
  k = tag ∧ j = encodeValue v.
Proof.
  intros Hvar Htag Hin Hkey. apply sorted_members_elem in Hin.
  rewrite lookup_fmap in Hin.
  destruct (m !! k) as [w|] eqn:Hk; [|discriminate]. simpl in Hin.
  pose proof (Hvar k w Hk Hkey) as ->. split; [reflexivity|]. congruence.
Qed.





Lemma unmarshalReadResourceParams_fields (L : list (string * JSON))
    (p : ReadResourceParams.t) (uri : string) :
  (∀ k j, (k, j) ∈ L → key_is "uri" k = true → j = JStr uri) →
  foldl unmarshalReadResourceParams_member p L
  = if existsb (λ kj, key_is "uri" kj.1) L then ReadResourceParams.mk uri else p.
Proof.
  revert p. induction L as [|[k j] L IH]; intros p Huri; [reflexivity|].
  cbn [foldl existsb fst]. rewrite IH by (intros k' j' Hin; apply Huri; right; exact Hin).
  unfold unmarshalReadResourceParams_member.
  destruct (key_is "uri" k) eqn:Hk.
  - rewrite (Huri k j (list_elem_of_here _ _) Hk). simpl.
    destruct (existsb _ L); reflexivity.
  - reflexivity.
Qed.

Lemma decodeReadResourceParams_wellformed (m : gmap string Value) (uri : string) :
  m !! "uri" = Some (VString uri) → noCaseVariant "uri" m →
  decodeReadResourceParams (VMap m) = ReadResourceParams.mk uri.
Proof.
  intros Hu Hvar. unfold decodeReadResourceParams, unmarshalReadResourceParams.
  cbn [encodeValue].
  rewrite (unmarshalReadResourceParams_fields _ _ uri).
  - assert (existsb (λ kj : string * JSON, key_is "uri" kj.1)
              (sorted_members (encodeValue <$> m)) = true) as ->; [|reflexivity].
    apply existsb_exists. exists ("uri", JStr uri). split; [|reflexivity].
    apply list_elem_of_In, sorted_members_elem. rewrite lookup_fmap, Hu. reflexivity.
  - intros k j Hin Hk.
    apply (encoded_member m "uri" k j _ Hvar Hu Hin Hk).
Qed.

Section ServerFacts.
Context `{OS}.


(** Property X8.  Once [RegisterResource] has stored a resource under [uri],
    a resources/read request whose params object holds that uri is answered
    from the file of that name as it is at the time of the request, when the
    mime type given at registration is text/plain or
    application/octet-stream, and with "Unsupported resource type"
    otherwise; the state is unchanged. *)
Theorem registered_resource_is_read (req : MCPRequest.t) (s : Server.t)
    (w : World) (m : gmap string Value)
    (uri name description mimeType : string) (metadata : gmap string string) :
  MCPRequest.Method req = "resources/read" →
  MCPRequest.Params req = VMap m →
  m !! "uri" = Some (VString uri) → noCaseVariant "uri" m →
  let st := mkState (RegisterResource uri name description mimeType metadata s) w in
  handleRequest req st
  = (if readableMime mimeType then
       match ReadFile uri w with
       | (_, Some err) =>
           errorResponse (MCPRequest.ID req) (-32602)
             ("Failed to read resource: " +:+ err)
       | (content, None) =>
           resultResponse (MCPRequest.ID req)
             (VMap {[ "contents" :=
                        VSlice [VMap {[ "uri" := VString uri;
                                        "mimeType" := VString mimeType;
                                        "text" := VString content ]}] ]})
       end
     else errorResponse (MCPRequest.ID req) (-32602) "Unsupported resource type",
     st).
Proof.
  intros Hm Hp Hu Hvar st.
  unfold handleRequest. rewrite Hm. simpl.
  rewrite handleReadResource_eq, Hp.
  rewrite (decodeReadResourceParams_wellformed m uri Hu Hvar).
  subst st. simpl. rewrite lookup_insert_eq. simpl. reflexivity.
Qed.

(** Property X9.  After [RegisterResource], resources/list lists the new
    resource once, with the fields given, together with the resources that
    were registered before under other uris: registering under a uri that is
    taken replaces the old resource. *)
Theorem resources_list_after_register (req : MCPRequest.t) (s : Server.t)
    (w : World) (uri name description mimeType : string)
    (metadata : gmap string string) :
  MCPRequest.Method req = "resources/list" →
  let st := mkState (RegisterResource uri name description mimeType metadata s) w in
  ∃ listed,
    handleRequest req st
    = (resultResponse (MCPRequest.ID req)
         (VMap {[ "resources" := VSlice (box_Resource <$> listed) ]}), st)
    ∧ listed ≡ₚ Resource.mk uri name description mimeType metadata
                :: (snd <$> map_to_list (delete uri (Server.resources s))).
Proof.
  intros Hm st. unfold handleRequest. rewrite Hm. simpl.
  eexists. split; [reflexivity|]. simpl.
  rewrite <- insert_delete_eq.
  rewrite map_to_list_insert by apply lookup_delete_eq. reflexivity.
Qed.

(** Property X10.  tools/list describes every registered tool once, and
    nothing else: in a registry filled by [Register], the names listed are
    pairwise distinct, and a name is listed exactly when tools/call finds a
    tool under it. *)
Theorem tools_list_lists_callable_tools (req : MCPRequest.t) (st : State) :
  MCPRequest.Method req = "tools/list" →
  registryKeyed (Server.tools (server st)) →
  ∃ listed,
    handleRequest req st
    = (resultResponse (MCPRequest.ID req)
         (VMap {[ "tools" := VSlice (box_MCPTool <$> listed) ]}), st)
    ∧ NoDup (MCPTool.Name <$> listed)
    ∧ (∀ name, name ∈ MCPTool.Name <$> listed
               ↔ is_Some (Registry.tools (Server.tools (server st)) !! name))
    ∧ ∀ t, t ∈ listed →
        ∃ tool, Registry.tools (Server.tools (server st)) !! MCPTool.Name t = Some tool
                ∧ MCPTool.Description t = Tool.Description tool
                ∧ MCPTool.InputSchema t = Tool.Parameters tool.
Proof.
  intros Hm Hkeyed.
  set (tbl := Registry.tools (Server.tools (server st))) in *.
  exists ((λ kv : string * Tool.t,
             MCPTool.mk (Tool.Name kv.2) (Tool.Description kv.2) (Tool.Parameters kv.2))
          <$> map_to_list tbl).
  split.
  { unfold handleRequest. rewrite Hm. simpl.
    unfold handleListTools, bind, getServer, ret, Registry.GetAvailable. fold tbl.
    rewrite <- !list_fmap_compose. reflexivity. }
  assert (Hnames : MCPTool.Name <$>
            ((λ kv : string * Tool.t,
                MCPTool.mk (Tool.Name kv.2) (Tool.Description kv.2)
                  (Tool.Parameters kv.2)) <$> map_to_list tbl)
          = (map_to_list tbl).*1).
  { rewrite <- list_fmap_compose. apply list_fmap_ext.
    intros i [k tool] Hi. simpl. apply (Hkeyed k tool).
    apply elem_of_map_to_list. eapply list_elem_of_lookup_2. exact Hi. }
  rewrite Hnames. split; [apply NoDup_fst_map_to_list|]. split.
  - intros name. rewrite list_elem_of_fmap. split.
    + intros ([k tool] & -> & Hin). apply elem_of_map_to_list in Hin. eauto.
    + intros [tool Hl]. exists (name, tool). split; [reflexivity|].
      apply elem_of_map_to_list. exact Hl.
  - intros t Ht. apply list_elem_of_fmap in Ht as ([k tool] & -> & Hin).
    apply elem_of_map_to_list in Hin. simpl. exists tool.
    rewrite (Hkeyed k tool Hin). auto.
Qed.

Lemma registryKeyed_empty : registryKeyed (Registry.mk ∅).
Proof. intros name t Hl. simpl in Hl. rewrite lookup_empty in Hl. discriminate. Qed.

Lemma registryKeyed_Register (tool : Tool.t) (r : Registry.t) :
  registryKeyed r → registryKeyed (Registry.Register tool r).
Proof.
  intros Hk name t Hl. simpl in Hl.
  apply lookup_insert_Some in Hl as [[<- <-]|[_ Hl]]; [reflexivity|].
  apply Hk. exact Hl.
Qed.

(** Property X11.  [Register] stores a tool under its name: [Execute] with
    that name runs the tool registered last, whatever was registered under
    the name before, and every other name is looked up as before. *)
Theorem Register_then_Execute (tool : Tool.t) (r : Registry.t)
    (args : gmap string Value) (w : World) :
  Registry.Execute (Registry.Register tool r) (Tool.Name tool) args w
  = Tool.Execute tool args w
  ∧ ∀ name, name ≠ Tool.Name tool →
      Registry.Execute (Registry.Register tool r) name args w
      = Registry.Execute r name args w.
Proof.
  unfold Registry.Execute, Registry.Register. simpl. split.
  - rewrite lookup_insert_eq. reflexivity.
  - intros name Hne. rewrite lookup_insert_ne by congruence. reflexivity.
Qed.

End ServerFacts.


Lemma noCaseVariant_decide {A} (tag : string) (m : gmap string A) :
  bool_decide (map_Forall (λ k _, key_is tag k = true → k = tag) m) = true →
  noCaseVariant tag m.
Proof. apply bool_decide_eq_true_1. Qed.


(** A member spelled with the long s is stored in the field [arguments],
    and one spelled with the Kelvin sign in a field tagged with a k. *)
Example key_is_folds_long_s_and_kelvin :
  key_is "arguments" ("ARGUMENT" +:+ long_s) = true
  ∧ key_is "tools" ("tool" +:+ long_s) = true
  ∧ key_is "kind" (kelvin_sign +:+ "ind") = true
  ∧ ¬ noCaseVariant "arguments"
        ({[ "arguments" := VNil; "argument" +:+ long_s := VNil ]} : gmap string Value).
Proof.
  repeat split; try reflexivity.
  intros Hno.
  specialize (Hno ("argument" +:+ long_s) VNil eq_refl eq_refl). discriminate Hno.
Qed.

Lemma registered_resource_is_read_witness :
  @handleRequest memOS (readRequest (VFloat64 2) "/notes.txt")
    (@mkState memOS
       (@RegisterResource memOS "/notes.txt" "notes" "Plain text notes" "text/plain" ∅
          echoServer)
       demoWorld)
  = (resultResponse (VFloat64 2)
       (VMap {[ "contents" :=
                  VSlice [VMap {[ "uri" := VString "/notes.txt";
                                  "mimeType" := VString "text/plain";
                                  "text" := VString "hello" ]}] ]}),
     @mkState memOS
       (@RegisterResource memOS "/notes.txt" "notes" "Plain text notes" "text/plain" ∅
          echoServer)
       demoWorld).
Proof.
  rewrite (@registered_resource_is_read memOS (readRequest (VFloat64 2) "/notes.txt")
             echoServer demoWorld {[ "uri" := VString "/notes.txt" ]}
             "/notes.txt" "notes" "Plain text notes" "text/plain" ∅).
  - reflexivity.
  - reflexivity.
  - reflexivity.
  - reflexivity.
  - apply noCaseVariant_decide. reflexivity.
Defined.

Lemma resources_list_after_register_witness :
  ∃ listed,
    @handleRequest memOS (MCPRequest.mk "2.0" (VFloat64 3) "resources/list" VNil)
      (@mkState memOS
         (@RegisterResource memOS "/notes.txt" "renamed" "" "text/plain" ∅ demoServer)
         demoWorld)
    = (resultResponse (VFloat64 3)
         (VMap {[ "resources" := VSlice (box_Resource <$> listed) ]}),
       @mkState memOS
         (@RegisterResource memOS "/notes.txt" "renamed" "" "text/plain" ∅ demoServer)
         demoWorld)
    ∧ listed ≡ₚ Resource.mk "/notes.txt" "renamed" "" "text/plain" ∅
                :: (snd <$> map_to_list (delete "/notes.txt"
                                           (@Server.resources memOS demoServer))).
Proof.
  apply (@resources_list_after_register memOS
           (MCPRequest.mk "2.0" (VFloat64 3) "resources/list" VNil)
           demoServer demoWorld "/notes.txt" "renamed" "" "text/plain" ∅).
  reflexivity.
Defined.

Lemma tools_list_lists_callable_tools_witness :
  ∃ listed,
    @handleRequest memOS (MCPRequest.mk "2.0" (VFloat64 4) "tools/list" VNil) demoState
    = (resultResponse (VFloat64 4)
         (VMap {[ "tools" := VSlice (box_MCPTool <$> listed) ]}), demoState)
    ∧ MCPTool.Name <$> listed = ["echo"].
Proof.
  destruct (@tools_list_lists_callable_tools memOS
              (MCPRequest.mk "2.0" (VFloat64 4) "tools/list" VNil) demoState)
    as (listed & Hresp & _ & _ & _).
  - reflexivity.
  - apply registryKeyed_Register, registryKeyed_empty.
  - exists [MCPTool.mk "echo" "Echo the argument x" VNil].
    split; [reflexivity|reflexivity].
Defined.

(** ** What the exported calls of the client return *)

Lemma demoServer_schemasStable : @schemasStable memOS (@Server.tools memOS demoServer).
Proof.
  intros name tool Hl. simpl in Hl.
  apply lookup_insert_Some in Hl as [[_ <-]|[_ Hl]]; [constructor|].
  rewrite lookup_empty in Hl. discriminate.
Qed.

Lemma server_response_survives_wire_witness :
  decodeResponse
    (encodeResponse
       (@handleRequest memOS (callRequest (VFloat64 1) "echo" {[ "x" := VString "hi" ]})
          demoState).1)
  = Some (@handleRequest memOS (callRequest (VFloat64 1) "echo" {[ "x" := VString "hi" ]})
            demoState).1.
Proof.
  apply (@server_response_survives_wire memOS
           (encodeRequest (callRequest (VFloat64 1) "echo" {[ "x" := VString "hi" ]}))).
  - reflexivity.
  - apply demoServer_schemasStable.
  - reflexivity.
Defined.

(** Property X12.  No call through the client succeeds: whenever [sendRequest] has
    returned to [Initialize], [ListTools] or [CallTool], in any
    interleaving (fewer than 2^63 calls issued), it has returned the
    error "request timeout" or "failed to send request: <cause>", and the
    exported call returns that error: [Initialize] leaves [serverInfo] as
    it was, [ListTools] returns no tools, [CallTool] the empty string. *)
Theorem exported_calls_return_errors (cfg : Config) (i : nat) (cl : Call)
    (o : Outcome) (cause : string) (c : Client.t) :
  reachable cfg → counterInRange cfg →
  calls cfg !! i = Some cl → call_pc cl = Finished o →
  ∃ msg,
    (msg = "request timeout" ∨ msg = "failed to send request: " +:+ cause)
    ∧ sendRequest_error cause o = Some msg
    ∧ Initialize_return cause o c = (Some msg, c)
    ∧ ListTools_return cause o = ([], Some msg)
    ∧ CallTool_return cause o = ("", Some msg).
Proof.
  intros Hreach Hrange Hi Hpc.
  pose proof (inv_calls _ (Inv_reachable _ Hreach Hrange) _ _ Hi) as [_ Hinv].
  rewrite Hpc in Hinv. simpl in Hinv. destruct Hinv as (_ & _ & Hresp).
  destruct o as [resp| |]; [discriminate Hresp| |].
  - exists ("failed to send request: " +:+ cause). repeat split. right. reflexivity.
  - exists "request timeout". repeat split. left. reflexivity.
Qed.

Lemma exported_calls_return_errors_witness :
  CallTool_return "broken pipe" RequestTimeout = ("", Some "request timeout")
  ∧ Initialize_return "broken pipe" RequestTimeout NewMCPClient
    = (Some "request timeout", NewMCPClient).
Proof.
  assert (Hreach : reachable timedOutConfig)
    by (exists silentServerRun; vm_compute; reflexivity).
  assert (Hrange : counterInRange timedOutConfig) by (vm_compute; reflexivity).
  destruct (exported_calls_return_errors timedOutConfig 0
              (mkCall (MCPRequest.mk "2.0" (VInt64 1) "tools/list" VNil)
                 (Finished RequestTimeout))
              RequestTimeout "broken pipe" NewMCPClient Hreach Hrange)
    as (msg & _ & Hmsg & Hinit & _ & Hcall).
  - vm_compute. reflexivity.
  - reflexivity.
  - injection Hmsg as <-. split; [exact Hcall|exact Hinit].
Defined.

(** ** The built-in tools *)

Section BuiltinToolFacts.
Context `{Shell}.

(** Property X15.  [FileTool] touches the machine only to write or to
    delete: a call that leaves the machine in another state than it found it
    was a write with a path and a content, or a delete with a path, all of
    them strings.  A call whose arguments are missing or of the wrong type,
    a read, a list and an unknown operation leave the machine as it was. *)
Theorem FileTool_changes_only_on_write_and_delete (args : gmap string Value)
    (w : World) :
  (FileTool_Execute args w).2 ≠ w →
  is_Some (argString args "path")
  ∧ ((argString args "operation" = Some "write" ∧ is_Some (argString args "content"))
     ∨ argString args "operation" = Some "delete").
Proof.
  unfold FileTool_Execute, failWith. intros Hw.
  destruct (argString args "operation") as [operation|]; [|contradiction].
  destruct (argString args "path") as [path|]; [|contradiction].
  split; [eauto|].
  case_bool_decide as Hread.
  { destruct (ReadFile path w) as [content [err|]]; contradiction. }
  case_bool_decide as Hwrite.
  { subst operation. left. split; [reflexivity|].
    destruct (argString args "content") as [content|]; [eauto|contradiction]. }
  case_bool_decide as Hlist.
  { destruct (ReadDir path w) as [files [err|]]; contradiction. }
  case_bool_decide as Hdelete.
  { subst operation. right. reflexivity. }
  contradiction.
Qed.

(** Property X16.  [SearchTool] reports an error only for a missing pattern,
    and then without running anything: whatever grep does, once the pattern
    is a string the error returned is nil; and when grep fails without
    output the result is "No matches found". *)
Theorem SearchTool_error_only_for_missing_pattern (args : gmap string Value)
    (w : World) (r : (string * error) * World) :
  SearchTool_Execute args w = Some r →
  (argString args "pattern" = None ∧ r = (("", Some "pattern is required"), w))
  ∨ (∃ pattern caseSensitive,
       argString args "pattern" = Some pattern
       ∧ let g := CombinedOutput "grep" (grepArgs caseSensitive pattern args) "" w in
         r.1.2 = None ∧ r.2 = g.2
         ∧ (g.1.2 ≠ None → g.1.1 = "" → r.1.1 = "No matches found")
         ∧ (g.1.2 = None ∨ g.1.1 ≠ "" → r.1.1 = g.1.1)).
Proof.
  unfold SearchTool_Execute. intros Hr.
  destruct (argString args "pattern") as [pattern|];
    [|left; split; [reflexivity|unfold failWith in Hr; congruence]].
  right. exists pattern.
  assert (Hrun : ∀ cs, r = runGrep (grepArgs cs pattern args) w →
            let g := CombinedOutput "grep" (grepArgs cs pattern args) "" w in
            r.1.2 = None ∧ r.2 = g.2
            ∧ (g.1.2 ≠ None → g.1.1 = "" → r.1.1 = "No matches found")
            ∧ (g.1.2 = None ∨ g.1.1 ≠ "" → r.1.1 = g.1.1)).
  { intros cs ->. unfold runGrep. cbv zeta.
    destruct (CombinedOutput "grep" _ "" w) as [[output [err|]] w']; simpl.
    - case_bool_decide; simpl; intuition congruence.
    - intuition congruence. }
  destruct (args !! "case_sensitive") as [[|b| | | | |]|]; try discriminate.
  - exists (Some b). split; [reflexivity|]. apply Hrun. congruence.
  - exists None. split; [reflexivity|]. apply Hrun. congruence.
Qed.

(** Property X17.  [SearchTool.Execute] panics exactly when the pattern is a
    string and [case_sensitive] is present without being a bool (a string
    such as "false", a number, null): the type assertion of line 295 is
    unchecked. *)
Theorem SearchTool_panics_on_non_bool_case_sensitive (args : gmap string Value)
    (w : World) :
  SearchTool_Execute args w = None
  ↔ is_Some (argString args "pattern")
    ∧ ∃ v, args !! "case_sensitive" = Some v ∧ ∀ b, v ≠ VBool b.
Proof.
  unfold SearchTool_Execute. split.
  - destruct (argString args "pattern") as [pattern|]; [|discriminate].
    intros Hnone. split; [eauto|].
    destruct (args !! "case_sensitive") as [v|]; [|discriminate].
    exists v. split; [reflexivity|]. intros b ->. discriminate.
  - intros [[pattern ->] (v & -> & Hv)].
    destruct v; try reflexivity. exfalso. eapply Hv. reflexivity.
Qed.

End BuiltinToolFacts.

Lemma FileTool_changes_only_on_write_and_delete_witness :
  let args : gmap string Value :=
    {[ "operation" := VString "write"; "path" := VString "/a.txt";
       "content" := VString "x" ]} in
  (@FileTool_Execute memOS memShell args ∅).2 = {[ "/a.txt" := "x" ]}
  ∧ is_Some (argString args "path")
  ∧ ((argString args "operation" = Some "write" ∧ is_Some (argString args "content"))
     ∨ argString args "operation" = Some "delete").
Proof.
  intros args. split; [reflexivity|].
  apply (@FileTool_changes_only_on_write_and_delete memOS memShell args ∅).
  intros Heq. apply (f_equal (λ fs : gmap string string, fs !! "/a.txt")) in Heq.
  discriminate Heq.
Defined.

Lemma SearchTool_error_only_for_missing_pattern_witness :
  @SearchTool_Execute memOS memShell {[ "pattern" := VString "TODO" ]} ∅
  = Some (("No matches found", None), ∅).
Proof.
  destruct (@SearchTool_error_only_for_missing_pattern memOS memShell
              {[ "pattern" := VString "TODO" ]} ∅ (("No matches found", None), ∅))
    as [[Habs _]|_]; [reflexivity|discriminate Habs|reflexivity].
Defined.

Lemma SearchTool_panics_on_non_bool_case_sensitive_witness :
  @SearchTool_Execute memOS memShell
    {[ "pattern" := VString "TODO"; "case_sensitive" := VString "false" ]} ∅
  = None.
Proof.
  apply (@SearchTool_panics_on_non_bool_case_sensitive memOS memShell).
  split; [eexists; reflexivity|].
  exists (VString "false"). split; [reflexivity|]. discriminate.
Defined.

(** ** Request ids *)

(** Property X18.  The calls issued through one client carry the ids int64
    1, 2, 3, ...  in the order in which they were issued, so no two calls
    share an id (fewer than 2^63 calls issued). *)
Theorem issued_ids_are_sequential (cfg : Config) (i : nat) (cl : Call) :
  reachable cfg → counterInRange cfg → calls cfg !! i = Some cl →
  MCPRequest.ID (call_req cl) = VInt64 (Z.of_nat i + 1)
  ∧ ∀ j cl', calls cfg !! j = Some cl' →
      MCPRequest.ID (call_req cl') = MCPRequest.ID (call_req cl) → j = i.
Proof.
  intros Hreach Hrange Hi.
  pose proof (Inv_reachable _ Hreach Hrange) as HI.
  destruct (inv_calls _ HI _ _ Hi) as [Hid _].
  split; [exact Hid|]. intros j cl' Hj Heq.
  destruct (inv_calls _ HI _ _ Hj) as [Hidj _].
  rewrite Hid, Hidj in Heq. injection Heq as Heq. lia.
Qed.


Lemma issued_ids_are_sequential_witness :
  reachable twoCallsSent ∧ counterInRange twoCallsSent
  ∧ ∃ cl, calls twoCallsSent !! 1%nat = Some cl
          ∧ MCPRequest.ID (call_req cl) = VInt64 2.
Proof.
  assert (Hreach : reachable twoCallsSent) by (exists twoCalls; vm_compute; reflexivity).
  assert (Hrange : counterInRange twoCallsSent) by (vm_compute; reflexivity).
  split; [exact Hreach|]. split; [exact Hrange|].
  destruct (calls twoCallsSent !! 1%nat) as [cl|] eqn:Hcl; [|vm_compute in Hcl; discriminate].
  exists cl. split; [reflexivity|].
  apply (issued_ids_are_sequential twoCallsSent 1 cl Hreach Hrange Hcl).
Defined.

(** ** The resources of the agent *)

Section AgentFacts.
Context `{OS} {Time : Type}.
Variable Format_RFC3339 : Time → string.

Lemma registerFiles_lookup (files : list (FileContext.t Time)) (s : Server.t)
    (path : string) :
  Server.resources (foldl (registerFile Format_RFC3339) s files) !! path
  = match last (filter (λ f, FileContext.Path f = path) files) with
    | Some file => Some (projectResource Format_RFC3339 file)
    | None => Server.resources s !! path
    end.
Proof.
  revert s. induction files as [|file files IH]; intros s; [reflexivity|].
  cbn [foldl]. rewrite IH. rewrite filter_cons.
  destruct (decide (FileContext.Path file = path)) as [Hp|Hp].
  - destruct (filter _ files) as [|f fs] eqn:Hf.
    + simpl. rewrite <- Hp. rewrite lookup_insert_eq. reflexivity.
    + rewrite (last_cons_cons file f fs).
      destruct (last (f :: fs)) eqn:Hlast; [reflexivity|].
      apply last_None in Hlast. discriminate.
  - destruct (last (filter _ files)); [reflexivity|].
    simpl. rewrite lookup_insert_ne by exact Hp. reflexivity.
Qed.

Lemma registerFiles_fields (files : list (FileContext.t Time)) (s : Server.t) :
  let s' := foldl (registerFile Format_RFC3339) s files in
  Server.name s' = Server.name s ∧ Server.version s' = Server.version s
  ∧ Server.tools s' = Server.tools s ∧ Server.capabilities s' = Server.capabilities s.
Proof.
  revert s. induction files as [|file files IH]; intros s; [simpl; auto|].
  cbn [foldl]. destruct (IH (registerFile Format_RFC3339 s file)) as (? & ? & ? & ?).
  simpl in *. auto.
Qed.

Lemma filter_none (files : list (FileContext.t Time)) (path : string) :
  path ∉ FileContext.Path <$> files →
  filter (λ f, FileContext.Path f = path) files = [].
Proof.
  induction files as [|f files IH]; intros Hpath; [reflexivity|].
  rewrite fmap_cons in Hpath. apply not_elem_of_cons in Hpath as [Hne Hpath].
  rewrite filter_cons, decide_False by congruence. apply IH. exact Hpath.
Qed.

Lemma last_filter_NoDup (files : list (FileContext.t Time)) (file : FileContext.t Time) :
  NoDup (FileContext.Path <$> files) → file ∈ files →
  last (filter (λ f, FileContext.Path f = FileContext.Path file) files) = Some file.
Proof.
  induction files as [|f files IH]; intros Hnd Hin; [inversion Hin|].
  rewrite fmap_cons in Hnd. apply NoDup_cons in Hnd as [Hf Hnd].
  rewrite filter_cons. apply elem_of_cons in Hin as [->|Hin].
  - rewrite decide_True by reflexivity.
    rewrite (filter_none files _ Hf). reflexivity.
  - rewrite decide_False; [apply IH; assumption|].
    intros Hpath. apply Hf. rewrite Hpath. apply list_elem_of_fmap_2. exact Hin.
Qed.

Lemma registerProjectResources_lookup (files : list (FileContext.t Time))
    (s : Server.t) (file : FileContext.t Time) :
  NoDup (FileContext.Path <$> files) → file ∈ files →
  Server.resources (registerProjectResources Format_RFC3339 (files, None) s).2
    !! FileContext.Path file
  = Some (projectResource Format_RFC3339 file).
Proof.
  intros Hnd Hin. unfold registerProjectResources. cbn [fst snd].
  rewrite registerFiles_lookup, (last_filter_NoDup files file Hnd Hin). reflexivity.
Qed.

(** Property X19.  [registerProjectResources] publishes every file of the
    project context under its path: uri and name are the path, the
    description is "<language> file (<path>)", the mime type is
    application/json when the language contains "json" and text/plain
    otherwise, and the metadata hold language, size, modification time and
    token count.  Resources under other uris, the tools, the name and the
    version of the server are untouched.  When the project context could not
    be computed, the error is returned and nothing is registered. *)
Theorem project_files_become_resources (files : list (FileContext.t Time))
    (s : Server.t) :
  NoDup (FileContext.Path <$> files) →
  let s' := (registerProjectResources Format_RFC3339 (files, None) s).2 in
  (registerProjectResources Format_RFC3339 (files, None) s).1 = None
  ∧ (∀ file, file ∈ files →
       Server.resources s' !! FileContext.Path file
       = Some (Resource.mk (FileContext.Path file) (FileContext.Path file)
                 (FileContext.Language file +:+ " file (" +:+ FileContext.Path file +:+ ")")
                 (if strings_Contains (FileContext.Language file) "json"
                  then "application/json" else "text/plain")
                 {[ "language" := FileContext.Language file;
                    "size" := pretty (FileContext.Size file);
                    "last_modified" := Format_RFC3339 (FileContext.LastModified file);
                    "token_count" := pretty (FileContext.TokenCount file) ]}))
  ∧ (∀ path, path ∉ FileContext.Path <$> files →
       Server.resources s' !! path = Server.resources s !! path)
  ∧ Server.tools s' = Server.tools s
  ∧ Server.name s' = Server.name s ∧ Server.version s' = Server.version s
  ∧ ∀ err, registerProjectResources Format_RFC3339 (files, Some err) s = (Some err, s).
Proof.
  intros Hnd s'. subst s'. unfold registerProjectResources. cbn [fst snd].
  split; [reflexivity|]. split; [|split].
  - intros file Hin.
    apply (registerProjectResources_lookup files s file Hnd Hin).
  - intros path Hpath. rewrite registerFiles_lookup.
    rewrite (filter_none files _ Hpath). reflexivity.
  - destruct (registerFiles_fields files s) as (? & ? & ? & ?). auto.
Qed.

(** Property X20.  A project file whose language contains "json" is
    published by [StartMCPServer] but cannot be read: resources/read for its
    path is answered with the error -32602 "Unsupported resource type".  The
    other project files are read from the disk at the time of the request
    (not from the content the project context holds). *)
Theorem json_project_files_are_unreadable (tools : Registry.t)
    (files : list (FileContext.t Time)) (file : FileContext.t Time)
    (req : MCPRequest.t) (m : gmap string Value) (w : World) :
  NoDup (FileContext.Path <$> files) → file ∈ files →
  MCPRequest.Method req = "resources/read" →
  MCPRequest.Params req = VMap m →
  m !! "uri" = Some (VString (FileContext.Path file)) → noCaseVariant "uri" m →
  let built := StartMCPServer_build Format_RFC3339 tools (files, None) in
  built.1 = None
  ∧ (handleRequest req (mkState built.2 w)).1
    = if strings_Contains (FileContext.Language file) "json" then
        errorResponse (MCPRequest.ID req) (-32602) "Unsupported resource type"
      else
        match ReadFile (FileContext.Path file) w with
        | (_, Some err) =>
            errorResponse (MCPRequest.ID req) (-32602)
              ("Failed to read resource: " +:+ err)
        | (content, None) =>
            resultResponse (MCPRequest.ID req)
              (VMap {[ "contents" :=
                         VSlice [VMap {[ "uri" := VString (FileContext.Path file);
                                         "mimeType" := VString "text/plain";
                                         "text" := VString content ]}] ]})
        end.
Proof.
  intros Hnd Hin Hm Hp Hu Hvar built. subst built.
  unfold StartMCPServer_build.
  pose proof (registerProjectResources_lookup files
                (NewMCPServer "claude-go" "0.1.0" tools) file Hnd Hin) as Hres.
  assert (Herr : (registerProjectResources Format_RFC3339 (files, None)
                    (NewMCPServer "claude-go" "0.1.0" tools)).1 = None) by reflexivity.
  destruct (registerProjectResources _ _ _) as [err s'] eqn:Hreg.
  simpl in Herr, Hres. subst err. cbn [fst snd]. split; [reflexivity|].
  unfold handleRequest. rewrite Hm. simpl.
  rewrite handleReadResource_eq, Hp.
  rewrite (decodeReadResourceParams_wellformed m _ Hu Hvar).
  cbn [fst snd server world ReadResourceParams.URI].
  rewrite Hres. unfold projectResource, resourceMimeType.
  cbn [Resource.MimeType Resource.URI].
  destruct (strings_Contains (FileContext.Language file) "json"); reflexivity.
Qed.

End AgentFacts.

Lemma project_files_become_resources_witness :
  @Server.resources memOS
    (@registerProjectResources memOS Z demoFormat (demoFiles, None) echoServer).2
  !! "/p/config.json"
  = Some (Resource.mk "/p/config.json" "/p/config.json" "json file (/p/config.json)"
            "application/json"
            {[ "language" := "json"; "size" := "2";
               "last_modified" := "1700000000"; "token_count" := "0" ]}).
Proof.
  destruct (@project_files_become_resources memOS Z demoFormat demoFiles echoServer)
    as (_ & Hres & _).
  - apply (bool_decide_eq_true_1 _). reflexivity.
  - refine (eq_trans
              (Hres (FileContext.mk "/p/config.json" "{}" 2 1700000000 "99914b93" "json" 0) _)
              _); [left|reflexivity].
Defined.

Lemma json_project_files_are_unreadable_witness :
  (@handleRequest memOS (readRequest (VFloat64 5) "/p/config.json")
     (@mkState memOS
        (@StartMCPServer_build memOS Z demoFormat (Registry.mk ∅) (demoFiles, None)).2
        {[ "/p/config.json" := "{}" ]})).1
  = errorResponse (VFloat64 5) (-32602) "Unsupported resource type".
Proof.
  destruct (@json_project_files_are_unreadable memOS Z demoFormat (Registry.mk ∅)
              demoFiles
              (FileContext.mk "/p/config.json" "{}" 2 1700000000 "99914b93" "json" 0)
              (readRequest (VFloat64 5) "/p/config.json")
              {[ "uri" := VString "/p/config.json" ]}
              {[ "/p/config.json" := "{}" ]}) as [_ Hresp].
  - apply (bool_decide_eq_true_1 _). reflexivity.
  - left.
  - reflexivity.
  - reflexivity.
  - reflexivity.
  - apply noCaseVariant_decide. reflexivity.
  - exact Hresp.
Defined.

(** ** The shape of every response *)

Section ResponseShape.
Context `{OS}.

Lemma handleRequest_shape (req : MCPRequest.t) (st : State) :
  ∃ result error,
    (handleRequest req st).1 = MCPResponse.mk "2.0" (MCPRequest.ID req) result error
    ∧ ((error = None ∧ ∃ m, result = VMap m)
       ∨ (result = VNil
          ∧ ∃ message,
              error = Some (MCPError.mk
                              (if recognized (MCPRequest.Method req) then -32602
                               else -32601)
                              message VNil))).
Proof.
  destruct (recognized (MCPRequest.Method req)) eqn:Hrec.
  2:{ rewrite (handleRequest_unrecognized req st Hrec). simpl.
      eexists _, _. split; [reflexivity|]. right. eauto. }
  unfold recognized in Hrec. apply bool_decide_eq_true_1 in Hrec.
  unfold handleRequest. repeat case_bool_decide;
    rewrite ?handleCallTool_eq, ?handleReadResource_eq; cbn [fst].
  - eexists _, _. split; [reflexivity|]. left. unfold box_InitializeResult. eauto.
  - eexists _, _. split; [reflexivity|]. left. eauto.
  - cbv zeta. destruct (Registry.Execute _ _ _ _) as [[result [err|]] w]; simpl;
      eexists _, _; (split; [reflexivity|]); [right|left]; eauto.
  - eexists _, _. split; [reflexivity|]. left. eauto.
  - destruct (Server.resources (server st) !! _) as [resource|];
      [|eexists _, _; split; [reflexivity|]; right; eauto].
    destruct (readableMime _); [|eexists _, _; split; [reflexivity|]; right; eauto].
    destruct (ReadFile _ _) as [content [err|]]; simpl;
      eexists _, _; (split; [reflexivity|]); [right|left]; eauto.
  - exfalso.
    repeat (apply elem_of_cons in Hrec as [Hrec|Hrec]; [contradiction|]).
    inversion Hrec.
Qed.

(** Property X21.  Every response of the server carries the version "2.0"
    and the id of the request, and either a result or an error, never both
    and never neither: a result is an object; an error has no data, and its
    code is -32601 exactly when the method is not one of the five recognized
    ones, and -32602 otherwise.  On the wire the response is an object with
    the members jsonrpc, then id unless the request had none (or null), then
    result or error; a request without id is answered like any other. *)
Theorem response_has_result_xor_error (req : MCPRequest.t) (st : State) :
  let resp := (handleRequest req st).1 in
  let code := if recognized (MCPRequest.Method req) then -32602 else -32601 in
  MCPResponse.JSONRPC resp = "2.0"
  ∧ MCPResponse.ID resp = MCPRequest.ID req
  ∧ ((MCPResponse.Error resp = None
      ∧ ∃ m, MCPResponse.Result resp = VMap m
             ∧ encodeResponse resp
               = JObj ([("jsonrpc", JStr "2.0")]
                       ++ omitempty "id" (MCPRequest.ID req)
                       ++ [("result", encodeValue (VMap m))]))
     ∨ (MCPResponse.Result resp = VNil
        ∧ ∃ message,
            MCPResponse.Error resp = Some (MCPError.mk code message VNil)
            ∧ encodeResponse resp
              = JObj ([("jsonrpc", JStr "2.0")]
                      ++ omitempty "id" (MCPRequest.ID req)
                      ++ [("error", JObj [("code", JNum code);
                                          ("message", JStr message)])]))).
Proof.
  cbv zeta.
  destruct (handleRequest_shape req st) as (result & error & -> & Hshape).
  cbn [MCPResponse.JSONRPC MCPResponse.ID MCPResponse.Result MCPResponse.Error].
  split; [reflexivity|]. split; [reflexivity|].
  destruct Hshape as [[-> [m ->]]|[-> [message ->]]].
  - left. split; [reflexivity|]. exists m. split; [reflexivity|].
    unfold encodeResponse.
    cbn [MCPResponse.JSONRPC MCPResponse.ID MCPResponse.Result MCPResponse.Error omitempty].
    rewrite app_nil_r. reflexivity.
  - right. split; [reflexivity|]. exists message. split; [reflexivity|]. reflexivity.
Qed.

Lemma decode_members_fails {A} (f : A → string * JSON → option A)
    (l : list (string * JSON)) (kv : string * JSON) (a : A) :
  kv ∈ l → (∀ x, f x kv = None) → decode_members f l a = None.
Proof.
  intros Hin Hf. revert a. induction l as [|kv' l IH]; intros a; [inversion Hin|].
  apply elem_of_cons in Hin as [<-|Hin]; simpl.
  - rewrite Hf. reflexivity.
  - destruct (f a kv'); [apply IH; exact Hin|reflexivity].
Qed.

(** Property X22.  A value on the stream that is not a request ends the
    connection without any response: a JSON boolean, number, string or
    array, and an object in which the member jsonrpc or method (in any
    letter case) is neither a string nor null.  Nothing is written, nothing
    after it is read, and the state is unchanged. *)
Theorem malformed_request_closes_connection (j : JSON) (rest : list Rx)
    (out : list JSON) (wr : option nat) (st : State) :
  (j ≠ JNull ∧ ∀ l, j ≠ JObj l)
  ∨ (∃ l k v, j = JObj l ∧ (k, v) ∈ l
              ∧ (key_is "jsonrpc" k = true ∨ key_is "method" k = true)
              ∧ v ≠ JNull ∧ ∀ s, v ≠ JStr s) →
  decodeRequest j = None
  ∧ handleConnection (mkConn (RxValue j :: rest) out wr false) st
    = (mkConn rest out wr true, st).
Proof.
  intros Hbad.
  assert (Hdec : decodeRequest j = None).
  { destruct Hbad as [[Hnull Hobj]|(l & k & v & -> & Hin & Hkey & Hnull & Hstr)].
    - destruct j; try reflexivity; [contradiction|exfalso; eapply Hobj; reflexivity].
    - simpl. apply (decode_members_fails _ _ (k, v)); [exact Hin|].
      intros x. unfold decodeRequest_member.
      assert (Hv : ∀ old, decode_string v old = None).
      { intros old. destruct v; try reflexivity; [contradiction|].
        exfalso. eapply Hstr. reflexivity. }
      destruct (key_is "jsonrpc" k) eqn:Hj; [rewrite Hv; reflexivity|].
      destruct (key_is "id" k) eqn:Hi.
      { destruct Hkey as [Hkey|Hkey]; [discriminate|].
        exfalso. clear -Hi Hkey. unfold key_is in *.
        apply String.eqb_eq in Hi, Hkey. rewrite Hi in Hkey. discriminate. }
      destruct Hkey as [Hkey|Hkey]; [discriminate|].
      rewrite Hkey, Hv. reflexivity. }
  split; [exact Hdec|].
  unfold handleConnection. simpl. rewrite Hdec. reflexivity.
Qed.

(** Property X23.  Handling a connection never changes the server object:
    whatever the peer sends and however the connection ends, the name, the
    version, the capabilities, the tool registry and the resource table are
    what they were. *)
Theorem connection_never_changes_server (conn : Conn) (st : State) :
  server (handleConnection conn st).2 = server st.
Proof.
  unfold handleConnection.
  destruct (handleConnection_loop _ _ _ _) as [[rest out] st'] eqn:Hloop.
  rewrite handleConnection_loop_spec in Hloop. cbv zeta in Hloop.
  injection Hloop as _ _ <-. simpl. apply handleRequests_server.
Qed.

End ResponseShape.

Lemma malformed_request_closes_connection_witness :
  @handleConnection memOS
    (mkConn [RxValue (JObj [("jsonrpc", JStr "2.0"); ("id", JNum 1); ("method", JNum 7)]);
             RxValue (encodeRequest (readRequest (VFloat64 2) "/notes.txt"))]
       [] None false)
    demoState
  = (mkConn [RxValue (encodeRequest (readRequest (VFloat64 2) "/notes.txt"))]
       [] None true, demoState).
Proof.
  apply (@malformed_request_closes_connection memOS).
  right. exists [("jsonrpc", JStr "2.0"); ("id", JNum 1); ("method", JNum 7)], "method", (JNum 7).
  split; [reflexivity|]. split; [right; right; left|].
  split; [right; reflexivity|]. split; discriminate.
Defined.

(** ** The schemas of the built-in tools and what [Execute] checks *)

Section SchemaFacts.
Context `{Shell}.

(** Property X24.  Every built-in tool enforces what its schema marks as
    required: when a required parameter is missing, or is not a string,
    [Execute] returns an error and leaves the machine as it was (it runs no
    command and touches no file). *)
Theorem required_parameters_are_enforced (args : gmap string Value) (w : World)
    (p : string) :
  argString args p = None →
  (p ∈ required FileTool_Parameters →
   ∃ msg, FileTool_Execute args w = (("", Some msg), w))
  ∧ (p ∈ required GitTool_Parameters →
     ∃ msg, GitTool_Execute args w = (("", Some msg), w))
  ∧ (p ∈ required ShellTool_Parameters →
     ∃ msg, ShellTool_Execute args w = (("", Some msg), w))
  ∧ (p ∈ required SearchTool_Parameters →
     ∃ msg, SearchTool_Execute args w = Some (("", Some msg), w)).
Proof.
  intros Hp.
  change (required FileTool_Parameters) with ["operation"; "path"].
  change (required GitTool_Parameters) with ["command"].
  change (required ShellTool_Parameters) with ["command"].
  change (required SearchTool_Parameters) with ["pattern"].
  repeat split; intros Hin;
    repeat (apply elem_of_cons in Hin as [->|Hin]); try (inversion Hin; fail).
  - unfold FileTool_Execute, failWith. rewrite Hp. eauto.
  - unfold FileTool_Execute, failWith. rewrite Hp.
    destruct (argString args "operation"); eauto.
  - unfold GitTool_Execute, failWith. rewrite Hp. eauto.
  - unfold ShellTool_Execute, failWith. rewrite Hp. eauto.
  - unfold SearchTool_Execute, failWith. rewrite Hp. eauto.
Qed.

(** Property X25.  [FileTool] rejects every operation that its schema does
    not enumerate: with a string operation outside the enum of the schema
    (read, write, list, delete) and a string path, [Execute] fails with
    "unknown operation: <operation>" and leaves the machine as it was. *)
Theorem FileTool_rejects_operations_outside_enum (args : gmap string Value)
    (w : World) (operation path : string) :
  argString args "operation" = Some operation →
  argString args "path" = Some path →
  operation ∉ enumOf FileTool_Parameters "operation" →
  FileTool_Execute args w = (("", Some ("unknown operation: " +:+ operation)), w).
Proof.
  intros Hop Hpath.
  change (enumOf FileTool_Parameters "operation") with ["read"; "write"; "list"; "delete"].
  unfold FileTool_Execute, failWith. rewrite Hop, Hpath.
  intros Hout. repeat case_bool_decide; try reflexivity;
    exfalso; apply Hout; subst operation;
    repeat (first [left; reflexivity|right]).
Qed.

End SchemaFacts.

Lemma required_parameters_are_enforced_witness :
  @FileTool_Execute memOS memShell {[ "operation" := VString "read" ]} ∅
  = (("", Some "path is required"), ∅).
Proof.
  assert (Hp : argString ({[ "operation" := VString "read" ]} : gmap string Value) "path"
               = None) by reflexivity.
  destruct (@required_parameters_are_enforced memOS memShell
              {[ "operation" := VString "read" ]} ∅ "path" Hp) as [Hfile _].
  destruct Hfile as [msg Hmsg]; [right; left|].
  reflexivity.
Defined.

Lemma FileTool_rejects_operations_outside_enum_witness :
  @FileTool_Execute memOS memShell
    {[ "operation" := VString "chmod"; "path" := VString "/a.txt" ]} ∅
  = (("", Some "unknown operation: chmod"), ∅).
Proof.
  apply (@FileTool_rejects_operations_outside_enum memOS memShell
           {[ "operation" := VString "chmod"; "path" := VString "/a.txt" ]} ∅
           "chmod" "/a.txt"); [reflexivity|reflexivity|].
  intros Hin. repeat (apply elem_of_cons in Hin as [Hin|Hin]; [discriminate Hin|]).
  inversion Hin.
Defined.
